(** * AiBotique: the hybrid recommendation core, embedded and verified

    The development follows the two Python modules that carry the
    algorithmic content of the repository:

    - [server_py/ml_recommendations.py]: the [FashionRecommendationEngine]
      (preference matcher, collaborative filter, hybrid blender, outfit
      assembler) and the top-level entry point with its static fallback;
    - [server_py/utils/recommender.py]: the static outfit catalogue scorer
      [recommend_products] and the dependency-free generator inside
      [get_recommendations].

    Conventions of the embedding.  Python [int] is [Z]; Python [float] is
    the kernel's binary64 [float], so every arithmetic step rounds exactly
    as CPython does; [str] is [string] (ASCII); raised exceptions are the
    [Raise] case of [result].  A [pandas.Series] is a record of optional
    columns, so that a missing label is a [KeyError].  What the program
    obtains from outside itself (the SQLite file, scikit-learn, the
    interpreter's string hash and set iteration order, the file system) is
    a field of a runtime record handed to the functions. *)

From Stdlib Require Import ZArith String Ascii List Bool Floats Lia.
From Stdlib Require Import Sorted Permutation DecimalString.
From Stdlib Require DecimalZ.
Import ListNotations.

Set Warnings "-inexact-float".
Local Open Scope string_scope.
Local Open Scope list_scope.
Local Open Scope Z_scope.

(* ================================================================== *)
(** * Python values and control flow                                   *)
(* ================================================================== *)

Module Py.

(** Exceptions the modelled code can raise. *)
Inductive exn : Type :=
| ValueError | KeyError | AttributeError | IndexError
| OverflowError | ZeroDivisionError | DatabaseError | OSError.

Inductive result (A : Type) : Type :=
| Ok (a : A)
| Raise (e : exn).
Arguments Ok {A} a.
Arguments Raise {A} e.

Definition bind {A B} (c : result A) (k : A -> result B) : result B :=
  match c with
  | Ok a => k a
  | Raise e => Raise e
  end.

Definition is_ok {A} (c : result A) : bool :=
  match c with Ok _ => true | Raise _ => false end.

(** [d.get(key, default)] on an optional field. *)
Definition get {A} (o : option A) (default : A) : A :=
  match o with Some a => a | None => default end.

(** [key in d] on an optional field. *)
Definition has_key {A} (o : option A) : bool :=
  match o with Some _ => true | None => false end.

(** [for x in l: ...] with a body that may raise: the first exception
    ends the loop. *)
Fixpoint for_each {A B} (f : A -> result B) (l : list A) : result (list B) :=
  match l with
  | [] => Ok []
  | x :: l' =>
      match f x with
      | Raise e => Raise e
      | Ok y =>
          match for_each f l' with
          | Raise e => Raise e
          | Ok ys => Ok (y :: ys)
          end
      end
  end.

(** ** Sequences *)

(** [l[:k]]: a negative bound counts from the end. *)
Definition slice_to {A} (l : list A) (k : Z) : list A :=
  if 0 <=? k then firstn (Z.to_nat k) l
  else firstn (List.length l - Z.to_nat (- k)) l.

(** [l * n]: the empty list when [n <= 0]. *)
Definition list_mul {A} (l : list A) (n : Z) : list A :=
  concat (repeat l (Z.to_nat n)).

(** [range(k)]. *)
Definition range (k : Z) : list Z := map Z.of_nat (seq 0 (Z.to_nat k)).

Definition len {A} (l : list A) : Z := Z.of_nat (List.length l).

(** [l.index(x)]: position of the first occurrence, [ValueError] if none. *)
Fixpoint index (x : string) (l : list string) : result Z :=
  match l with
  | [] => Raise ValueError
  | y :: l' =>
      if String.eqb y x then Ok 0
      else match index x l' with
           | Ok i => Ok (i + 1)
           | Raise e => Raise e
           end
  end.

(** [l[i]] with Python's negative indices. *)
Definition getitem {A} (l : list A) (i : Z) : result A :=
  let j := if i <? 0 then i + len l else i in
  if j <? 0 then Raise IndexError
  else match nth_error l (Z.to_nat j) with
       | Some a => Ok a
       | None => Raise IndexError
       end.

(** [a % b] on integers ([b = 0] raises). *)
Definition imod (a b : Z) : result Z :=
  if b =? 0 then Raise ZeroDivisionError else Ok (a mod b).

(** [x in l] for strings. *)
Definition mem (x : string) (l : list string) : bool :=
  existsb (String.eqb x) l.

(** ** Strings *)

Definition lower_ascii (c : ascii) : ascii :=
  let n := nat_of_ascii c in
  if (Nat.leb 65 n && Nat.leb n 90)%bool then ascii_of_nat (n + 32) else c.

(** [s.lower()] on ASCII text. *)
Fixpoint lower (s : string) : string :=
  match s with
  | EmptyString => EmptyString
  | String c s' => String (lower_ascii c) (lower s')
  end.

(** [s.startswith(p)]. *)
Definition startswith (s p : string) : bool := String.prefix p s.

(** [sub in s]. *)
Fixpoint contains (sub s : string) : bool :=
  String.prefix sub s ||
  match s with
  | EmptyString => false
  | String _ s' => contains sub s'
  end.

(** [str(n)] for an integer. *)
Definition str_of_int (n : Z) : string := NilZero.string_of_int (Z.to_int n).

(** [f"{n:03d}"] for a non-negative integer: zero padding to width 3. *)
Definition pad3 (n : Z) : string :=
  let s := str_of_int n in
  match String.length s with
  | 0%nat => String.append "000" s
  | 1%nat => String.append "00" s
  | 2%nat => String.append "0" s
  | _ => s
  end.

(** ** Binary64 arithmetic *)

(** Nearest integer to [num / den], ties to even ([den > 0], [num >= 0]). *)
Definition round_div_even (num den : Z) : Z :=
  let q := num / den in
  let r := num mod den in
  match 2 * r ?= den with
  | Lt => q
  | Gt => q + 1
  | Eq => if Z.even q then q else q + 1
  end.

(** [a / (d * 2^e)] rounded to the nearest integer, ties to even. *)
Definition scaled_quot (a d e : Z) : Z :=
  if 0 <=? e then round_div_even a (d * 2 ^ e)
  else round_div_even (a * 2 ^ (- e)) d.

Definition scaled_floor (a d e : Z) : Z :=
  if 0 <=? e then a / (d * 2 ^ e) else (a * 2 ^ (- e)) / d.

(** The binary64 value nearest to the rational [n / d] ([d > 0]), ties to
    even; overflow gives an infinity.  This is the rounding of CPython's
    int-to-float conversion and of [strtod]. *)
Definition nearest_float (n d : Z) : float :=
  if n =? 0 then 0%float
  else
    let a := Z.abs n in
    let e0 := Z.log2 a - Z.log2 d - 53 in
    let e1 := if 2 ^ 53 <=? scaled_floor a d e0 then e0 + 1 else e0 in
    let e := Z.max e1 (-1074) in
    let m := scaled_quot a d e in
    if m =? 0 then (if n <? 0 then (-0)%float else 0%float)
    else SF2Prim (S754_finite (n <? 0) (Z.to_pos m) e).

(** The implicit conversion of an [int] operand in mixed arithmetic. *)
Definition Z2F (z : Z) : float := nearest_float z 1.

(** [float(n)] for an [int]: [OverflowError] beyond the binary64 range. *)
Definition float_of_int (z : Z) : result float :=
  let f := Z2F z in
  if is_infinity f then Raise OverflowError else Ok f.

(** [round(x, nd)] for [nd >= 0]: the exact binary value of [x] is rounded
    to [nd] decimals (ties to even) and the decimal is read back as the
    nearest binary64 value; non-finite [x] and zeros are returned as is. *)
Definition round (x : float) (nd : Z) : float :=
  match Prim2SF x with
  | S754_finite s m e =>
      let p := 10 ^ nd in
      let N := if 0 <=? e then Z.pos m * 2 ^ e * p
               else round_div_even (Z.pos m * p) (2 ^ (- e)) in
      if N =? 0 then (if s then (-0)%float else 0%float)
      else nearest_float (if s then - N else N) p
  | _ => x
  end.

(** [x] is a number (not NaN). *)
Definition is_num (x : float) : bool := negb (is_nan x).

(** [sum] of floats, left to right from [0.0]. *)
Definition fsum (l : list float) : float :=
  fold_left PrimFloat.add l 0%float.

(** Left-to-right dot product of two vectors. *)
Definition dot (u v : list float) : float :=
  fsum (map (fun p => (fst p * snd p)%float) (combine u v)).

(** ** [list.sort(key=..., reverse=True)] and [sorted(..., reverse=True)]

    Python's sort is stable also under [reverse=True]: an element moves
    behind exactly those with a strictly larger key.  Insertion from the
    right computes that list whenever the keys are comparable (no NaN). *)
Section SortDesc.
Context {A : Type} (key : A -> float).

Fixpoint insert_desc (x : A) (l : list A) : list A :=
  match l with
  | [] => [x]
  | y :: l' =>
      if (key x <? key y)%float then y :: insert_desc x l'
      else x :: y :: l'
  end.

Definition sort_desc (l : list A) : list A := fold_right insert_desc [] l.

End SortDesc.

End Py.

Declare Scope py_scope.
Delimit Scope py_scope with py.
Notation "x <- c1 ;; c2" := (Py.bind c1 (fun x => c2))
  (at level 61, c1 at next level, right associativity) : py_scope.
Local Open Scope py_scope.

(* ================================================================== *)
(** * server_py/ml_recommendations.py                                  *)
(* ================================================================== *)

Module Engine.
Import Py.

(** ** Data model *)

(** A row of the [products] table. *)
Record Product : Type := {
  p_id : Z;
  p_name : string;
  p_brand : string;
  p_category : string;
  p_subcategory : string;
  p_color : string;
  p_size : string;
  p_price : float;
  p_image_url : string;
  p_description : string;
  p_target_gender : string;
  p_target_age_min : Z;
  p_target_age_max : Z;
  p_season : string;
  p_material : string;
  p_popularity_score : float;
  p_in_stock : bool
}.

(** A row of the rated-interaction join read by
    [load_user_interaction_data]. *)
Record Interaction : Type := {
  i_user_id : Z;
  i_product_id : Z;
  i_rating : float;
  i_interaction_type : string
}.

(** The SQLite file: the [products] table in row order and the rows of
    the interaction join. *)
Record Database : Type := {
  db_products : list Product;
  db_interactions : list Interaction
}.

(** The user preference mapping; a key that is absent is [None]. *)
Record Preferences : Type := {
  pref_user_id : option Z;
  pref_age : option Z;
  pref_gender : option string;
  pref_color : option string;
  pref_style : option string;
  pref_budget : option float
}.

(** A [pandas.Series] holding (part of) a product row: the columns a
    query did not select are [None], and reading one raises [KeyError]. *)
Record Series : Type := {
  s_id : option Z;
  s_name : option string;
  s_brand : option string;
  s_category : option string;
  s_color : option string;
  s_price : option float;
  s_target_gender : option string;
  s_target_age_min : option Z;
  s_target_age_max : option Z;
  s_popularity_score : option float
}.

(** [row[label]]. *)
Definition col {A} (o : option A) : result A :=
  match o with Some v => Ok v | None => Raise KeyError end.

(** A full row of the [products] table as a series. *)
Definition series_of_product (p : Product) : Series := {|
  s_id := Some (p_id p);
  s_name := Some (p_name p);
  s_brand := Some (p_brand p);
  s_category := Some (p_category p);
  s_color := Some (p_color p);
  s_price := Some (p_price p);
  s_target_gender := Some (p_target_gender p);
  s_target_age_min := Some (p_target_age_min p);
  s_target_age_max := Some (p_target_age_max p);
  s_popularity_score := Some (p_popularity_score p)
|}.

(** The row shape of the query in [find_products_by_preferences]:
    [SELECT id, name, brand, category, color, price, target_gender,
    target_age_min, target_age_max], without [popularity_score]. *)
Definition preference_query_row (p : Product) : Series := {|
  s_id := Some (p_id p);
  s_name := Some (p_name p);
  s_brand := Some (p_brand p);
  s_category := Some (p_category p);
  s_color := Some (p_color p);
  s_price := Some (p_price p);
  s_target_gender := Some (p_target_gender p);
  s_target_age_min := Some (p_target_age_min p);
  s_target_age_max := Some (p_target_age_max p);
  s_popularity_score := None
|}.

(** The pivot table built by [build_user_item_matrix]: sorted distinct
    user ids, sorted distinct product ids, one row of ratings per user. *)
Record UserItemMatrix : Type := {
  m_index : list Z;
  m_columns : list Z;
  m_values : list (list float)
}.

(** A fitted [TruncatedSVD]: [item_factors] is [components_.T] (one
    latent vector per matrix column) and [transform] projects a rating
    row onto the latent space. *)
Record SVDModel : Type := {
  item_factors : list (list float);
  transform : list float -> list float
}.

(** The engine object ([self]). *)
Record EngineState : Type := {
  conn : option Database;
  user_item_matrix : option UserItemMatrix;
  item_features_matrix : option (list (list float));
  svd_model : option SVDModel
}.

(** [FashionRecommendationEngine()]. *)
Definition new_engine : EngineState := {|
  conn := None;
  user_item_matrix := None;
  item_features_matrix := None;
  svd_model := None
|}.

(** What the engine obtains from the libraries it calls. *)
Record Runtime : Type := {
  (** [sqlite3.connect(db_path)] with the schema the queries expect. *)
  sqlite_connect : result Database;
  (** TF-IDF over the text columns stacked with the normalised numeric
      columns, as computed in [build_item_features_matrix]. *)
  fit_item_features : list Product -> result (list (list float));
  (** [TruncatedSVD(n_components=50, random_state=42).fit]. *)
  svd_fit : UserItemMatrix -> result SVDModel;
  (** [list(all_items - user_items)]: the order in which CPython iterates
      the difference of the two sets. *)
  set_difference_order : list Z -> list Z -> list Z
}.

Inductive Source : Type := collaborative | content.

(** The intermediate dictionaries of [get_hybrid_recommendations]. *)
Record Scored : Type := {
  sc_product_id : Z;
  sc_score : float;
  sc_source : Source
}.

(** A product detail dictionary extended with the recommendation keys. *)
Record Recommendation : Type := {
  rec_details : Product;
  recommendation_score : float;
  recommendation_source : Source
}.

Inductive Slot : Type := top | bottom | shoes | accessory.

Definition slot_eqb (a b : Slot) : bool :=
  match a, b with
  | top, top | bottom, bottom | shoes, shoes | accessory, accessory => true
  | _, _ => false
  end.

Record OutfitItem : Type := {
  it_type : Slot;
  it_name : string;
  it_brand : string;
  it_price : float;
  it_image_url : string
}.

Record Outfit : Type := {
  o_outfit_id : string;
  o_name : string;
  o_description : string;
  o_items : list OutfitItem;
  o_total_price : float;
  o_style : string;
  o_color_scheme : string;
  o_target_gender : string;
  o_target_age : string;
  o_in_stock : bool
}.

(** ** Queries *)

(** [ORDER BY popularity_score DESC]: rows of equal popularity stay in
    table order. *)
Definition order_by_popularity (rows : list Product) : list Product :=
  sort_desc p_popularity_score rows.

(** [LIMIT n]: SQLite reads a negative bound as no bound. *)
Definition limit {A} (n : Z) (rows : list A) : list A :=
  if n <? 0 then rows else firstn (Z.to_nat n) rows.

Definition in_stock_products (db : Database) : list Product :=
  filter p_in_stock (db_products db).

(** [pd.read_sql_query(query, self.conn)]: without a connection the
    call raises. *)
Definition read_sql {A} (c : option Database) (q : Database -> result A)
  : result A :=
  match c with
  | None => Raise AttributeError
  | Some db => q db
  end.

Definition load_user_interaction_data (self : EngineState)
  : result (list Interaction) :=
  read_sql (conn self) (fun db => Ok (db_interactions db)).

Definition load_product_features (self : EngineState)
  : result (list Product) :=
  read_sql (conn self) (fun db => Ok (in_stock_products db)).

Definition get_product_details (self : EngineState) (product_id : Z)
  : option Product :=
  match read_sql (conn self) (fun db =>
          Ok (filter (fun p => (p_id p =? product_id) && p_in_stock p)
                     (db_products db))) with
  | Ok (p :: _) => Some p
  | Ok [] => None
  | Raise _ => None
  end.

Definition get_popular_items (self : EngineState) (n_items : Z)
  : list (Z * float) :=
  match read_sql (conn self) (fun db =>
          Ok (limit n_items (order_by_popularity (in_stock_products db)))) with
  | Ok results => map (fun row => (p_id row, p_popularity_score row)) results
  | Raise _ => []
  end.

(** ** Preference matcher *)

Definition calculate_preference_score (product : Series)
  (preferences : Preferences) : result float :=
  let score := 0%float in
  (* Gender match *)
  score <- match pref_gender preferences with
           | Some g =>
               tg <- col (s_target_gender product) ;;
               if (String.eqb tg "unisex" || String.eqb tg g)%bool
               then Ok (score + 30)%float
               else Ok (score - 20)%float
           | None => Ok score
           end ;;
  (* Color match *)
  score <- match pref_color preferences with
           | Some c =>
               pc <- col (s_color product) ;;
               if String.eqb (lower pc) (lower c)
               then Ok (score + 25)%float else Ok score
           | None => Ok score
           end ;;
  (* Style match *)
  score <- match pref_style preferences with
           | Some s =>
               pc <- col (s_category product) ;;
               if String.eqb (lower pc) (lower s)
               then Ok (score + 25)%float else Ok score
           | None => Ok score
           end ;;
  (* Budget fit *)
  score <- match pref_budget preferences with
           | Some b =>
               price <- col (s_price product) ;;
               if (price <=? b)%float then
                 if (price <=? b * 0.5)%float
                 then Ok (score + 15)%float
                 else Ok (score + 10)%float
               else Ok (score - 15)%float
           | None => Ok score
           end ;;
  (* Age appropriateness *)
  score <- match pref_age preferences with
           | Some age =>
               lo <- col (s_target_age_min product) ;;
               if (lo <=? age) then
                 hi <- col (s_target_age_max product) ;;
                 if (age <=? hi) then Ok (score + 20)%float
                 else
                   if ((Z.abs (age - lo) <=? 5) || (Z.abs (age - hi) <=? 5))%bool
                   then Ok (score + 10)%float else Ok score
               else
                 if (Z.abs (age - lo) <=? 5) then Ok (score + 10)%float
                 else
                   hi <- col (s_target_age_max product) ;;
                   if (Z.abs (age - hi) <=? 5) then Ok (score + 10)%float
                   else Ok score
           | None => Ok score
           end ;;
  (* Popularity boost *)
  pop <- col (s_popularity_score product) ;;
  Ok (score + pop * 0.1)%float.

(** The [WHERE] conditions appended for the preference keys present. *)
Definition preference_conditions (preferences : Preferences) : list string :=
  (if has_key (pref_gender preferences)
   then ["(target_gender = ? OR target_gender = 'unisex')"%string] else []) ++
  (if has_key (pref_color preferences) then ["color = ?"%string] else []) ++
  (if has_key (pref_style preferences) then ["category = ?"%string] else []) ++
  (if has_key (pref_budget preferences) then ["price <= ?"%string] else []) ++
  (if has_key (pref_age preferences)
   then ["(target_age_min <= ? AND target_age_max >= ?)"%string] else []).

(** The query text already ends in [WHERE in_stock = TRUE]; when a
    condition is appended the text holds a second [WHERE] and SQLite
    rejects it.  Without conditions the query selects the in-stock
    products, most popular first, in the row shape
    [preference_query_row]. *)
Definition preference_query (preferences : Preferences) (n : Z)
  (db : Database) : result (list Series) :=
  match preference_conditions preferences with
  | _ :: _ => Raise DatabaseError
  | [] =>
      Ok (map preference_query_row
              (limit n (order_by_popularity (in_stock_products db))))
  end.

Definition find_products_by_preferences (self : EngineState)
  (preferences : Preferences) (n_recommendations : Z) : list (Z * float) :=
  let attempt :=
    results <- read_sql (conn self)
                 (preference_query preferences n_recommendations) ;;
    recommendations <-
      for_each (fun row =>
                  score <- calculate_preference_score row preferences ;;
                  i <- col (s_id row) ;;
                  Ok (i, score)) results ;;
    Ok (sort_desc snd recommendations) in
  match attempt with
  | Ok l => l
  | Raise _ => []
  end.

(** ** Collaborative filter *)

Fixpoint insert_unique (x : Z) (l : list Z) : list Z :=
  match l with
  | [] => [x]
  | y :: l' =>
      if x <? y then x :: l
      else if x =? y then l
      else y :: insert_unique x l'
  end.

(** The sorted distinct labels of a pivot axis. *)
Definition axis_labels (l : list Z) : list Z := fold_right insert_unique [] l.

(** [aggfunc='mean'] over the ratings of one (user, product) cell, and
    [fill_value=0] for a cell without ratings. *)
Definition cell (interactions : list Interaction) (u p : Z) : float :=
  let rs := map i_rating
              (filter (fun i => (i_user_id i =? u) && (i_product_id i =? p))
                      interactions) in
  match rs with
  | [] => 0%float
  | _ => (fsum rs / Z2F (len rs))%float
  end.

Definition pivot_table (interactions : list Interaction) : UserItemMatrix :=
  let users := axis_labels (map i_user_id interactions) in
  let items := axis_labels (map i_product_id interactions) in
  {| m_index := users;
     m_columns := items;
     m_values := map (fun u => map (cell interactions u) items) users |}.

Definition build_user_item_matrix (self : EngineState)
  (interactions_df : list Interaction) : EngineState :=
  {| conn := conn self;
     user_item_matrix := Some (pivot_table interactions_df);
     item_features_matrix := item_features_matrix self;
     svd_model := svd_model self |}.

Definition build_item_features_matrix (rt : Runtime) (self : EngineState)
  (products_df : list Product) : EngineState * result unit :=
  match fit_item_features rt products_df with
  | Ok m =>
      ({| conn := conn self;
          user_item_matrix := user_item_matrix self;
          item_features_matrix := Some m;
          svd_model := svd_model self |}, Ok tt)
  | Raise e => (self, Raise e)
  end.

Definition train_collaborative_filtering (rt : Runtime) (self : EngineState)
  : EngineState * result unit :=
  match user_item_matrix self with
  | None => (self, Raise ValueError)
  | Some m =>
      match svd_fit rt m with
      | Ok svd =>
          ({| conn := conn self;
              user_item_matrix := user_item_matrix self;
              item_features_matrix := item_features_matrix self;
              svd_model := Some svd |}, Ok tt)
      | Raise e => (self, Raise e)
      end
  end.

(** [index.get_loc(label)]: [None] stands for the [KeyError]. *)
Fixpoint get_loc (labels : list Z) (label : Z) : option Z :=
  match labels with
  | [] => None
  | y :: l' =>
      if y =? label then Some 0
      else match get_loc l' label with
           | Some i => Some (i + 1)
           | None => None
           end
  end.

Definition mem_Z (x : Z) (l : list Z) : bool := existsb (Z.eqb x) l.

(** The columns the user has rated: [columns[row > 0]]. *)
Definition rated_columns (columns : list Z) (row : list float) : list Z :=
  map fst (filter (fun cr => (0 <? snd cr)%float) (combine columns row)).

Definition get_collaborative_recommendations (rt : Runtime)
  (self : EngineState) (user_id : Z) (n_recommendations : Z)
  : result (list (Z * float)) :=
  match svd_model self with
  | None => Raise ValueError
  | Some svd =>
      match user_item_matrix self with
      | None => Raise AttributeError
      | Some m =>
          match get_loc (m_index m) user_id with
          | None =>
              (* Cold start problem - return popular items *)
              Ok (get_popular_items self n_recommendations)
          | Some user_idx =>
              row <- getitem (m_values m) user_idx ;;
              let user_factors := transform svd row in
              let predicted_ratings :=
                map (dot user_factors) (item_factors svd) in
              let user_items := rated_columns (m_columns m) row in
              let all_items := m_columns m in
              let unrated_items :=
                set_difference_order rt all_items user_items in
              recommendations <-
                for_each (fun item_id =>
                            match get_loc (m_columns m) item_id with
                            | None => Raise KeyError
                            | Some item_idx =>
                                score <- getitem predicted_ratings item_idx ;;
                                Ok (item_id, score)
                            end) unrated_items ;;
              Ok (slice_to (sort_desc snd recommendations) n_recommendations)
          end
      end
  end.

(** ** Hybrid blender *)

Definition scored (source : Source) (weight : float) (r : Z * float)
  : Scored :=
  {| sc_product_id := fst r;
     sc_score := (snd r * weight)%float;
     sc_source := source |}.

(** The loop over [recommendations] with the [seen_products] set. *)
Fixpoint remove_duplicates (seen_products : list Z) (l : list Scored)
  : list Scored :=
  match l with
  | [] => []
  | r :: l' =>
      if mem_Z (sc_product_id r) seen_products
      then remove_duplicates seen_products l'
      else r :: remove_duplicates (sc_product_id r :: seen_products) l'
  end.

(** Step 4: the detail lookup; a product without details is skipped. *)
Fixpoint with_details (self : EngineState) (l : list Scored)
  : list Recommendation :=
  match l with
  | [] => []
  | r :: l' =>
      match get_product_details self (sc_product_id r) with
      | Some product_details =>
          {| rec_details := product_details;
             recommendation_score := sc_score r;
             recommendation_source := sc_source r |} :: with_details self l'
      | None => with_details self l'
      end
  end.

(** The collaborative part of the blend: an exception of the source is
    logged and leaves the list as it is. *)
Definition collaborative_part (rt : Runtime) (self : EngineState)
  (user_id n_recommendations : Z) : list Scored :=
  match get_collaborative_recommendations rt self user_id
          (n_recommendations / 2) with
  | Ok cf_recs => map (scored collaborative 0.6) cf_recs
  | Raise _ => []
  end.

Definition content_part (self : EngineState) (user_preferences : Preferences)
  (n_recommendations : Z) : list Scored :=
  map (scored content 0.4)
      (find_products_by_preferences self user_preferences
         (n_recommendations / 2)).

Definition get_hybrid_recommendations (rt : Runtime) (self : EngineState)
  (user_id : Z) (user_preferences : Preferences) (n_recommendations : Z)
  : list Recommendation :=
  let recommendations :=
    collaborative_part rt self user_id n_recommendations ++
    content_part self user_preferences n_recommendations in
  let unique_recommendations := remove_duplicates [] recommendations in
  let unique_recommendations := sort_desc sc_score unique_recommendations in
  with_details self (slice_to unique_recommendations n_recommendations).

(** ** Outfit assembler *)

Definition item_type_of (product : Product) : Slot :=
  if mem (p_category product) ["shirts"; "tops"; "hoodies"; "jackets"]%string
  then top
  else if mem (p_category product) ["jeans"; "trousers"; "shorts"]%string
  then bottom
  else if String.eqb (p_subcategory product) "shoes" then shoes
  else accessory.

(** The local state of the loop in [create_outfit_from_products]. *)
Record Assembly : Type := {
  outfit_items : list OutfitItem;
  total_price : float;
  item_types : Slot -> option Product
}.

Definition empty_assembly : Assembly := {|
  outfit_items := [];
  total_price := 0%float;
  item_types := fun _ => None
|}.

Definition add_product (a : Assembly) (product : Product) : Assembly :=
  let item_type := item_type_of product in
  match item_types a item_type with
  | None =>
      {| outfit_items :=
           outfit_items a ++
           [{| it_type := item_type;
               it_name := p_name product;
               it_brand := p_brand product;
               it_price := p_price product;
               it_image_url := p_image_url product |}];
         total_price := (total_price a + p_price product)%float;
         item_types := fun s => if slot_eqb s item_type then Some product
                                else item_types a s |}
  | Some _ => a
  end.

Definition create_outfit_from_products (products : list Product)
  (user_preferences : Preferences) : option Outfit :=
  let a := fold_left add_product products empty_assembly in
  let n := len (outfit_items a) in
  if 2 <=? n then
    Some {|
      o_outfit_id := String.append "generated_" (str_of_int n);
      o_name :=
        String.append (get (pref_style user_preferences) "Casual")
          (String.append " "
             (String.append (get (pref_color user_preferences) "Multi")
                " Outfit"));
      o_description :=
        String.append "Complete "
          (String.append (get (pref_style user_preferences) "casual")
             (String.append " outfit with "
                (String.append (str_of_int n) " items")));
      o_items := outfit_items a;
      o_total_price := total_price a;
      o_style := get (pref_style user_preferences) "casual";
      o_color_scheme := get (pref_color user_preferences) "multi";
      o_target_gender := get (pref_gender user_preferences) "unisex";
      o_target_age := str_of_int (get (pref_age user_preferences) 25);
      o_in_stock := true
    |}
  else None.

(** [style_groups]: a dictionary from category to the products of that
    category, iterated in order of first insertion. *)
Fixpoint add_to_group (style : string) (rec : Recommendation)
  (groups : list (string * list Recommendation))
  : list (string * list Recommendation) :=
  match groups with
  | [] => [(style, [rec])]
  | (s, l) :: groups' =>
      if String.eqb s style then (s, l ++ [rec]) :: groups'
      else (s, l) :: add_to_group style rec groups'
  end.

Definition style_groups (recommendations : list Recommendation)
  : list (string * list Recommendation) :=
  fold_left (fun groups rec =>
               add_to_group (p_category (rec_details rec)) rec groups)
            recommendations [].

Fixpoint outfits_of_groups (groups : list (string * list Recommendation))
  (user_preferences : Preferences) : list Outfit :=
  match groups with
  | [] => []
  | (_, products) :: groups' =>
      match create_outfit_from_products (map rec_details products)
              user_preferences with
      | Some outfit => outfit :: outfits_of_groups groups' user_preferences
      | None => outfits_of_groups groups' user_preferences
      end
  end.

Definition create_complete_outfits (recommendations : list Recommendation)
  (user_preferences : Preferences) : list Outfit :=
  let outfits :=
    outfits_of_groups (style_groups recommendations) user_preferences in
  slice_to outfits 5.

(** ** Training and the entry points *)

Definition connect_database (rt : Runtime) (self : EngineState)
  : EngineState :=
  match sqlite_connect rt with
  | Ok db =>
      {| conn := Some db;
         user_item_matrix := user_item_matrix self;
         item_features_matrix := item_features_matrix self;
         svd_model := svd_model self |}
  | Raise _ => self
  end.

Definition train_models (rt : Runtime) (self : EngineState)
  : EngineState * result unit :=
  match load_user_interaction_data self with
  | Raise e => (self, Raise e)
  | Ok interactions_df =>
      match load_product_features self with
      | Raise e => (self, Raise e)
      | Ok products_df =>
          let self := build_user_item_matrix self interactions_df in
          match build_item_features_matrix rt self products_df with
          | (self, Raise e) => (self, Raise e)
          | (self, Ok _) =>
              match interactions_df with
              | [] => (self, Ok tt)
              | _ :: _ => train_collaborative_filtering rt self
              end
          end
      end
  end.

Definition get_recommendations_for_user (rt : Runtime) (self : EngineState)
  (user_id : Z) (user_preferences : Preferences) : list Outfit :=
  let product_recommendations :=
    get_hybrid_recommendations rt self user_id user_preferences 20 in
  create_complete_outfits product_recommendations user_preferences.

Definition fallback_outfits : list Outfit := [
  {| o_outfit_id := "fallback_1";
     o_name := "Classic Casual Outfit";
     o_description := "A comfortable and stylish casual outfit";
     o_items := [
       {| it_type := top; it_name := "White T-Shirt"; it_brand := "Basic";
          it_price := 799;
          it_image_url := "https://images.unsplash.com/photo-1521572163474-6864f9cf17ab?w=200&h=200&fit=crop" |};
       {| it_type := bottom; it_name := "Blue Jeans"; it_brand := "Denim Co";
          it_price := 2499;
          it_image_url := "https://images.unsplash.com/photo-1542291026-7eec264c27ff?w=200&h=200&fit=crop" |};
       {| it_type := shoes; it_name := "White Sneakers"; it_brand := "Sports";
          it_price := 3999;
          it_image_url := "https://images.unsplash.com/photo-1549298916-b41d501d3772?w=200&h=200&fit=crop" |} ];
     o_total_price := 7297;
     o_style := "casual";
     o_color_scheme := "blue_white";
     o_target_gender := "unisex";
     o_target_age := "20-30";
     o_in_stock := true |} ].

Definition get_fallback_recommendations (user_profile : Preferences) (k : Z)
  : list Outfit :=
  list_mul fallback_outfits (Z.min k (len fallback_outfits)).

(** The body of the [try] block of [get_fashion_recommendations], run on
    the module-level engine object. *)
Definition personalised (rt : Runtime) (self : EngineState)
  (user_profile : Preferences) (k : Z) : EngineState * result (list Outfit) :=
  let self := connect_database rt self in
  match train_models rt self with
  | (self, Raise e) => (self, Raise e)
  | (self, Ok _) =>
      let user_id := get (pref_user_id user_profile) 1 in
      let recommendations :=
        get_recommendations_for_user rt self user_id user_profile in
      (self, Ok (slice_to recommendations k))
  end.

Definition get_fashion_recommendations (rt : Runtime) (self : EngineState)
  (user_profile : Preferences) (k : Z) : EngineState * result (list Outfit) :=
  match personalised rt self user_profile k with
  | (self, Ok recommendations) => (self, Ok recommendations)
  | (self, Raise _) => (self, Ok (get_fallback_recommendations user_profile k))
  end.

End Engine.

(* ================================================================== *)
(** * server_py/utils/recommender.py                                   *)
(* ================================================================== *)

Module Recommender.
Import Py.

(** ** The static outfit catalogue *)

Record CatalogItem : Type := {
  ci_type : string;
  ci_name : string;
  ci_brand : string;
  ci_price : Z;
  ci_image_url : string
}.

Record CatalogOutfit : Type := {
  c_outfit_id : string;
  c_name : string;
  c_target_gender : string;
  c_target_age : string;
  c_category : string;
  c_color_scheme : string;
  c_total_price : Z;
  c_items : list CatalogItem;
  c_description : string;
  c_in_stock : bool
}.

Definition load_products : list CatalogOutfit := [
  {| c_outfit_id := "outfit_001";
     c_name := "Business Professional Outfit";
     c_target_gender := "male";
     c_target_age := "25-45";
     c_category := "business";
     c_color_scheme := "navy";
     c_total_price := 12497;
     c_items := [
       {| ci_type := "top"; ci_name := "White Formal Shirt";
          ci_brand := "Office Wear"; ci_price := 1899;
          ci_image_url := "https://images.unsplash.com/photo-1596755094514-f87e40cc0606?w=200&h=200&fit=crop" |};
       {| ci_type := "bottom"; ci_name := "Navy Blue Trousers";
          ci_brand := "Formal Wear Co"; ci_price := 3499;
          ci_image_url := "https://images.unsplash.com/photo-1594634319951-eb4e2a6eb4e3?w=200&h=200&fit=crop" |};
       {| ci_type := "shoes"; ci_name := "Brown Formal Shoes";
          ci_brand := "Executive Style"; ci_price := 3999;
          ci_image_url := "https://images.unsplash.com/photo-1549298916-b41d501d3772?w=200&h=200&fit=crop" |};
       {| ci_type := "accessory"; ci_name := "Brown Leather Belt";
          ci_brand := "Accessories Plus"; ci_price := 1499;
          ci_image_url := "https://images.unsplash.com/photo-1544967348-c7ceb6ec5ec0?w=200&h=200&fit=crop" |};
       {| ci_type := "accessory"; ci_name := "Silver Watch";
          ci_brand := "Time Style"; ci_price := 2599;
          ci_image_url := "https://images.unsplash.com/photo-1523275335684-37898b6baf30?w=200&h=200&fit=crop" |} ];
     c_description := "Complete professional business outfit for office meetings";
     c_in_stock := true |};
  {| c_outfit_id := "outfit_002";
     c_name := "Casual Streetwear Look";
     c_target_gender := "male";
     c_target_age := "18-30";
     c_category := "streetwear";
     c_color_scheme := "blue";
     c_total_price := 8497;
     c_items := [
       {| ci_type := "top"; ci_name := "Blue Streetwear Hoodie";
          ci_brand := "Urban Style"; ci_price := 2999;
          ci_image_url := "https://images.unsplash.com/photo-1516851295518-3b29f0e2b876?w=200&h=200&fit=crop" |};
       {| ci_type := "bottom"; ci_name := "Black Denim Jeans";
          ci_brand := "Denim Co"; ci_price := 2499;
          ci_image_url := "https://images.unsplash.com/photo-1542291026-7eec264c27ff?w=200&h=200&fit=crop" |};
       {| ci_type := "shoes"; ci_name := "White Sneakers";
          ci_brand := "Street Kicks"; ci_price := 3999;
          ci_image_url := "https://images.unsplash.com/photo-1549298916-b41d501d3772?w=200&h=200&fit=crop" |} ];
     c_description := "Trendy streetwear outfit for casual outings";
     c_in_stock := true |};
  {| c_outfit_id := "outfit_003";
     c_name := "Sporty Athletic Look";
     c_target_gender := "male";
     c_target_age := "16-35";
     c_category := "sporty";
     c_color_scheme := "gray";
     c_total_price := 5497;
     c_items := [
       {| ci_type := "top"; ci_name := "Gray Athletic T-Shirt";
          ci_brand := "Athletic Pro"; ci_price := 1299;
          ci_image_url := "https://images.unsplash.com/photo-1521572163474-6864f9cf17ab?w=200&h=200&fit=crop" |};
       {| ci_type := "bottom"; ci_name := "Black Track Pants";
          ci_brand := "Athletic Pro"; ci_price := 1499;
          ci_image_url := "https://images.unsplash.com/photo-1586790170083-2c9cadedfd79?w=200&h=200&fit=crop" |};
       {| ci_type := "shoes"; ci_name := "Red Running Shoes";
          ci_brand := "Athletic Pro"; ci_price := 5499;
          ci_image_url := "https://images.unsplash.com/photo-1542291026-7eec264c27ff?w=200&h=200&fit=crop" |} ];
     c_description := "Comfortable athletic outfit for workouts and sports";
     c_in_stock := true |};
  {| c_outfit_id := "outfit_004";
     c_name := "Elegant Evening Look";
     c_target_gender := "female";
     c_target_age := "25-40";
     c_category := "elegant";
     c_color_scheme := "black";
     c_total_price := 15497;
     c_items := [
       {| ci_type := "top"; ci_name := "Black Evening Dress";
          ci_brand := "Sophisticate"; ci_price := 5799;
          ci_image_url := "https://images.unsplash.com/photo-1539008835657-9e8e9680c956?w=200&h=200&fit=crop" |};
       {| ci_type := "shoes"; ci_name := "Black Heels";
          ci_brand := "Elegant Steps"; ci_price := 3299;
          ci_image_url := "https://images.unsplash.com/photo-1549298916-b41d501d3772?w=200&h=200&fit=crop" |};
       {| ci_type := "accessory"; ci_name := "Gold Clutch Bag";
          ci_brand := "Luxury Bags"; ci_price := 4499;
          ci_image_url := "https://images.unsplash.com/photo-1553062407-98eeb64c613e?w=200&h=200&fit=crop" |};
       {| ci_type := "accessory"; ci_name := "Gold Earrings";
          ci_brand := "Jewelry Plus"; ci_price := 1899;
          ci_image_url := "https://images.unsplash.com/photo-1596944924617-7cfdf483c77e?w=200&h=200&fit=crop" |} ];
     c_description := "Elegant evening outfit for special occasions";
     c_in_stock := true |};
  {| c_outfit_id := "outfit_005";
     c_name := "Casual Summer Look";
     c_target_gender := "female";
     c_target_age := "18-30";
     c_category := "casual";
     c_color_scheme := "yellow";
     c_total_price := 6797;
     c_items := [
       {| ci_type := "top"; ci_name := "Yellow Summer Dress";
          ci_brand := "Sunny Style"; ci_price := 2299;
          ci_image_url := "https://images.unsplash.com/photo-1515372039744-b8e2a921672c?w=200&h=200&fit=crop" |};
       {| ci_type := "shoes"; ci_name := "Beige Flats";
          ci_brand := "Comfort Zone"; ci_price := 1999;
          ci_image_url := "https://images.unsplash.com/photo-1549298916-b41d501d3772?w=200&h=200&fit=crop" |};
       {| ci_type := "accessory"; ci_name := "Brown Sunglasses";
          ci_brand := "Sun Style"; ci_price := 2499;
          ci_image_url := "https://images.unsplash.com/photo-1473496169904-658ba7c44d8a?w=200&h=200&fit=crop" |} ];
     c_description := "Bright and comfortable summer outfit";
     c_in_stock := true |};
  {| c_outfit_id := "outfit_006";
     c_name := "Modern Office Look";
     c_target_gender := "female";
     c_target_age := "25-35";
     c_category := "business";
     c_color_scheme := "gray";
     c_total_price := 13497;
     c_items := [
       {| ci_type := "top"; ci_name := "Gray Business Blazer";
          ci_brand := "Power Dress"; ci_price := 4499;
          ci_image_url := "https://images.unsplash.com/photo-1584952796400-b9c0c7a87230?w=200&h=200&fit=crop" |};
       {| ci_type := "bottom"; ci_name := "Black Formal Trousers";
          ci_brand := "Power Dress"; ci_price := 2999;
          ci_image_url := "https://images.unsplash.com/photo-1594634319951-eb4e2a6eb4e3?w=200&h=200&fit=crop" |};
       {| ci_type := "top"; ci_name := "White Blouse";
          ci_brand := "Office Wear"; ci_price := 1899;
          ci_image_url := "https://images.unsplash.com/photo-1483985988355-763628e1915e?w=200&h=200&fit=crop" |};
       {| ci_type := "shoes"; ci_name := "Black Pumps";
          ci_brand := "Elegant Steps"; ci_price := 2599;
          ci_image_url := "https://images.unsplash.com/photo-1549298916-b41d501d3772?w=200&h=200&fit=crop" |};
       {| ci_type := "accessory"; ci_name := "Black Handbag";
          ci_brand := "Fashion Hub"; ci_price := 1499;
          ci_image_url := "https://images.unsplash.com/photo-1553062407-98eeb64c613e?w=200&h=200&fit=crop" |} ];
     c_description := "Professional business outfit for modern women";
     c_in_stock := true |};
  {| c_outfit_id := "outfit_007";
     c_name := "Casual Weekend Look";
     c_target_gender := "unisex";
     c_target_age := "18-35";
     c_category := "casual";
     c_color_scheme := "blue";
     c_total_price := 7497;
     c_items := [
       {| ci_type := "top"; ci_name := "Blue Denim Jacket";
          ci_brand := "Retro Style"; ci_price := 3499;
          ci_image_url := "https://images.unsplash.com/photo-1574323387217-5d5c9e0c0746?w=200&h=200&fit=crop" |};
       {| ci_type := "top"; ci_name := "White T-Shirt";
          ci_brand := "Comfort Wear"; ci_price := 799;
          ci_image_url := "https://images.unsplash.com/photo-1521572163474-6864f9cf17ab?w=200&h=200&fit=crop" |};
       {| ci_type := "bottom"; ci_name := "Blue Denim Jeans";
          ci_brand := "Denim Co"; ci_price := 2499;
          ci_image_url := "https://images.unsplash.com/photo-1542291026-7eec264c27ff?w=200&h=200&fit=crop" |};
       {| ci_type := "shoes"; ci_name := "White Sneakers";
          ci_brand := "Street Kicks"; ci_price := 3999;
          ci_image_url := "https://images.unsplash.com/photo-1549298916-b41d501d3772?w=200&h=200&fit=crop" |} ];
     c_description := "Comfortable casual outfit for weekends";
     c_in_stock := true |};
  {| c_outfit_id := "outfit_008";
     c_name := "Sporty Fitness Look";
     c_target_gender := "unisex";
     c_target_age := "16-40";
     c_category := "sporty";
     c_color_scheme := "black";
     c_total_price := 6997;
     c_items := [
       {| ci_type := "top"; ci_name := "Black Athletic Top";
          ci_brand := "Fit Gear"; ci_price := 1999;
          ci_image_url := "https://images.unsplash.com/photo-1571019613454-1cb2f99b2d8b?w=200&h=200&fit=crop" |};
       {| ci_type := "bottom"; ci_name := "Black Sports Shorts";
          ci_brand := "Athletic Pro"; ci_price := 1299;
          ci_image_url := "https://images.unsplash.com/photo-1594634319951-eb4e2a6eb4e3?w=200&h=200&fit=crop" |};
       {| ci_type := "shoes"; ci_name := "White Running Shoes";
          ci_brand := "Athletic Pro"; ci_price := 4499;
          ci_image_url := "https://images.unsplash.com/photo-1542291026-7eec264c27ff?w=200&h=200&fit=crop" |};
       {| ci_type := "accessory"; ci_name := "Sports Watch";
          ci_brand := "Time Style"; ci_price := 1999;
          ci_image_url := "https://images.unsplash.com/photo-1523275335684-37898b6baf30?w=200&h=200&fit=crop" |} ];
     c_description := "Complete fitness outfit for workouts";
     c_in_stock := true |} ].

(** The request mapping read by this module; an absent key is [None]. *)
Record UserProfile : Type := {
  u_age : option Z;
  u_gender : option string;
  u_color_pref : option string;
  u_style_pref : option string;
  u_budget : option float
}.

(** An entry of the list returned by [recommend_products]. *)
Record ScoredOutfit : Type := {
  so_outfit_id : string;
  so_name : string;
  so_description : string;
  so_score : float;
  so_style : string;
  so_color_scheme : string;
  so_total_price : Z;
  so_items : list CatalogItem;
  so_target_gender : string;
  so_target_age : string;
  so_in_stock : bool
}.

(** [s.split(sep)] for a one-character separator. *)
Fixpoint split (sep : ascii) (s : string) : list string :=
  match s with
  | EmptyString => [EmptyString]
  | String c s' =>
      if Ascii.eqb c sep then EmptyString :: split sep s'
      else match split sep s' with
           | w :: ws => String c w :: ws
           | [] => [String c EmptyString]
           end
  end.

(** [int(s)] for a plain decimal numeral. *)
Definition int_of_str (s : string) : result Z :=
  match NilZero.int_of_string s with
  | Some d => Ok (Z.of_int d)
  | None => Raise ValueError
  end.

(** [min_age, max_age = map(int, target_age.split("-"))]. *)
Definition age_bounds (target_age : string) : result (Z * Z) :=
  match split "-"%char target_age with
  | [a; b] =>
      min_age <- int_of_str a ;;
      max_age <- int_of_str b ;;
      Ok (min_age, max_age)
  | _ => Raise ValueError
  end.

(** The body of the scoring loop of [recommend_products]. *)
Definition score_outfit (user_age : Z) (user_gender user_color user_style : string)
  (user_budget : float) (outfit : CatalogOutfit) : result float :=
  let score := 0%float in
  (* Gender match (highest weight) *)
  let score :=
    if (String.eqb (c_target_gender outfit) "unisex"
        || String.eqb (c_target_gender outfit) user_gender)%bool
    then (score + 50)%float else (score - 30)%float in
  (* Style match (high weight) *)
  let score :=
    if String.eqb (lower (c_category outfit)) user_style
    then (score + 40)%float
    else if contains user_style (lower (c_category outfit))
    then (score + 20)%float else score in
  (* Color match (medium weight) *)
  let score :=
    if String.eqb (lower (c_color_scheme outfit)) user_color
    then (score + 30)%float
    else if contains user_color (lower (c_color_scheme outfit))
    then (score + 15)%float else score in
  (* Age appropriateness *)
  let target_age := c_target_age outfit in
  score <-
    (if (negb (String.eqb target_age "") && contains "-" target_age)%bool
     then
       bounds <- age_bounds target_age ;;
       let (min_age, max_age) := bounds in
       if ((min_age <=? user_age) && (user_age <=? max_age))%bool
       then Ok (score + 20)%float
       else if ((Z.abs (user_age - min_age) <=? 5)
                || (Z.abs (user_age - max_age) <=? 5))%bool
       then Ok (score + 10)%float else Ok score
     else Ok score) ;;
  (* Budget fit *)
  outfit_price <- float_of_int (c_total_price outfit) ;;
  let score :=
    if (outfit_price <=? user_budget)%float then
      if (outfit_price <=? user_budget * 0.5)%float
      then (score + 15)%float    (* Well within budget *)
      else (score + 10)%float    (* Within budget *)
    else (score - 20)%float in   (* Over budget *)
  (* Stock availability *)
  let score :=
    if c_in_stock outfit then (score + 10)%float else (score - 30)%float in
  Ok score.

Definition recommendation (so : float * CatalogOutfit) : ScoredOutfit :=
  let (score, outfit) := so in
  {| so_outfit_id := c_outfit_id outfit;
     so_name := c_name outfit;
     so_description := c_description outfit;
     so_score := round score 2;
     so_style := c_category outfit;
     so_color_scheme := c_color_scheme outfit;
     so_total_price := c_total_price outfit;
     so_items := c_items outfit;
     so_target_gender := c_target_gender outfit;
     so_target_age := c_target_age outfit;
     so_in_stock := c_in_stock outfit |}.

Definition recommend_products (user_profile : UserProfile) (k : Z)
  : result (list ScoredOutfit) :=
  let outfits := load_products in
  match outfits with
  | [] => Ok []
  | _ :: _ =>
      let user_age := get (u_age user_profile) 25 in
      let user_gender := lower (get (u_gender user_profile) "male") in
      let user_color := lower (get (u_color_pref user_profile) "blue") in
      let user_style := lower (get (u_style_pref user_profile) "casual") in
      let user_budget := get (u_budget user_profile) 1000%float in
      scored_outfits <-
        for_each (fun outfit =>
                    score <- score_outfit user_age user_gender user_color
                               user_style user_budget outfit ;;
                    Ok (score, outfit)) outfits ;;
      let scored_outfits := sort_desc fst scored_outfits in
      Ok (map recommendation (slice_to scored_outfits k))
  end.

(** ** [get_recommendations] *)

(** What the interpreter process contributes: the salted hash of a
    string, the iteration order of a set of strings, and the trained
    network as an opaque scorer of a feature vector. *)
Record Interpreter : Type := {
  (** [hash(s)] *)
  str_hash : string -> Z;
  (** [list(set(l))] *)
  list_of_set : list string -> list string;
  (** [_load_model()(scaler.transform(uvec)).item()] *)
  trained_score : list float -> result float
}.

(** The optional imports and the files under [MODEL_DIR]. *)
Record Env : Type := {
  torch : bool;
  sklearn : bool;
  numpy : bool;
  model_dir_exists : bool;
  model_path_exists : bool;
  scaler_path_exists : bool;
  meta_path_exists : bool
}.

(** [os.makedirs(MODEL_DIR, exist_ok=True)]; the process is taken to be
    allowed to create its model directory. *)
Definition _ensure_dirs (env : Env) : Env := {|
  torch := torch env;
  sklearn := sklearn env;
  numpy := numpy env;
  model_dir_exists := true;
  model_path_exists := model_path_exists env;
  scaler_path_exists := scaler_path_exists env;
  meta_path_exists := meta_path_exists env
|}.

(** The effect of [train_recommender] on the files: nothing is written
    when a heavy dependency is missing. *)
Definition train_recommender (env : Env) : Env :=
  let env := _ensure_dirs env in
  if (negb (sklearn env) || negb (numpy env) || negb (torch env))%bool
  then env
  else {| torch := torch env;
          sklearn := sklearn env;
          numpy := numpy env;
          model_dir_exists := true;
          model_path_exists := true;
          scaler_path_exists := true;
          meta_path_exists := true |}.

(** The guard of the dependency-free branch: [TinyNN] and [nn] are
    [None] exactly when the import of [torch] failed. *)
Definition heavy_deps_missing (env : Env) : bool :=
  (negb (torch env) || negb (sklearn env) || negb (numpy env)
   || negb (model_path_exists env))%bool.

Definition styles : list string :=
  ["casual"; "formal"; "streetwear"; "business"; "sporty"; "elegant";
   "vintage"; "modern"].

Definition colors : list string :=
  ["black"; "white"; "blue"; "red"; "green"; "purple"; "brown"; "gray";
   "yellow"; "pink"].

Definition age_styles (user_age : Z) : list string :=
  if user_age <? 25 then ["casual"; "sporty"; "streetwear"; "modern"]
  else if user_age <? 35 then ["casual"; "business"; "modern"; "elegant"]
  else ["formal"; "business"; "elegant"; "vintage"].

Definition budget_styles (user_budget : float) : list string :=
  if (5000 <? user_budget)%float
  then ["formal"; "elegant"; "business"; "vintage"]
  else if (2000 <? user_budget)%float
  then ["business"; "modern"; "casual"; "elegant"]
  else ["casual"; "sporty"; "streetwear"].

(** The style and colour chosen at position [i] of the loop. *)
Definition variety (py : Interpreter) (user_style user_color : string)
  (user_age : Z) (user_budget : float) (i : Z) : result (string * string) :=
  if i =? 0 then
    (* First recommendation: exact match *)
    Ok (user_style, user_color)
  else if i =? 1 then
    (* Second: same style, different color *)
    idx <- index user_color colors ;;
    j <- imod (idx + 1) (len colors) ;;
    color <- getitem colors j ;;
    Ok (user_style, color)
  else if i =? 2 then
    (* Third: different style, same color *)
    idx <- index user_style styles ;;
    j <- imod (idx + 1) (len styles) ;;
    style <- getitem styles j ;;
    Ok (style, user_color)
  else
    (* Rest: smart variety based on age and budget *)
    let preferred_styles :=
      list_of_set py (age_styles user_age ++ budget_styles user_budget) in
    j <- imod i (len preferred_styles) ;;
    style <- getitem preferred_styles j ;;
    j <- imod (i * 2) (len colors) ;;
    color <- getitem colors j ;;
    Ok (style, color).

(** An entry of the list returned by [get_recommendations]. *)
Record Entry : Type := {
  e_item_id : string;
  e_name : string;
  e_score : float;
  e_style : string;
  e_color : string
}.

(** The loop shared by the two branches: [seed] is [base] and [step] is
    [0.02] in the dependency-free branch, the network's score and [0.05]
    in the trained one. *)
Definition entries (py : Interpreter) (user_profile : UserProfile)
  (seed step : float) (k : Z) : result (list Entry) :=
  let user_style := get (u_style_pref user_profile) "casual" in
  let user_color := get (u_color_pref user_profile) "black" in
  let user_age := get (u_age user_profile) 25 in
  let user_budget := get (u_budget user_profile) 1000%float in
  for_each (fun i =>
              sc <- variety py user_style user_color user_age user_budget i ;;
              Ok {| e_item_id := String.append "itm_" (pad3 i);
                    e_name := String.append "Recommended Outfit "
                                (str_of_int (i + 1));
                    e_score := round (seed - Z2F i * step)%float 4;
                    e_style := fst sc;
                    e_color := snd sc |})
           (range k).

(** The feature values derived from the profile; [signed] tells whether
    the hash is taken as it is (trained branch) or through [abs]. *)
Definition features (py : Interpreter) (user_profile : UserProfile)
  (signed : bool) : result (float * float * float * float * float) :=
  a <- float_of_int (get (u_age user_profile) 28) ;;
  let age := (a / 100.0)%float in
  let gender :=
    if startswith (lower (get (u_gender user_profile) "f")) "f"
    then 1.0%float else 0.0%float in
  let h s := if signed then str_hash py s else Z.abs (str_hash py s) in
  let color :=
    (Z2F (h (get (u_color_pref user_profile) "black") mod 100) / 100.0)%float in
  let style :=
    (Z2F (h (get (u_style_pref user_profile) "streetwear") mod 100)
     / 100.0)%float in
  let budget := (get (u_budget user_profile) 100%float / 1000.0)%float in
  Ok (age, gender, color, style, budget).

(** The seed [base] of the dependency-free branch. *)
Definition base (py : Interpreter) (user_profile : UserProfile)
  : result float :=
  f <- features py user_profile false ;;
  let '(age, gender, color, style, budget) := f in
  Ok (age * 0.4 + gender * 0.1 + color * 0.25 + style * 0.15
      + budget * 0.1)%float.

(** [uvec]: the five features followed by eleven zeros. *)
Definition uvec (f : float * float * float * float * float) : list float :=
  let '(age, gender, color, style, budget) := f in
  [age; gender; color; style; budget] ++ repeat 0%float 11.

(** The dependency-free branch: deterministic pseudo-recs. *)
Definition pseudo_recs (py : Interpreter) (user_profile : UserProfile)
  (k : Z) : result (list Entry) :=
  b <- base py user_profile ;;
  entries py user_profile b 0.02%float k.

Definition get_recommendations (py : Interpreter) (env : Env)
  (user_profile : UserProfile) (k : Z) : Env * result (list Entry) :=
  let env := _ensure_dirs env in
  (* If heavy deps missing, return deterministic pseudo-recs *)
  if heavy_deps_missing env then (env, pseudo_recs py user_profile k)
  else
    let env :=
      if (negb (model_path_exists env) || negb (scaler_path_exists env))%bool
      then train_recommender env else env in
    if negb (meta_path_exists env) then (env, Raise OSError)
    else
      (env,
       f <- features py user_profile true ;;
       score <- trained_score py (uvec f) ;;
       entries py user_profile score 0.05%float k).

End Recommender.

(* ================================================================== *)
(** * Specification vocabulary                                         *)
(* ================================================================== *)

(** ** The order of binary64 values

    Comparison of two numbers is comparison of their keys in the
    lexicographic order of [Z * Z * Z]: sign class first, then exponent,
    then mantissa (both negated for negative values). *)
Module FloatOrder.

Definition sf_key (x : spec_float) : Z * Z * Z :=
  match x with
  | S754_zero _ => (0, 0, 0)
  | S754_infinity s => (if s then -2 else 2, 0, 0)
  | S754_nan => (0, 0, 0)
  | S754_finite s m e => if s then (-1, - e, Z.neg m) else (1, e, Z.pos m)
  end.

Definition lex_compare (a b : Z * Z * Z) : comparison :=
  let '(a1, a2, a3) := a in
  let '(b1, b2, b3) := b in
  match a1 ?= b1 with
  | Eq => match a2 ?= b2 with Eq => a3 ?= b3 | c => c end
  | c => c
  end.

Definition lex_le (a b : Z * Z * Z) : Prop :=
  let '(a1, a2, a3) := a in
  let '(b1, b2, b3) := b in
  a1 < b1 \/ (a1 = b1 /\ (a2 < b2 \/ (a2 = b2 /\ a3 <= b3))).

Definition fkey (x : float) : Z * Z * Z := sf_key (Prim2SF x).

End FloatOrder.

(** ** Orders on lists *)

(** [a] may stand before [b] in a list ordered by [key] descending. *)
Definition desc {A} (key : A -> float) (a b : A) : Prop :=
  (key b <=? key a)%float = true.

(** Every key is a number. *)
Definition all_num {A} (key : A -> float) (l : list A) : Prop :=
  Forall (fun a => is_nan (key a) = false) l.

(** The elements of [l] whose key compares equal to [v]. *)
Definition tied {A} (key : A -> float) (v : float) (l : list A) : list A :=
  filter (fun a => (key a =? v)%float) l.

(** ** The rule table of the preference matcher, as integer weights *)
Module PreferenceRules.
Import Py Engine.

Definition gender_rule (p : Product) (prefs : Preferences) : Z :=
  match pref_gender prefs with
  | Some g =>
      if (String.eqb (p_target_gender p) "unisex"
          || String.eqb (p_target_gender p) g)%bool then 30 else -20
  | None => 0
  end.

Definition color_rule (p : Product) (prefs : Preferences) : Z :=
  match pref_color prefs with
  | Some c => if String.eqb (lower (p_color p)) (lower c) then 25 else 0
  | None => 0
  end.

Definition style_rule (p : Product) (prefs : Preferences) : Z :=
  match pref_style prefs with
  | Some s => if String.eqb (lower (p_category p)) (lower s) then 25 else 0
  | None => 0
  end.

Definition budget_rule (p : Product) (prefs : Preferences) : Z :=
  match pref_budget prefs with
  | Some b =>
      if (p_price p <=? b)%float
      then if (p_price p <=? b * 0.5)%float then 15 else 10
      else -15
  | None => 0
  end.

Definition age_rule (p : Product) (prefs : Preferences) : Z :=
  match pref_age prefs with
  | Some age =>
      if ((p_target_age_min p <=? age) && (age <=? p_target_age_max p))%bool
      then 20
      else if ((Z.abs (age - p_target_age_min p) <=? 5)
               || (Z.abs (age - p_target_age_max p) <=? 5))%bool
      then 10 else 0
  | None => 0
  end.

Definition rule_total (p : Product) (prefs : Preferences) : Z :=
  gender_rule p prefs + color_rule p prefs + style_rule p prefs
  + budget_rule p prefs + age_rule p prefs.

End PreferenceRules.

(** ** Outfits *)
Module OutfitSpec.
Import Py Engine.

(** The outfit item made from a product. *)
Definition item_of (p : Product) : OutfitItem :=
  {| it_type := item_type_of p;
     it_name := p_name p;
     it_brand := p_brand p;
     it_price := p_price p;
     it_image_url := p_image_url p |}.

(** At most one item per slot and at least two items. *)
Definition valid_outfit (o : Outfit) : Prop :=
  NoDup (map it_type (o_items o)) /\ (2 <= List.length (o_items o))%nat.

(** The first product of [products] that belongs to slot [s]. *)
Definition first_in_slot (products : list Product) (s : Slot)
  : option Product :=
  find (fun q => slot_eqb (item_type_of q) s) products.

(** [it] is the item of the first product of its slot among [products]. *)
Definition first_wins (products : list Product) (it : OutfitItem) : Prop :=
  exists p, first_in_slot products (it_type it) = Some p /\ it = item_of p.

(** The style group of category [c]: the recommended products of that
    category, in recommendation order. *)
Definition group_of (recommendations : list Recommendation) (c : string)
  : list Product :=
  map rec_details
      (filter (fun r => String.eqb (p_category (rec_details r)) c)
              recommendations).

(** The loop invariant of [create_outfit_from_products] after the
    products [seen]. *)
Record assembled (seen : list Product) (a : Assembly) : Prop := {
  asm_slots : forall s, item_types a s = first_in_slot seen s;
  asm_nodup : NoDup (map it_type (outfit_items a));
  asm_items : forall it, In it (outfit_items a) -> first_wins seen it;
  asm_filled : forall s p, item_types a s = Some p ->
                           In s (map it_type (outfit_items a))
}.

(** The groups built by [style_groups] after the recommendations
    [seen]: distinct categories covering [seen], each with its members
    in order. *)
Definition grouped (seen : list Recommendation)
  (groups : list (string * list Recommendation)) : Prop :=
  NoDup (map fst groups) /\
  (forall r, In r seen -> In (p_category (rec_details r)) (map fst groups)) /\
  forall c l, In (c, l) groups ->
    l = filter (fun r => String.eqb (p_category (rec_details r)) c) seen.

(** What an outfit holds apart from the labels copied from the
    profile. *)
Definition goods (o : Outfit) : string * list OutfitItem * float :=
  (o_outfit_id o, o_items o, o_total_price o).

End OutfitSpec.

(** ** The collaborative filter *)
Module CollaborativeSpec.
Import Py Engine.

(** The columns without a positive rating in [row]. *)
Definition unrated (m : UserItemMatrix) (row : list float) : list Z :=
  filter (fun c => negb (mem_Z c (rated_columns (m_columns m) row)))
         (m_columns m).

(** The predicted rating of [item]: the dot product of the user's
    latent vector and the latent vector of the item's column. *)
Definition predicted (svd : SVDModel) (m : UserItemMatrix)
  (row : list float) (item : Z) : float :=
  match get_loc (m_columns m) item with
  | Some idx =>
      match nth_error (item_factors svd) (Z.to_nat idx) with
      | Some v => dot (transform svd row) v
      | None => nan
      end
  | None => nan
  end.

(** The engine holds a model fitted on its matrix, [user_id] labels the
    row [row], the set difference is iterated element by element, and
    the predicted ratings are numbers. *)
Record fitted (rt : Runtime) (self : EngineState) (svd : SVDModel)
  (m : UserItemMatrix) (user_id : Z) (row : list float) : Prop := {
  fit_model : svd_model self = Some svd;
  fit_matrix : user_item_matrix self = Some m;
  fit_row : exists user_idx,
      get_loc (m_index m) user_id = Some user_idx /\
      nth_error (m_values m) (Z.to_nat user_idx) = Some row;
  fit_columns : NoDup (m_columns m);
  fit_factors : List.length (item_factors svd) = List.length (m_columns m);
  fit_set : Permutation
              (set_difference_order rt (m_columns m)
                 (rated_columns (m_columns m) row))
              (unrated m row);
  fit_num : forall item, In item (m_columns m) ->
                         is_nan (predicted svd m row item) = false
}.

End CollaborativeSpec.

(** ** A world to run the engine in

    A shop with sixty products in stock (shirts 1..20, jeans 21..40,
    sneakers 41..59 and 64) and a sold-out scarf; user 1 has rated the
    products 2..59 with 4, user 2 the products 1 and 64 with 5.  The two
    rows of the rating matrix are orthogonal, so its right singular
    vectors are the normalised rows. *)
Module Demo.
Import Py Engine.

Definition product (i : Z) (name category subcategory : string)
  (price popularity : float) (stock : bool) : Product :=
  {| p_id := i; p_name := name; p_brand := "Atelier";
     p_category := category; p_subcategory := subcategory;
     p_color := "blue"; p_size := "M"; p_price := price;
     p_image_url := "img"; p_description := "";
     p_target_gender := "unisex"; p_target_age_min := 18;
     p_target_age_max := 40; p_season := "all"; p_material := "cotton";
     p_popularity_score := popularity; p_in_stock := stock |}.

Definition ids : list Z := map Z.of_nat (seq 1 59) ++ [64].

Definition garment (i : Z) : Product :=
  let price := Z2F (1000 + 10 * i) in
  let popularity := Z2F (i mod 7 * 10 + i mod 3) in
  if i <=? 20 then
    product i (String.append "Shirt " (str_of_int i)) "shirts" "casual"
      price popularity true
  else if i <=? 40 then
    product i (String.append "Jeans " (str_of_int i)) "jeans" "denim"
      price popularity true
  else
    product i (String.append "Sneakers " (str_of_int i)) "footwear" "shoes"
      price popularity true.

Definition scarf : Product :=
  product 70 "Wool Scarf" "scarves" "winter" 900 90 false.

Definition rating (u p : Z) (r : float) : Interaction :=
  {| i_user_id := u; i_product_id := p; i_rating := r;
     i_interaction_type := "rating" |}.

Definition db : Database :=
  {| db_products := map garment ids ++ [scarf];
     db_interactions :=
       map (fun p => rating 1 p 4) (map Z.of_nat (seq 2 58))
       ++ [rating 2 1 5; rating 2 64 5] |}.

(** The right singular vectors of the rating matrix. *)
Definition v1 : list float :=
  map (fun c => if ((2 <=? c) && (c <=? 59))%bool
                then 0.13130643285972254%float else 0%float) ids.

Definition v2 : list float :=
  map (fun c => if ((c =? 1) || (c =? 64))%bool
                then 0.7071067811865475%float else 0%float) ids.

Definition svd : SVDModel :=
  {| item_factors := map (fun ab => [fst ab; snd ab]) (combine v1 v2);
     transform := fun row => [dot row v1; dot row v2] |}.

(** The iteration order of the CPython set built by adding the
    non-negative integers [l] one by one, when their residues modulo the
    final table size are distinct: [hash(i)] is [i]; the table starts
    with 8 slots and, once five times the fill reaches three times the
    mask, is rebuilt with the smallest power of two above four times
    the fill; element [i] sits in slot [i mod size], and iteration goes
    through the slots in increasing order. *)
Fixpoint power_of_two_above (fuel : nat) (size minused : Z) : Z :=
  match fuel with
  | O => size
  | S fuel' =>
      if size <=? minused then power_of_two_above fuel' (2 * size) minused
      else size
  end.

Definition table_size (n : nat) : Z :=
  fold_left (fun size fill =>
               if (size - 1) * 3 <=? fill * 5
               then power_of_two_above 64 8 (fill * 4) else size)
            (map Z.of_nat (seq 1 n)) 8.

Fixpoint insert_slot (size x : Z) (l : list Z) : list Z :=
  match l with
  | [] => [x]
  | y :: l' =>
      if x mod size <? y mod size then x :: l
      else y :: insert_slot size x l'
  end.

Definition set_order (l : list Z) : list Z :=
  fold_right (insert_slot (table_size (List.length l))) [] l.

Definition small_set_order (all_items user_items : list Z) : list Z :=
  set_order (filter (fun i => negb (mem_Z i user_items)) all_items).

Definition rt : Runtime :=
  {| sqlite_connect := Ok db;
     fit_item_features := fun products => Ok (map (fun _ => []) products);
     svd_fit := fun _ => Ok svd;
     set_difference_order := small_set_order |}.

(** The engine after [connect_database] and [train_models]. *)
Definition trained : EngineState :=
  fst (train_models rt (connect_database rt new_engine)).

(** The rating row of user 1. *)
Definition row1 : list float :=
  map (fun c => if ((2 <=? c) && (c <=? 59))%bool then 4%float else 0%float)
      ids.

(** A shop with three rated products: [TruncatedSVD(n_components=50)]
    rejects a matrix with fewer than 50 columns, so the matrix is built
    and the model is not. *)
Definition small_db : Database :=
  {| db_products := [garment 1; garment 21; garment 41];
     db_interactions := [rating 1 21 5; rating 2 1 4; rating 2 41 4] |}.

Definition rt_small : Runtime :=
  {| sqlite_connect := Ok small_db;
     fit_item_features := fun products => Ok (map (fun _ => []) products);
     svd_fit := fun _ => Raise ValueError;
     set_difference_order := small_set_order |}.

Definition untrained : EngineState :=
  fst (train_models rt_small (connect_database rt_small new_engine)).

Definition profile : Preferences :=
  {| pref_user_id := Some 1; pref_age := Some 25; pref_gender := Some "male";
     pref_color := Some "blue"; pref_style := Some "casual";
     pref_budget := Some 5000%float |}.

End Demo.

(** ** The interpreter process of [utils/recommender.py] *)
Module Process.
Import Py Recommender.

(** [list(set(l))] lists the distinct elements of [l], each once. *)
Definition set_law (py : Interpreter) : Prop :=
  forall l, NoDup (list_of_set py l) /\
            forall x, In x (list_of_set py l) <-> In x l.

(** What the loop of [get_recommendations] promises for the style and
    colour [sc] at position [i]: the user's own pair first, then the
    same style with another colour, then another style with the same
    colour, then a style of the age and budget pools with the colour at
    position [2 i mod 10]. *)
Definition varied (user_style user_color : string) (user_age : Z)
  (user_budget : float) (i : Z) (sc : string * string) : Prop :=
  (i = 0 -> sc = (user_style, user_color)) /\
  (i = 1 -> fst sc = user_style /\ snd sc <> user_color /\
            In (snd sc) colors) /\
  (i = 2 -> fst sc <> user_style /\ In (fst sc) styles /\
            snd sc = user_color) /\
  (3 <= i ->
     In (fst sc) (age_styles user_age ++ budget_styles user_budget) /\
     nth_error colors (Z.to_nat ((i * 2) mod 10)) = Some (snd sc)).

(** A process: a string hash, first-occurrence order for sets, and no
    trained network. *)
Definition py : Interpreter :=
  {| str_hash := fun s => Z.of_nat (String.length s) * 7919 - 20000;
     list_of_set := nodup string_dec;
     trained_score := fun _ => Raise OSError |}.

(** The same process under another hash salt. *)
Definition py_resalted : Interpreter :=
  {| str_hash := fun s => Z.of_nat (String.length s) * 104729 + 13;
     list_of_set := nodup string_dec;
     trained_score := fun _ => Raise OSError |}.

(** No heavy dependency installed and no model directory yet. *)
Definition bare : Env :=
  {| torch := false; sklearn := false; numpy := false;
     model_dir_exists := false; model_path_exists := false;
     scaler_path_exists := false; meta_path_exists := false |}.

Definition profile (age : Z) (gender color style : string) (budget : float)
  : UserProfile :=
  {| u_age := Some age; u_gender := Some gender;
     u_color_pref := Some color; u_style_pref := Some style;
     u_budget := Some budget |}.

(** The scenario profile of the specification. *)
Definition elegant : UserProfile := profile 30 "female" "black" "elegant" 15497.

(** The two entries the generator returns for [elegant] in this
    process. *)
Definition elegant_two : list Entry :=
  [ {| e_item_id := "itm_000"; e_name := "Recommended Outfit 1";
       e_score := 2.0567; e_style := "elegant"; e_color := "black" |};
    {| e_item_id := "itm_001"; e_name := "Recommended Outfit 2";
       e_score := 2.0367; e_style := "elegant"; e_color := "white" |} ].

(** A colour outside the list of [get_recommendations]. *)
Definition orange : UserProfile :=
  {| u_age := None; u_gender := None; u_color_pref := Some "orange";
     u_style_pref := None; u_budget := None |}.

(** A very large budget. *)
Definition lavish : UserProfile := profile 30 "female" "black" "elegant" 1e20.

End Process.

(** ** The rule table of the catalogue scorer, as integer weights *)
Module CatalogueRules.
Import Py Recommender.

Definition gender_rule (user_gender : string) (o : CatalogOutfit) : Z :=
  if (String.eqb (c_target_gender o) "unisex"
      || String.eqb (c_target_gender o) user_gender)%bool then 50 else -30.

Definition style_rule (user_style : string) (o : CatalogOutfit) : Z :=
  if String.eqb (lower (c_category o)) user_style then 40
  else if contains user_style (lower (c_category o)) then 20 else 0.

Definition color_rule (user_color : string) (o : CatalogOutfit) : Z :=
  if String.eqb (lower (c_color_scheme o)) user_color then 30
  else if contains user_color (lower (c_color_scheme o)) then 15 else 0.

Definition age_rule (user_age min_age max_age : Z) : Z :=
  if ((min_age <=? user_age) && (user_age <=? max_age))%bool then 20
  else if ((Z.abs (user_age - min_age) <=? 5)
           || (Z.abs (user_age - max_age) <=? 5))%bool then 10 else 0.

Definition budget_rule (outfit_price user_budget : float) : Z :=
  if (outfit_price <=? user_budget)%float
  then if (outfit_price <=? user_budget * 0.5)%float then 15 else 10
  else -20.

Definition stock_rule (o : CatalogOutfit) : Z :=
  if c_in_stock o then 10 else -30.

Definition outfit_total (user_age : Z)
  (user_gender user_color user_style : string) (user_budget : float)
  (o : CatalogOutfit) (min_age max_age : Z) (outfit_price : float) : Z :=
  gender_rule user_gender o + style_rule user_style o
  + color_rule user_color o + age_rule user_age min_age max_age
  + budget_rule outfit_price user_budget + stock_rule o.

(** The profile values [recommend_products] scores with. *)
Definition score_of (user_profile : UserProfile) (o : CatalogOutfit)
  : result float :=
  score_outfit (get (u_age user_profile) 25)
    (lower (get (u_gender user_profile) "male"))
    (lower (get (u_color_pref user_profile) "blue"))
    (lower (get (u_style_pref user_profile) "casual"))
    (get (u_budget user_profile) 1000%float) o.

(** [z] as a float is a number that rounding to two decimals leaves
    as it is. *)
Definition whole (z : Z) : bool :=
  (PrimFloat.Leibniz.eqb (round (Z2F z) 2) (Z2F z)
   && negb (is_nan (Z2F z)))%bool.

(** The integer total of the rules for a profile, with the defaults of
    [recommend_products]. *)
Definition total_of (user_profile : UserProfile) (o : CatalogOutfit)
  (min_age max_age : Z) (outfit_price : float) : Z :=
  outfit_total (get (u_age user_profile) 25)
    (lower (get (u_gender user_profile) "male"))
    (lower (get (u_color_pref user_profile) "blue"))
    (lower (get (u_style_pref user_profile) "casual"))
    (get (u_budget user_profile) 1000%float) o min_age max_age outfit_price.

End CatalogueRules.

(** ** A shop whose recommendations make an outfit

    The shop of [Demo] with product 1 sold as a pair of laces in the
    footwear category: the two products user 1 has not rated (1 and 64)
    then share a category and fill two slots. *)
Module Showroom.
Import Py Engine.

Definition laces : Product :=
  Demo.product 1 "Shoe Laces" "footwear" "laces" 1010 11 true.

Definition db : Database :=
  {| db_products := laces :: map Demo.garment (tl Demo.ids) ++ [Demo.scarf];
     db_interactions := db_interactions Demo.db |}.

Definition rt : Runtime :=
  {| sqlite_connect := Ok db;
     fit_item_features := fun products => Ok (map (fun _ => []) products);
     svd_fit := fun _ => Ok Demo.svd;
     set_difference_order := Demo.small_set_order |}.

Definition trained : EngineState :=
  fst (train_models rt (connect_database rt new_engine)).

Definition recommendations : list Recommendation :=
  get_hybrid_recommendations rt trained 1 Demo.profile 20.

End Showroom.

(** ** A shop before its first rating: the products of [Demo] and an
    empty interaction table, so that training skips the factorisation. *)
Module Opening.
Import Py Engine.

Definition db : Database :=
  {| db_products := db_products Demo.db; db_interactions := [] |}.

Definition rt : Runtime :=
  {| sqlite_connect := Ok db;
     fit_item_features := fun products => Ok (map (fun _ => []) products);
     svd_fit := fun _ => Raise ValueError;
     set_difference_order := Demo.small_set_order |}.

Definition opened : EngineState :=
  fst (train_models rt (connect_database rt new_engine)).

End Opening.

(** ** A process with the heavy dependencies installed and the model
    files in place; the network is stood in for by the sum of the
    feature vector. *)
Module Installed.
Import Py Recommender.

Definition env : Env :=
  {| torch := true; sklearn := true; numpy := true;
     model_dir_exists := true; model_path_exists := true;
     scaler_path_exists := true; meta_path_exists := true |}.

Definition py : Interpreter :=
  {| str_hash := str_hash Process.py;
     list_of_set := list_of_set Process.py;
     trained_score := fun v => Ok (fsum v) |}.

End Installed.

(* ================================================================== *)
(** * Facts about the Python layer                                     *)
(* ================================================================== *)

Module FloatFacts.
Import FloatOrder.

Ltac lex_triples :=
  repeat match goal with
         | a : (Z * Z * Z)%type |- _ => destruct a as [[? ?] ?]
         end;
  unfold lex_compare, lex_le in *.

Ltac compare_cases :=
  repeat match goal with
         | |- context [?a ?= ?b] => destruct (Z.compare_spec a b)
         end.

Lemma SFcompare_key x y :
  x <> S754_nan -> y <> S754_nan ->
  SFcompare x y = Some (lex_compare (sf_key x) (sf_key y)).
Proof.
  intros Hx Hy.
  destruct x as [sx|sx| |sx mx ex], y as [sy|sy| |sy my ey];
    try congruence;
    try (destruct sx; reflexivity);
    try (destruct sy; reflexivity);
    try (destruct sx, sy; reflexivity).
  destruct sx, sy; cbn [SFcompare sf_key lex_compare]; try reflexivity.
  rewrite Z.compare_opp, (Z.compare_antisym ey ex).
  destruct (ey ?= ex); cbn; reflexivity.
Qed.

Lemma lex_compare_le a b : lex_compare a b <> Gt <-> lex_le a b.
Proof. lex_triples. compare_cases; split; intros; congruence || lia. Qed.

Lemma lex_compare_lt a b : lex_compare a b = Lt <-> ~ lex_le b a.
Proof. lex_triples. compare_cases; split; intros; congruence || lia. Qed.

Lemma lex_compare_eq a b :
  lex_compare a b = Eq <-> lex_le a b /\ lex_le b a.
Proof. lex_triples. compare_cases; split; intros; congruence || lia. Qed.

Lemma lex_le_trans a b c : lex_le a b -> lex_le b c -> lex_le a c.
Proof. lex_triples. lia. Qed.

Lemma lex_le_total a b : lex_le a b \/ lex_le b a.
Proof. lex_triples. lia. Qed.

Lemma lex_le_dec a b : lex_le a b \/ ~ lex_le a b.
Proof. lex_triples. lia. Qed.

Lemma is_nan_spec x : is_nan x = false <-> Prim2SF x <> S754_nan.
Proof.
  unfold is_nan. rewrite eqb_spec. unfold SFeqb.
  destruct (Prim2SF x) as [s|s| |s m e] eqn:E.
  - split; [congruence|reflexivity].
  - split; [congruence|]. destruct s; reflexivity.
  - split; [discriminate|congruence].
  - rewrite SFcompare_key by congruence.
    set (k := sf_key (S754_finite s m e)).
    assert (H : lex_compare k k = Eq).
    { apply lex_compare_eq. destruct (lex_le_total k k); auto. }
    rewrite H. split; [congruence|reflexivity].
Qed.

(** A comparison of two floats, read through [spec] as a comparison of
    their keys, which [lex] characterises. *)
Ltac compare_by_key spec lex :=
  rewrite spec, !is_nan_spec; unfold SFleb, SFltb, SFeqb, fkey;
  match goal with
  | |- context [SFcompare (Prim2SF ?x) (Prim2SF ?y)] =>
      destruct (Prim2SF x) as [?|?| |? ? ?];
      destruct (Prim2SF y) as [?|?| |? ? ?]
  end;
  try (cbn; split; [discriminate | intros (?&?&?); congruence]);
  rewrite SFcompare_key by congruence; rewrite <- lex;
  match goal with
  | |- context [lex_compare ?a ?b] => destruct (lex_compare a b)
  end;
  (split; [ intros; repeat split; congruence
          | intros (_&_&?); try reflexivity; congruence ]).

Lemma leb_true_iff x y :
  (x <=? y)%float = true <->
  is_nan x = false /\ is_nan y = false /\ lex_le (fkey x) (fkey y).
Proof. compare_by_key leb_spec lex_compare_le. Qed.

Lemma ltb_true_iff x y :
  (x <? y)%float = true <->
  is_nan x = false /\ is_nan y = false /\ ~ lex_le (fkey y) (fkey x).
Proof. compare_by_key ltb_spec lex_compare_lt. Qed.

Lemma eqb_true_iff x y :
  (x =? y)%float = true <->
  is_nan x = false /\ is_nan y = false /\
  lex_le (fkey x) (fkey y) /\ lex_le (fkey y) (fkey x).
Proof. compare_by_key eqb_spec lex_compare_eq. Qed.

Lemma leb_total x y :
  is_nan x = false -> is_nan y = false ->
  (x <=? y)%float = true \/ (y <=? x)%float = true.
Proof.
  intros Hx Hy. rewrite !leb_true_iff.
  destruct (lex_le_total (fkey x) (fkey y)); auto.
Qed.

Lemma leb_trans x y z :
  (x <=? y)%float = true -> (y <=? z)%float = true -> (x <=? z)%float = true.
Proof.
  rewrite !leb_true_iff. intros (Hx & Hy & H1) (_ & Hz & H2).
  repeat split; auto. eapply lex_le_trans; eauto.
Qed.

Lemma leb_refl x : is_nan x = false -> (x <=? x)%float = true.
Proof. intros H. destruct (leb_total x x H H); assumption. Qed.

Lemma ltb_false_leb x y :
  is_nan x = false -> is_nan y = false ->
  (x <? y)%float = false -> (y <=? x)%float = true.
Proof.
  intros Hx Hy H. apply leb_true_iff. repeat split; auto.
  destruct (lex_le_dec (fkey y) (fkey x)) as [|Hn]; [assumption|].
  assert (E : (x <? y)%float = true) by (apply ltb_true_iff; auto).
  congruence.
Qed.

Lemma ltb_true_leb x y :
  (x <? y)%float = true -> (x <=? y)%float = true.
Proof.
  rewrite ltb_true_iff, leb_true_iff. intros (Hx & Hy & H).
  repeat split; auto. destruct (lex_le_total (fkey x) (fkey y)); tauto.
Qed.

Lemma ltb_tied x y v :
  (x =? v)%float = true -> (y =? v)%float = true -> (x <? y)%float = false.
Proof.
  rewrite !eqb_true_iff. intros (Hx & Hv & H1 & H2) (Hy & _ & H3 & H4).
  destruct (x <? y)%float eqn:E; auto.
  apply ltb_true_iff in E. destruct E as (_ & _ & E).
  exfalso. apply E. eapply lex_le_trans; eauto.
Qed.

End FloatFacts.

Module PyFacts.
Import Py.

(** *** Slices *)

Lemma slice_to_firstn {A} (l : list A) k :
  0 <= k -> slice_to l k = firstn (Z.to_nat k) l.
Proof.
  intros H. unfold slice_to.
  destruct (0 <=? k) eqn:E; [reflexivity|]. apply Z.leb_gt in E. lia.
Qed.

Lemma slice_to_is_firstn {A} (l : list A) k :
  exists n, slice_to l k = firstn n l.
Proof. unfold slice_to. destruct (0 <=? k); eauto. Qed.

Lemma slice_to_length {A} (l : list A) k :
  0 <= k -> Z.of_nat (List.length (slice_to l k)) = Z.min k (len l).
Proof.
  intros H. rewrite slice_to_firstn by assumption.
  rewrite length_firstn. unfold len. lia.
Qed.

Lemma In_firstn {A} n (l : list A) x : In x (firstn n l) -> In x l.
Proof.
  revert n. induction l as [|a l IH]; intros [|n]; cbn; try tauto.
  intros [H|H]; eauto.
Qed.

Lemma slice_to_In {A} (l : list A) k x : In x (slice_to l k) -> In x l.
Proof.
  destruct (slice_to_is_firstn l k) as [n ->]. apply In_firstn.
Qed.

Lemma firstn_NoDup {A} n (l : list A) : NoDup l -> NoDup (firstn n l).
Proof.
  revert n. induction l as [|a l IH]; intros [|n] H; cbn; try constructor.
  - inversion H; subst. intros Hin. apply In_firstn in Hin. contradiction.
  - inversion H; subst. auto.
Qed.

Lemma firstn_map {A B} (f : A -> B) n l :
  firstn n (map f l) = map f (firstn n l).
Proof.
  revert n. induction l as [|a l IH]; intros [|n]; cbn; try reflexivity.
  now rewrite IH.
Qed.

Lemma slice_to_map {A B} (f : A -> B) l k :
  slice_to (map f l) k = map f (slice_to l k).
Proof.
  unfold slice_to. rewrite length_map. destruct (0 <=? k); apply firstn_map.
Qed.

Lemma firstn_StronglySorted {A} (R : A -> A -> Prop) n l :
  StronglySorted R l -> StronglySorted R (firstn n l).
Proof.
  revert n. induction l as [|a l IH]; intros [|n] H; cbn; try constructor.
  - inversion H; subst. auto.
  - inversion H; subst. rewrite Forall_forall in *.
    intros x Hx. apply In_firstn in Hx. auto.
Qed.

Lemma firstn_filter_prefix {A} (P : A -> bool) n l :
  exists m, filter P (firstn n l) = firstn m (filter P l).
Proof.
  revert n. induction l as [|a l IH]; intros [|n]; cbn.
  - exists 0%nat. reflexivity.
  - exists 0%nat. reflexivity.
  - exists 0%nat. reflexivity.
  - destruct (IH n) as [m Hm]. destruct (P a).
    + exists (S m). cbn. now rewrite Hm.
    + exists m. assumption.
Qed.

(** *** Repetition and ranges *)

Lemma list_mul_length {A} (l : list A) n :
  List.length (list_mul l n) = (Z.to_nat n * List.length l)%nat.
Proof.
  unfold list_mul. induction (Z.to_nat n) as [|m IH]; cbn; [reflexivity|].
  rewrite length_app, IH. reflexivity.
Qed.

Lemma range_length k : List.length (range k) = Z.to_nat k.
Proof. unfold range. now rewrite length_map, length_seq. Qed.

Lemma range_nth_error k i :
  (i < Z.to_nat k)%nat -> nth_error (range k) i = Some (Z.of_nat i).
Proof.
  intros H. unfold range. rewrite nth_error_map.
  rewrite nth_error_nth' with (d := 0%nat) by (now rewrite length_seq).
  rewrite seq_nth by assumption. reflexivity.
Qed.

(** *** Loops with exceptions *)

Lemma for_each_length {A B} (f : A -> result B) l r :
  for_each f l = Ok r -> List.length r = List.length l.
Proof.
  revert r. induction l as [|a l IH]; cbn; intros r H.
  - now inversion H.
  - destruct (f a); [|discriminate].
    destruct (for_each f l); [|discriminate].
    inversion H; subst. cbn. f_equal. now apply IH.
Qed.

Lemma for_each_nth_error {A B} (f : A -> result B) l r i a :
  for_each f l = Ok r -> nth_error l i = Some a ->
  exists b, nth_error r i = Some b /\ f a = Ok b.
Proof.
  revert r i. induction l as [|x l IH]; cbn; intros r i H Hi.
  - destruct i; discriminate.
  - destruct (f x) eqn:Ex; [|discriminate].
    destruct (for_each f l) eqn:El; [|discriminate].
    inversion H; subst. destruct i as [|i]; cbn in *.
    + inversion Hi; subst. eauto.
    + eapply IH; eauto.
Qed.

Lemma for_each_ok {A B} (f : A -> result B) (g : A -> B) l :
  (forall a, In a l -> f a = Ok (g a)) -> for_each f l = Ok (map g l).
Proof.
  induction l as [|x l IH]; cbn; intros H; [reflexivity|].
  rewrite (H x) by auto. rewrite IH by auto. reflexivity.
Qed.

(** *** The stable descending sort *)

Section SortFacts.
Context {A : Type} (key : A -> float).

Lemma insert_desc_perm x l : Permutation (insert_desc key x l) (x :: l).
Proof.
  induction l as [|y l IH]; cbn; [reflexivity|].
  destruct (key x <? key y)%float; [|reflexivity].
  rewrite IH. apply perm_swap.
Qed.

Lemma sort_desc_perm l : Permutation (sort_desc key l) l.
Proof.
  induction l as [|x l IH]; cbn; [reflexivity|].
  rewrite insert_desc_perm. now constructor.
Qed.

Lemma sort_desc_length l : List.length (sort_desc key l) = List.length l.
Proof. apply Permutation_length, sort_desc_perm. Qed.

Lemma sort_desc_In l x : In x (sort_desc key l) <-> In x l.
Proof.
  split; apply Permutation_in; [|symmetry]; apply sort_desc_perm.
Qed.

Lemma insert_desc_sorted x l :
  is_nan (key x) = false -> all_num key l ->
  StronglySorted (desc key) l -> StronglySorted (desc key) (insert_desc key x l).
Proof.
  intros Hx Hl Hs. induction Hs as [|y l Hs IH Hy]; cbn.
  - repeat constructor.
  - inversion Hl as [|? ? Hny Hl']; subst.
    destruct (key x <? key y)%float eqn:E.
    + constructor; [auto|].
      rewrite Forall_forall in *. intros z Hz.
      apply (Permutation_in _ (insert_desc_perm x l)) in Hz.
      destruct Hz as [<-|Hz]; [|auto].
      unfold desc. now apply FloatFacts.ltb_true_leb.
    + constructor; [constructor; assumption|].
      assert (Hxy : desc key x y)
        by (unfold desc; now apply FloatFacts.ltb_false_leb).
      constructor; [assumption|].
      rewrite Forall_forall in *. intros z Hz.
      unfold desc in *. eapply FloatFacts.leb_trans; [apply Hy|]; eauto.
Qed.

Lemma sort_desc_sorted l :
  all_num key l -> StronglySorted (desc key) (sort_desc key l).
Proof.
  induction l as [|x l IH]; cbn; intros H; [constructor|].
  inversion H as [|? ? Hx Hl]; subst. apply insert_desc_sorted.
  - assumption.
  - unfold all_num in *. rewrite Forall_forall in Hl |- *.
    intros z Hz. apply Hl. now apply sort_desc_In.
  - apply IH. assumption.
Qed.

Lemma insert_desc_filter (P : A -> bool) x l :
  (forall y, In y l -> P x = true -> P y = true ->
             (key x <? key y)%float = false) ->
  filter P (insert_desc key x l) = filter P (x :: l).
Proof.
  induction l as [|y l IH]; intros H; [reflexivity|].
  cbn [insert_desc]. destruct (key x <? key y)%float eqn:E; [|reflexivity].
  cbn [filter]. rewrite IH by (intros; apply H; cbn; auto).
  cbn [filter]. destruct (P x) eqn:Px, (P y) eqn:Py; try reflexivity.
  rewrite H in E; cbn; auto. discriminate.
Qed.

(** Stability: a family of elements none of which has a strictly larger
    key than another keeps its order. *)
Lemma sort_desc_filter (P : A -> bool) l :
  (forall x y, In x l -> In y l -> P x = true -> P y = true ->
               (key x <? key y)%float = false) ->
  filter P (sort_desc key l) = filter P l.
Proof.
  induction l as [|x l IH]; intros H; [reflexivity|].
  cbn [sort_desc fold_right]. fold (sort_desc key l).
  rewrite insert_desc_filter.
  - cbn [filter]. rewrite IH by (intros; apply H; cbn; auto). reflexivity.
  - intros y Hy Px Py. apply -> sort_desc_In in Hy. apply H; cbn; auto.
Qed.

(** Ties keep the order they had before the sort. *)
Lemma sort_desc_stable v l : tied key v (sort_desc key l) = tied key v l.
Proof.
  apply sort_desc_filter. intros x y _ _. apply FloatFacts.ltb_tied.
Qed.

End SortFacts.

End PyFacts.

(* ================================================================== *)
(** * The preference matcher                                           *)
(* ================================================================== *)

Import Py Engine.


(* ================================================================== *)
(** * The outfit assembler                                             *)
(* ================================================================== *)

Module AssemblerFacts.
Import OutfitSpec.

Lemma slot_eqb_eq a b : slot_eqb a b = true <-> a = b.
Proof. destruct a, b; cbn; split; congruence. Qed.

Lemma slot_eqb_refl a : slot_eqb a a = true.
Proof. now apply slot_eqb_eq. Qed.

Lemma assembled_empty : assembled [] empty_assembly.
Proof.
  constructor; cbn; intros; try constructor; try contradiction; try discriminate.
Qed.

Lemma first_in_slot_app seen p s :
  first_in_slot (seen ++ [p]) s =
  match first_in_slot seen s with
  | Some q => Some q
  | None => if slot_eqb (item_type_of p) s then Some p else None
  end.
Proof.
  unfold first_in_slot. induction seen as [|q seen IH]; cbn.
  - reflexivity.
  - destruct (slot_eqb (item_type_of q) s); [reflexivity|apply IH].
Qed.

Lemma first_wins_app seen p it : first_wins seen it -> first_wins (seen ++ [p]) it.
Proof.
  intros (q & Hq & ->). exists q. split; [|reflexivity].
  rewrite first_in_slot_app, Hq. reflexivity.
Qed.

Lemma assembled_step seen a p :
  assembled seen a -> assembled (seen ++ [p]) (add_product a p).
Proof.
  intros [Hs Hn Hi Hf]. unfold add_product.
  destruct (item_types a (item_type_of p)) as [q|] eqn:E.
  - constructor; auto.
    + intros s. rewrite first_in_slot_app, <- Hs.
      destruct (item_types a s) eqn:Es; [reflexivity|].
      destruct (slot_eqb (item_type_of p) s) eqn:Ep; [|reflexivity].
      apply slot_eqb_eq in Ep. congruence.
    + intros it Hit. apply first_wins_app. auto.
  - constructor; cbn [outfit_items item_types].
    + intros s. rewrite first_in_slot_app, <- Hs.
      destruct (slot_eqb s (item_type_of p)) eqn:Ep.
      * apply slot_eqb_eq in Ep. subst s. rewrite E, slot_eqb_refl. reflexivity.
      * destruct (item_types a s); [reflexivity|].
        destruct (slot_eqb (item_type_of p) s) eqn:Ep'; [|reflexivity].
        apply slot_eqb_eq in Ep'. subst s. rewrite slot_eqb_refl in Ep.
        discriminate.
    + rewrite map_app. cbn. apply NoDup_app.
      * assumption.
      * repeat constructor. intros [].
      * intros s Hin [<-|[]].
        apply in_map_iff in Hin. destruct Hin as (it & Ht & Hit).
        destruct (Hi it Hit) as (q & Hq & _).
        rewrite <- Hs, Ht, E in Hq. discriminate.
    + intros it Hit. apply in_app_or in Hit. destruct Hit as [Hit|[<-|[]]].
      * apply first_wins_app. auto.
      * exists p. split; [|reflexivity]. cbn [it_type].
        rewrite first_in_slot_app, <- Hs, E, slot_eqb_refl. reflexivity.
    + intros s q. rewrite map_app, in_app_iff. cbn.
      destruct (slot_eqb s (item_type_of p)) eqn:Ep.
      * apply slot_eqb_eq in Ep. auto.
      * intros Hq. left. eauto.
Qed.

Lemma assembled_fold products : forall seen a,
  assembled seen a ->
  assembled (seen ++ products) (fold_left add_product products a).
Proof.
  induction products as [|p products IH]; intros seen a H; cbn.
  - now rewrite app_nil_r.
  - replace (seen ++ p :: products) with ((seen ++ [p]) ++ products)
      by (now rewrite <- app_assoc).
    apply IH. now apply assembled_step.
Qed.

(** What an emitted outfit satisfies. *)
Lemma create_outfit_from_products_spec products prefs o :
  create_outfit_from_products products prefs = Some o ->
  valid_outfit o /\ forall it, In it (o_items o) -> first_wins products it.
Proof.
  unfold create_outfit_from_products.
  pose proof (assembled_fold products [] _ assembled_empty) as [Hs Hn Hi Hf].
  cbn [app] in *.
  destruct (2 <=? len (outfit_items (fold_left add_product products empty_assembly))) eqn:E;
    [|discriminate].
  intros H. injection H as <-. unfold valid_outfit. cbn [o_items].
  apply Z.leb_le in E. unfold len in E.
  split; [split; [assumption | lia] | assumption].
Qed.

Lemma add_to_group_keys style rec groups c :
  In c (map fst (add_to_group style rec groups)) ->
  c = style \/ In c (map fst groups).
Proof.
  induction groups as [|[s l] groups IH]; cbn.
  - intros [<-|[]]. auto.
  - destruct (String.eqb s style) eqn:E; cbn.
    + tauto.
    + intros [<-|H]; auto. destruct (IH H); auto.
Qed.

Lemma add_to_group_In style rec groups c l :
  In (c, l) (add_to_group style rec groups) ->
  (c = style /\ l = [rec] /\ ~ In style (map fst groups)) \/
  (c = style /\ exists l0, In (c, l0) groups /\ l = l0 ++ [rec]) \/
  (c <> style /\ In (c, l) groups) \/
  (c = style /\ In (c, l) groups /\ ~ NoDup (map fst groups)).
Proof.
  induction groups as [|[s l0] groups IH]; cbn.
  - intros [H|[]]. inversion H; subst. left. auto.
  - destruct (String.eqb s style) eqn:E.
    + apply String.eqb_eq in E. subst s. intros [H|H].
      * inversion H; subst. right; left. eauto.
      * destruct (String.eqb c style) eqn:Ec.
        -- apply String.eqb_eq in Ec. subst c. right; right; right.
           repeat split; auto. intros Hn. inversion Hn; subst.
           apply H2. apply in_map_iff. exists (style, l). auto.
        -- apply String.eqb_neq in Ec. right; right; left. auto.
    + apply String.eqb_neq in E. intros [H|H].
      * inversion H; subst. right; right; left. auto.
      * destruct (IH H) as [(-> & -> & Hn)|[(-> & l1 & Hl1 & ->)|[(Hc & Hin)|(-> & Hin & Hn)]]].
        -- left. repeat split; auto. intros [?|?]; auto.
        -- right; left. split; auto. exists l1. auto.
        -- right; right; left. auto.
        -- right; right; right. repeat split; auto.
           intros Hn'. inversion Hn'; auto.
Qed.

Lemma add_to_group_key_in style rec groups :
  In style (map fst (add_to_group style rec groups)).
Proof.
  induction groups as [|[s l] groups IH]; cbn; auto.
  destruct (String.eqb s style) eqn:E; cbn; auto.
  apply String.eqb_eq in E. auto.
Qed.

Lemma add_to_group_keys_mono style rec groups c :
  In c (map fst groups) -> In c (map fst (add_to_group style rec groups)).
Proof.
  induction groups as [|[s l] groups IH]; cbn; [tauto|].
  destruct (String.eqb s style); cbn; tauto.
Qed.

Lemma add_to_group_NoDup style rec groups :
  NoDup (map fst groups) -> NoDup (map fst (add_to_group style rec groups)).
Proof.
  induction groups as [|[s l] groups IH]; cbn; intros Hn.
  - repeat constructor. intros [].
  - inversion Hn; subst. destruct (String.eqb s style) eqn:E; cbn.
    + constructor; assumption.
    + constructor; auto. intros Hin.
      apply add_to_group_keys in Hin. apply String.eqb_neq in E.
      destruct Hin; congruence.
Qed.

Lemma filter_none {A} (f : A -> bool) l :
  (forall x, In x l -> f x = false) -> filter f l = [].
Proof.
  induction l as [|a l IH]; cbn; intros H; [reflexivity|].
  rewrite (H a) by auto. apply IH. auto.
Qed.

Lemma grouped_step seen groups rec :
  grouped seen groups ->
  grouped (seen ++ [rec])
          (add_to_group (p_category (rec_details rec)) rec groups).
Proof.
  set (style := p_category (rec_details rec)).
  intros (Hn & Hc & Hg). repeat split.
  - now apply add_to_group_NoDup.
  - intros r Hr. apply in_app_or in Hr. destruct Hr as [Hr|[<-|[]]].
    + apply add_to_group_keys_mono. auto.
    + apply add_to_group_key_in.
  - intros c l Hin. rewrite filter_app. cbn. fold style.
    apply add_to_group_In in Hin.
    destruct Hin as [(-> & -> & Hk)|[(-> & l1 & Hl1 & ->)|[(Hne & Hin)|(-> & Hin & Hk)]]].
    + rewrite String.eqb_refl.
      assert (Hnil : filter (fun r => String.eqb (p_category (rec_details r)) style) seen = []);
        [|now rewrite Hnil].
      apply filter_none. intros r Hr.
      destruct (String.eqb (p_category (rec_details r)) style) eqn:Er; auto.
      apply String.eqb_eq in Er. exfalso. apply Hk. rewrite <- Er. auto.
    + rewrite String.eqb_refl. f_equal. auto.
    + apply String.eqb_neq in Hne. rewrite String.eqb_sym, Hne.
      rewrite app_nil_r. auto.
    + contradiction.
Qed.

Lemma style_groups_fold recs : forall seen groups,
  grouped seen groups ->
  grouped (seen ++ recs)
    (fold_left (fun groups rec =>
                  add_to_group (p_category (rec_details rec)) rec groups)
               recs groups).
Proof.
  induction recs as [|r recs IH]; intros seen groups H; cbn.
  - now rewrite app_nil_r.
  - replace (seen ++ r :: recs) with ((seen ++ [r]) ++ recs)
      by (now rewrite <- app_assoc).
    apply IH. now apply grouped_step.
Qed.

Lemma style_groups_grouped recs : grouped recs (style_groups recs).
Proof.
  apply (style_groups_fold recs [] []).
  repeat split; cbn; try constructor; intros; contradiction.
Qed.

Lemma outfits_of_groups_In groups prefs o :
  In o (outfits_of_groups groups prefs) ->
  exists c l, In (c, l) groups /\
              create_outfit_from_products (map rec_details l) prefs = Some o.
Proof.
  induction groups as [|[c l] groups IH]; cbn; [intros []|].
  destruct (create_outfit_from_products (map rec_details l) prefs) as [o'|] eqn:E.
  - intros [<-|H].
    + exists c, l. auto.
    + destruct (IH H) as (c' & l' & ? & ?). exists c', l'. auto.
  - intros H. destruct (IH H) as (c' & l' & ? & ?). exists c', l'. auto.
Qed.

(** Every emitted outfit is assembled from one style group. *)
Lemma create_complete_outfits_In recs prefs o :
  In o (create_complete_outfits recs prefs) ->
  exists c, create_outfit_from_products (group_of recs c) prefs = Some o.
Proof.
  unfold create_complete_outfits. intros H. apply PyFacts.slice_to_In in H.
  apply outfits_of_groups_In in H. destruct H as (c & l & Hin & Ho).
  destruct (style_groups_grouped recs) as (_ & _ & Hg).
  exists c. unfold group_of. rewrite <- (Hg c l Hin). assumption.
Qed.

Lemma create_complete_outfits_valid recs prefs :
  Forall valid_outfit (create_complete_outfits recs prefs).
Proof.
  apply Forall_forall. intros o H.
  apply create_complete_outfits_In in H. destruct H as (c & H).
  now apply create_outfit_from_products_spec in H.
Qed.

Lemma first_wins_In products it :
  first_wins products it ->
  exists p, In p products /\ it_type it = item_type_of p.
Proof.
  intros (p & Hp & ->). exists p. split; [|reflexivity].
  unfold first_in_slot in Hp. now apply find_some in Hp.
Qed.

Lemma group_of_category recs c p :
  In p (group_of recs c) -> p_category p = c.
Proof.
  unfold group_of. intros H. apply in_map_iff in H.
  destruct H as (r & <- & Hr). apply filter_In in Hr.
  now apply String.eqb_eq.
Qed.

Lemma NoDup_Slot_two (l : list Slot) :
  NoDup l -> (forall s, In s l -> s = shoes \/ s = accessory) ->
  (List.length l <= 2)%nat.
Proof.
  intros Hn Hl.
  assert (Hincl : incl l [shoes; accessory]).
  { intros s Hs. destruct (Hl s Hs) as [->| ->]; cbn; auto. }
  apply (NoDup_incl_length Hn Hincl).
Qed.

Lemma NoDup_Slot_one (l : list Slot) s0 :
  NoDup l -> (forall s, In s l -> s = s0) -> (List.length l <= 1)%nat.
Proof.
  intros Hn Hl.
  assert (Hincl : incl l [s0]).
  { intros s Hs. rewrite (Hl s Hs). cbn. auto. }
  apply (NoDup_incl_length Hn Hincl).
Qed.

Lemma create_complete_outfits_length recs prefs :
  (List.length (create_complete_outfits recs prefs) <= 5)%nat.
Proof.
  unfold create_complete_outfits.
  rewrite PyFacts.slice_to_firstn by lia. apply firstn_le_length.
Qed.

(** The labels of an emitted outfit: the id counts the items, the rest
    repeats the preferences. *)
Lemma create_outfit_from_products_labels products prefs o :
  create_outfit_from_products products prefs = Some o ->
  o_outfit_id o = String.append "generated_" (str_of_int (len (o_items o))) /\
  o_style o = get (pref_style prefs) "casual" /\
  o_color_scheme o = get (pref_color prefs) "multi".
Proof.
  unfold create_outfit_from_products.
  destruct (2 <=? _); [|discriminate].
  intros H. injection H as <-. cbn. auto.
Qed.

End AssemblerFacts.

(** X1.  Because a style group holds the products of one category and the
    slot of a product follows from its category unless the category is
    neither a top nor a bottom, a group of tops or of bottoms fills one
    slot only: every emitted outfit is a pair of shoes with an
    accessory, and so every emitted outfit carries the id
    [generated_2]. *)
Theorem create_complete_outfits_shoes_and_accessory :
  forall (recommendations : list Recommendation)
         (user_preferences : Preferences) (outfit : Outfit),
    In outfit (create_complete_outfits recommendations user_preferences) ->
    List.length (o_items outfit) = 2%nat /\
    (forall it, In it (o_items outfit) ->
       it_type it = shoes \/ it_type it = accessory) /\
    o_outfit_id outfit = "generated_2".
Proof.
  intros recs prefs o H.
  apply AssemblerFacts.create_complete_outfits_In in H.
  destruct H as (c & H).
  pose proof (AssemblerFacts.create_outfit_from_products_labels _ _ _ H)
    as (Hid & _).
  apply AssemblerFacts.create_outfit_from_products_spec in H.
  destruct H as ((Hn & Hl) & Hf).
  assert (Htypes : forall s, In s (map it_type (o_items o)) ->
            exists p, p_category p = c /\ s = item_type_of p).
  { intros s Hs. apply in_map_iff in Hs. destruct Hs as (it & <- & Hit).
    destruct (AssemblerFacts.first_wins_In _ _ (Hf it Hit)) as (p & Hp & Ht).
    apply AssemblerFacts.group_of_category in Hp. eauto. }
  assert (Hlen : forall n,
            (List.length (map it_type (o_items o)) <= n)%nat ->
            (List.length (o_items o) <= n)%nat)
    by (intros n; now rewrite length_map).
  destruct (mem c ["shirts"; "tops"; "hoodies"; "jackets"]) eqn:E1.
  { exfalso. enough (List.length (o_items o) <= 1)%nat by lia.
    apply Hlen, (AssemblerFacts.NoDup_Slot_one _ top Hn).
    intros s Hs. destruct (Htypes s Hs) as (p & Hp & ->).
    unfold item_type_of. now rewrite Hp, E1. }
  destruct (mem c ["jeans"; "trousers"; "shorts"]) eqn:E2.
  { exfalso. enough (List.length (o_items o) <= 1)%nat by lia.
    apply Hlen, (AssemblerFacts.NoDup_Slot_one _ bottom Hn).
    intros s Hs. destruct (Htypes s Hs) as (p & Hp & ->).
    unfold item_type_of. now rewrite Hp, E1, E2. }
  assert (Hsa : forall s, In s (map it_type (o_items o)) ->
            s = shoes \/ s = accessory).
  { intros s Hs. destruct (Htypes s Hs) as (p & Hp & ->).
    unfold item_type_of. rewrite Hp, E1, E2.
    destruct (String.eqb _ _); auto. }
  assert (Htwo : List.length (o_items o) = 2%nat).
  { enough (List.length (o_items o) <= 2)%nat by lia.
    apply Hlen, (AssemblerFacts.NoDup_Slot_two _ Hn Hsa). }
  split; [exact Htwo|]. split.
  - intros it Hit. apply Hsa. now apply in_map.
  - rewrite Hid. unfold len. rewrite Htwo. reflexivity.
Qed.

Lemma create_complete_outfits_shoes_and_accessory_witness :
  exists outfit,
    In outfit (create_complete_outfits Showroom.recommendations Demo.profile) /\
    List.length (o_items outfit) = 2%nat /\
    (forall it, In it (o_items outfit) ->
       it_type it = shoes \/ it_type it = accessory) /\
    o_outfit_id outfit = "generated_2".
Proof.
  eexists. split.
  - vm_compute. left. reflexivity.
  - apply (create_complete_outfits_shoes_and_accessory
             Showroom.recommendations Demo.profile).
    vm_compute. left. reflexivity.
Defined.

(** C6.  The outfit assembler emits at most five outfits; an emitted
    outfit has at most one item per slot and at least two items, and each
    of its items comes from the first product of that slot in the style
    group (the recommended products of one category, in order) the
    outfit was built from. *)
Theorem create_complete_outfits_slots :
  forall (recommendations : list Recommendation)
         (user_preferences : Preferences),
    let outfits := create_complete_outfits recommendations user_preferences in
    (List.length outfits <= 5)%nat /\
    forall outfit, In outfit outfits ->
      NoDup (map it_type (o_items outfit)) /\
      (2 <= List.length (o_items outfit))%nat /\
      exists c, forall it, In it (o_items outfit) ->
        OutfitSpec.first_wins (OutfitSpec.group_of recommendations c) it.
Proof.
  intros recs prefs outfits. split.
  - apply AssemblerFacts.create_complete_outfits_length.
  - intros o H. apply AssemblerFacts.create_complete_outfits_In in H.
    destruct H as (c & H).
    apply AssemblerFacts.create_outfit_from_products_spec in H.
    destruct H as ((Hn & Hl) & Hf). eauto.
Qed.


(* ================================================================== *)
(** * The hybrid blender                                               *)
(* ================================================================== *)

Module BlenderFacts.

Lemma mem_Z_In x l : mem_Z x l = true <-> In x l.
Proof.
  unfold mem_Z. rewrite existsb_exists. split.
  - intros (y & Hy & E). apply Z.eqb_eq in E. now subst.
  - intros H. exists x. split; [assumption|apply Z.eqb_refl].
Qed.

Lemma mem_Z_not_In x l : mem_Z x l = false <-> ~ In x l.
Proof.
  rewrite <- mem_Z_In. destruct (mem_Z x l); split; congruence.
Qed.

(** An entry that survives the duplicate removal is the first entry of
    its product in the list, and its product was not seen before. *)
Lemma remove_duplicates_first l : forall seen r,
  In r (remove_duplicates seen l) ->
  find (fun s => sc_product_id s =? sc_product_id r) l = Some r /\
  ~ In (sc_product_id r) seen.
Proof.
  induction l as [|h l IH]; intros seen r; cbn; [intros []|].
  destruct (mem_Z (sc_product_id h) seen) eqn:E.
  - intros H. destruct (IH _ _ H) as [Hf Hn]. split; [|assumption].
    apply mem_Z_In in E.
    destruct (sc_product_id h =? sc_product_id r) eqn:Eh; [|assumption].
    apply Z.eqb_eq in Eh. congruence.
  - apply mem_Z_not_In in E. intros [<-|H].
    + rewrite Z.eqb_refl. auto.
    + destruct (IH _ _ H) as [Hf Hn]. cbn in Hn. split; [|tauto].
      destruct (sc_product_id h =? sc_product_id r) eqn:Eh; [|assumption].
      apply Z.eqb_eq in Eh. tauto.
Qed.

Lemma remove_duplicates_NoDup l : forall seen,
  NoDup (map sc_product_id (remove_duplicates seen l)).
Proof.
  induction l as [|h l IH]; intros seen; cbn; [constructor|].
  destruct (mem_Z (sc_product_id h) seen); [apply IH|].
  cbn. constructor; [|apply IH].
  intros Hin. apply in_map_iff in Hin. destruct Hin as (r & Hr & Hin).
  apply remove_duplicates_first in Hin. destruct Hin as [_ Hn].
  apply Hn. cbn. auto.
Qed.

Lemma get_product_details_id self product_id p :
  get_product_details self product_id = Some p -> p_id p = product_id.
Proof.
  unfold get_product_details, read_sql.
  destruct (conn self) as [db|]; [|discriminate].
  destruct (filter _ (db_products db)) as [|q l] eqn:E; [discriminate|].
  intros H. injection H as <-.
  assert (Hq : In q (q :: l)) by (cbn; auto).
  rewrite <- E in Hq. apply filter_In in Hq. destruct Hq as [_ Hq].
  apply andb_prop in Hq. destruct Hq as [Hq _]. now apply Z.eqb_eq.
Qed.

Lemma with_details_In self l r :
  In r (with_details self l) ->
  exists s, In s l /\ p_id (rec_details r) = sc_product_id s /\
            recommendation_score r = sc_score s /\
            recommendation_source r = sc_source s.
Proof.
  induction l as [|h l IH]; cbn; [intros []|].
  destruct (get_product_details self (sc_product_id h)) as [p|] eqn:E.
  - intros [<-|H].
    + exists h. cbn. repeat split; auto.
      now apply get_product_details_id in E.
    + destruct (IH H) as (s & ? & ?). exists s. auto.
  - intros H. destruct (IH H) as (s & ? & ?). exists s. auto.
Qed.

Lemma with_details_length self l :
  (List.length (with_details self l) <= List.length l)%nat.
Proof.
  induction l as [|h l IH]; cbn; [lia|].
  destruct (get_product_details self (sc_product_id h)); cbn; lia.
Qed.

Lemma with_details_NoDup self l :
  NoDup (map sc_product_id l) ->
  NoDup (map (fun r => p_id (rec_details r)) (with_details self l)).
Proof.
  induction l as [|h l IH]; cbn; intros Hn; [constructor|].
  inversion Hn as [|? ? Hh Hl]; subst.
  destruct (get_product_details self (sc_product_id h)) as [p|] eqn:E; auto.
  cbn. constructor; auto.
  intros Hin. apply in_map_iff in Hin. destruct Hin as (r & Hr & Hin).
  apply with_details_In in Hin. destruct Hin as (s & Hs & Hid & _).
  apply Hh. apply in_map_iff. exists s. split; auto.
  apply get_product_details_id in E. congruence.
Qed.

(** The entries handed to the detail lookup: distinct products, each the
    first entry of its product among the tagged source lists. *)
Lemma blended_first (l : list Scored) n s :
  In s (slice_to (sort_desc sc_score (remove_duplicates [] l)) n) ->
  find (fun t => sc_product_id t =? sc_product_id s) l = Some s.
Proof.
  intros H. apply PyFacts.slice_to_In in H.
  apply PyFacts.sort_desc_In in H.
  now apply remove_duplicates_first in H.
Qed.

Lemma blended_NoDup (l : list Scored) n :
  NoDup (map sc_product_id
           (slice_to (sort_desc sc_score (remove_duplicates [] l)) n)).
Proof.
  rewrite <- PyFacts.slice_to_map.
  destruct (PyFacts.slice_to_is_firstn
              (map sc_product_id (sort_desc sc_score (remove_duplicates [] l))) n)
    as [m ->].
  apply PyFacts.firstn_NoDup.
  eapply Permutation_NoDup.
  - apply Permutation_map. symmetry. apply PyFacts.sort_desc_perm.
  - apply remove_duplicates_NoDup.
Qed.

Lemma find_app_l {A} (f : A -> bool) l1 l2 x :
  find f l1 = Some x -> find f (l1 ++ l2) = Some x.
Proof.
  induction l1 as [|a l1 IH]; cbn; [discriminate|].
  destruct (f a); auto.
Qed.

Lemma find_some_of_In (l : list Scored) i :
  In i (map sc_product_id l) ->
  exists s, find (fun t => sc_product_id t =? i) l = Some s /\ In s l.
Proof.
  induction l as [|a l IH]; cbn; [intros []|].
  destruct (sc_product_id a =? i) eqn:E.
  - intros _. exists a. auto.
  - intros [H|H]; [apply Z.eqb_neq in E; contradiction|].
    destruct (IH H) as (s & ? & ?). exists s. auto.
Qed.

Lemma collaborative_part_source rt self user_id n s :
  In s (collaborative_part rt self user_id n) -> sc_source s = collaborative.
Proof.
  unfold collaborative_part.
  destruct (get_collaborative_recommendations rt self user_id (n / 2));
    [|intros []].
  intros H. apply in_map_iff in H. destruct H as (x & <- & _). reflexivity.
Qed.

End BlenderFacts.

(** C5.  The hybrid blender returns entries with pairwise distinct
    product ids, at most [n] of them for a count [n >= 0]; each returned
    entry carries the score and the source tag of the first entry of its
    product in the concatenation of the collaborative and the
    preference-driven list, so a product that the collaborative source
    produced is returned with the collaborative entry. *)
Theorem get_hybrid_recommendations_unique :
  forall (rt : Runtime) (self : EngineState) (user_id : Z)
         (user_preferences : Preferences) (n : Z),
    let out := get_hybrid_recommendations rt self user_id user_preferences n in
    let cf := collaborative_part rt self user_id n in
    let cb := content_part self user_preferences n in
    (0 <= n -> Z.of_nat (List.length out) <= n) /\
    NoDup (map (fun r => p_id (rec_details r)) out) /\
    (forall r, In r out ->
       exists s,
         find (fun t => sc_product_id t =? p_id (rec_details r)) (cf ++ cb)
           = Some s /\
         recommendation_score r = sc_score s /\
         recommendation_source r = sc_source s) /\
    (forall r, In r out ->
       In (p_id (rec_details r)) (map sc_product_id cf) ->
       recommendation_source r = collaborative).
Proof.
  intros rt self user_id prefs n out cf cb.
  assert (Hfirst : forall r, In r out ->
            exists s,
              find (fun t => sc_product_id t =? p_id (rec_details r)) (cf ++ cb)
                = Some s /\
              recommendation_score r = sc_score s /\
              recommendation_source r = sc_source s).
  { intros r Hr. unfold out, get_hybrid_recommendations in Hr.
    apply BlenderFacts.with_details_In in Hr.
    destruct Hr as (s & Hs & Hid & Hsc & Hso).
    apply BlenderFacts.blended_first in Hs.
    exists s. rewrite Hid. auto. }
  split; [|split; [|split]].
  - intros Hn. unfold out, get_hybrid_recommendations.
    pose proof (BlenderFacts.with_details_length self
      (slice_to (sort_desc sc_score (remove_duplicates [] (cf ++ cb))) n)) as H.
    pose proof (PyFacts.slice_to_length
      (sort_desc sc_score (remove_duplicates [] (cf ++ cb))) n Hn) as H'.
    fold cf cb. lia.
  - apply BlenderFacts.with_details_NoDup, BlenderFacts.blended_NoDup.
  - exact Hfirst.
  - intros r Hr Hin. destruct (Hfirst r Hr) as (s & Hs & _ & ->).
    apply BlenderFacts.find_some_of_In in Hin.
    destruct Hin as (s' & Hf & Hs').
    rewrite (BlenderFacts.find_app_l _ _ cb _ Hf) in Hs.
    injection Hs as <-.
    eapply BlenderFacts.collaborative_part_source; eauto.
Qed.

Lemma get_hybrid_recommendations_unique_witness :
  0 <= 4 /\
  let out :=
    get_hybrid_recommendations Demo.rt Demo.trained 1 Demo.profile 4 in
  let cf := collaborative_part Demo.rt Demo.trained 1 4 in
  let cb := content_part Demo.trained Demo.profile 4 in
  Z.of_nat (List.length out) <= 4 /\
  out <> [] /\
  NoDup (map (fun r => p_id (rec_details r)) out) /\
  (forall r, In r out ->
     In (p_id (rec_details r)) (map sc_product_id cf) ->
     recommendation_source r = collaborative).
Proof.
  split; [lia|].
  destruct (get_hybrid_recommendations_unique
              Demo.rt Demo.trained 1 Demo.profile 4) as (Hlen & Hnd & _ & Hcf).
  split; [apply Hlen; lia|].
  split; [vm_compute; discriminate|].
  split; [exact Hnd | exact Hcf].
Defined.

Module PreferenceFacts.

(** The matcher reads [popularity_score], a column the query of
    [find_products_by_preferences] does not select. *)
Lemma query_row_unscored p prefs :
  calculate_preference_score (preference_query_row p) prefs = Raise KeyError.
Proof.
  destruct prefs as [uid age g c s b].
  unfold calculate_preference_score.
  cbn [preference_query_row s_target_gender s_color s_category s_price
       s_target_age_min s_target_age_max s_popularity_score col bind
       pref_gender pref_color pref_style pref_budget pref_age].
  destruct g, c, s, b, age; cbn [bind];
    repeat match goal with
           | |- context [if ?x then _ else _] => destruct x; cbn [bind]
           end;
    reflexivity.
Qed.

(** A condition appended after [WHERE in_stock = TRUE] makes the query
    text malformed. *)
Lemma conditions_rejected prefs n db :
  preference_conditions prefs <> [] ->
  preference_query prefs n db = Raise DatabaseError.
Proof.
  unfold preference_query.
  destruct (preference_conditions prefs); [congruence | reflexivity].
Qed.

(** Both errors are swallowed by [find_products_by_preferences]. *)
Lemma nothing_found self prefs n :
  find_products_by_preferences self prefs n = [].
Proof.
  unfold find_products_by_preferences, read_sql.
  destruct (conn self) as [db|]; [|reflexivity].
  cbn [bind]. unfold preference_query.
  destruct (preference_conditions prefs); [|reflexivity].
  cbn [bind].
  destruct (limit n (order_by_popularity (in_stock_products db)))
    as [|p rows]; [reflexivity|].
  cbn [map for_each]. rewrite query_row_unscored. reflexivity.
Qed.

Lemma content_part_nil self prefs n : content_part self prefs n = [].
Proof. unfold content_part. now rewrite nothing_found. Qed.

End PreferenceFacts.

(* ================================================================== *)
(** * The top-level entry point                                        *)
(* ================================================================== *)

Module EntryFacts.
Import OutfitSpec.

Lemma personalised_ok rt self profile k recommendations :
  snd (personalised rt self profile k) = Ok recommendations ->
  exists self' user_id,
    recommendations =
    slice_to (get_recommendations_for_user rt self' user_id profile) k.
Proof.
  unfold personalised.
  destruct (train_models rt (connect_database rt self)) as [self' [u|e]];
    cbn; [|discriminate].
  intros H. injection H as <-.
  exists self', (get (pref_user_id profile) 1). reflexivity.
Qed.

Lemma fallback_outfits_valid : Forall valid_outfit fallback_outfits.
Proof.
  repeat constructor; cbn; try lia;
    intros H; repeat (destruct H as [H|H]; try discriminate); auto.
Qed.

Lemma get_fallback_recommendations_one profile k :
  1 <= k -> get_fallback_recommendations profile k = fallback_outfits.
Proof.
  intros H. unfold get_fallback_recommendations.
  replace (Z.min k (len fallback_outfits)) with 1
    by (change (len fallback_outfits) with 1; lia).
  reflexivity.
Qed.

End EntryFacts.

(** C1 (as amended).  For [k >= 1] the entry point never surfaces an
    error and returns a list of valid outfits: the outfits of the
    personalisation path cut to [k] when that path completes (possibly
    none), and the fallback generator's single outfit when it raises. *)
Theorem get_fashion_recommendations_never_raises :
  forall (rt : Runtime) (self : EngineState) (user_profile : Preferences)
         (k : Z),
    1 <= k ->
    exists l,
      snd (get_fashion_recommendations rt self user_profile k) = Ok l /\
      Forall OutfitSpec.valid_outfit l /\
      match snd (personalised rt self user_profile k) with
      | Ok recommendations => l = recommendations
      | Raise _ =>
          l = get_fallback_recommendations user_profile k /\ l <> []
      end.
Proof.
  intros rt self profile k Hk. unfold get_fashion_recommendations.
  destruct (personalised rt self profile k) as [self' [r|e]] eqn:E; cbn.
  - exists r. repeat split; auto.
    assert (H : snd (personalised rt self profile k) = Ok r) by now rewrite E.
    apply EntryFacts.personalised_ok in H. destruct H as (s & u & ->).
    apply Forall_forall. intros o Ho. apply PyFacts.slice_to_In in Ho.
    unfold get_recommendations_for_user in Ho.
    pose proof (AssemblerFacts.create_complete_outfits_valid
                  (get_hybrid_recommendations rt s u profile 20) profile) as V.
    rewrite Forall_forall in V. auto.
  - exists (get_fallback_recommendations profile k).
    rewrite EntryFacts.get_fallback_recommendations_one by assumption.
    repeat split; auto using EntryFacts.fallback_outfits_valid.
    discriminate.
Qed.

Lemma get_fashion_recommendations_never_raises_witness :
  1 <= 8 /\
  exists l,
    snd (get_fashion_recommendations Demo.rt_small new_engine
           Demo.profile 8) = Ok l /\
    Forall OutfitSpec.valid_outfit l /\
    match snd (personalised Demo.rt_small new_engine Demo.profile 8) with
    | Ok recommendations => l = recommendations
    | Raise _ => l = get_fallback_recommendations Demo.profile 8 /\ l <> []
    end.
Proof.
  split; [lia|].
  apply (get_fashion_recommendations_never_raises
           Demo.rt_small new_engine Demo.profile 8).
  lia.
Defined.

(** C1, counterexample.  With the database of [Demo] the
    personalisation path completes without an outfit (no style group
    fills two slots), and the entry point returns the empty list. *)
Lemma get_fashion_recommendations_empty :
  1 <= 8 /\
  snd (get_fashion_recommendations Demo.rt new_engine Demo.profile 8) = Ok [].
Proof. split; [lia | vm_compute; reflexivity]. Qed.

(* ================================================================== *)
(** * The collaborative filter                                         *)
(* ================================================================== *)

Module CollaborativeFacts.
Import CollaborativeSpec.

Lemma limit_firstn {A} n (rows : list A) :
  0 <= n -> limit n rows = firstn (Z.to_nat n) rows.
Proof.
  intros H. unfold limit. destruct (n <? 0) eqn:E; [|reflexivity].
  apply Z.ltb_lt in E. lia.
Qed.

Lemma get_loc_Some labels label i :
  get_loc labels label = Some i ->
  0 <= i /\ nth_error labels (Z.to_nat i) = Some label.
Proof.
  revert i. induction labels as [|y l IH]; cbn; intros i; [discriminate|].
  destruct (y =? label) eqn:E.
  - intros H. injection H as <-. apply Z.eqb_eq in E. subst. cbn. auto with zarith.
  - destruct (get_loc l label) as [j|]; [|discriminate].
    intros H. injection H as <-. destruct (IH j eq_refl) as [Hj Hn].
    split; [lia|]. replace (Z.to_nat (j + 1)) with (S (Z.to_nat j)) by lia.
    exact Hn.
Qed.

Lemma get_loc_In labels label :
  In label labels -> exists i, get_loc labels label = Some i.
Proof.
  induction labels as [|y l IH]; cbn; [intros []|].
  destruct (y =? label) eqn:E; [eauto|].
  intros [H|H]; [apply Z.eqb_neq in E; contradiction|].
  destruct (IH H) as [i ->]. eauto.
Qed.

Lemma getitem_nth_error {A} (l : list A) i a :
  0 <= i -> nth_error l (Z.to_nat i) = Some a -> getitem l i = Ok a.
Proof.
  intros Hi H. unfold getitem.
  destruct (i <? 0) eqn:E; [apply Z.ltb_lt in E; lia|].
  rewrite E, H. reflexivity.
Qed.

Lemma insert_unique_In x l y :
  In y (insert_unique x l) -> y = x \/ In y l.
Proof.
  induction l as [|a l IH]; cbn; [intuition auto|].
  destruct (x <? a); [cbn; intuition auto|].
  destruct (x =? a); cbn; intuition auto.
Qed.

Lemma insert_unique_sorted x l :
  StronglySorted Z.lt l -> StronglySorted Z.lt (insert_unique x l).
Proof.
  induction 1 as [|a l Hs IH Ha]; cbn; [repeat constructor|].
  destruct (x <? a) eqn:E1.
  - apply Z.ltb_lt in E1. constructor; [constructor; assumption|].
    constructor; [assumption|].
    rewrite Forall_forall in *. intros y Hy. specialize (Ha y Hy). lia.
  - destruct (x =? a) eqn:E2; [constructor; assumption|].
    apply Z.ltb_ge in E1. apply Z.eqb_neq in E2.
    constructor; [assumption|].
    rewrite Forall_forall in *. intros y Hy.
    apply insert_unique_In in Hy. destruct Hy as [->|Hy]; [lia|auto].
Qed.

Lemma axis_labels_sorted l : StronglySorted Z.lt (axis_labels l).
Proof.
  induction l as [|x l IH]; cbn; [constructor|].
  now apply insert_unique_sorted.
Qed.

(** The labels of a pivot axis are pairwise distinct. *)
Lemma axis_labels_NoDup l : NoDup (axis_labels l).
Proof.
  induction (axis_labels_sorted l) as [|a l' Hs IH Ha]; constructor; auto.
  intros Hin. rewrite Forall_forall in Ha. specialize (Ha a Hin). lia.
Qed.

Lemma untrained_raises rt self user_id n :
  svd_model self = None ->
  get_collaborative_recommendations rt self user_id n = Raise ValueError.
Proof.
  intros H. unfold get_collaborative_recommendations. now rewrite H.
Qed.

End CollaborativeFacts.




Module RankingFacts.
Import CollaborativeSpec CollaborativeFacts.

Section Fitted.
Context (rt : Runtime) (self : EngineState) (svd : SVDModel)
        (m : UserItemMatrix) (user_id : Z) (row : list float).
Hypothesis F : fitted rt self svd m user_id row.

Let order : list Z :=
  set_difference_order rt (m_columns m) (rated_columns (m_columns m) row).

Let candidate (item : Z) : Z * float := (item, predicted svd m row item).

Lemma order_unrated item : In item order <-> In item (unrated m row).
Proof.
  split; apply Permutation_in; [|symmetry]; apply (fit_set _ _ _ _ _ _ F).
Qed.

Lemma order_columns item : In item order -> In item (m_columns m).
Proof.
  intros H. apply order_unrated in H. unfold unrated in H.
  apply filter_In in H. tauto.
Qed.

Lemma candidate_score item :
  In item order ->
  match get_loc (m_columns m) item with
  | None => Raise KeyError
  | Some item_idx =>
      score <- getitem (map (dot (transform svd row)) (item_factors svd))
                 item_idx ;;
      Ok (item, score)
  end = Ok (candidate item).
Proof.
  intros H. apply order_columns in H.
  destruct (get_loc_In _ _ H) as [j Hj].
  unfold candidate, predicted. rewrite Hj.
  destruct (get_loc_Some _ _ _ Hj) as [Hj0 Hn].
  assert (Hlt : (Z.to_nat j < List.length (item_factors svd))%nat).
  { rewrite (fit_factors _ _ _ _ _ _ F). apply nth_error_Some. congruence. }
  destruct (nth_error (item_factors svd) (Z.to_nat j)) as [v|] eqn:Ev;
    [|apply nth_error_None in Ev; lia].
  rewrite (getitem_nth_error _ j (dot (transform svd row) v)); auto.
  rewrite nth_error_map, Ev. reflexivity.
Qed.

Lemma collaborative_recommendations_eq n :
  get_collaborative_recommendations rt self user_id n =
  Ok (slice_to (sort_desc snd (map candidate order)) n).
Proof.
  unfold get_collaborative_recommendations.
  rewrite (fit_model _ _ _ _ _ _ F), (fit_matrix _ _ _ _ _ _ F).
  destruct (fit_row _ _ _ _ _ _ F) as (idx & Hloc & Hrow).
  rewrite Hloc.
  assert (Hidx : 0 <= idx).
  { clear - Hloc. revert idx Hloc.
    induction (m_index m) as [|y l IH]; cbn; intros idx; [discriminate|].
    destruct (y =? user_id); [intros H; injection H as <-; lia|].
    destruct (get_loc l user_id); [|discriminate].
    intros H; injection H as <-. specialize (IH z eq_refl). lia. }
  rewrite (getitem_nth_error _ _ _ Hidx Hrow). cbn [bind].
  fold order.
  rewrite (PyFacts.for_each_ok _ candidate).
  - reflexivity.
  - intros item Hitem. now apply candidate_score.
Qed.

Lemma candidates_num l :
  (forall i, In i l -> In i order) -> all_num snd (map candidate l).
Proof.
  intros H. apply Forall_forall. intros c Hc.
  apply in_map_iff in Hc. destruct Hc as (i & <- & Hi). cbn.
  apply (fit_num _ _ _ _ _ _ F). auto using order_columns.
Qed.

Lemma candidates_tied v l :
  map fst (tied snd v (map candidate l)) =
  filter (fun i => (predicted svd m row i =? v)%float) l.
Proof.
  unfold tied. induction l as [|i l IH]; cbn; [reflexivity|].
  destruct (predicted svd m row i =? v)%float; cbn; now rewrite IH.
Qed.

End Fitted.

End RankingFacts.




(* ================================================================== *)
(** * The static fallback generators                                   *)
(* ================================================================== *)

Import Recommender.

Module CatalogueFacts.

Lemma catalogue_parses :
  forallb (fun o => is_ok (age_bounds (c_target_age o))
                    && is_ok (float_of_int (c_total_price o)))%bool
          load_products = true.
Proof. vm_compute. reflexivity. Qed.

Lemma score_outfit_ok user_age user_gender user_color user_style user_budget o :
  In o load_products ->
  exists score,
    score_outfit user_age user_gender user_color user_style user_budget o
      = Ok score.
Proof.
  intros Hin.
  pose proof catalogue_parses as H. rewrite forallb_forall in H.
  specialize (H o Hin). apply andb_prop in H. destruct H as [Ha Hp].
  unfold score_outfit.
  destruct (age_bounds (c_target_age o)) as [[lo hi]|]; [|discriminate].
  destruct (float_of_int (c_total_price o)) as [price|]; [|discriminate].
  cbn [bind].
  repeat match goal with
         | |- context [if ?c then _ else _] => destruct c
         end; cbn [bind]; eauto.
Qed.

Lemma for_each_scored (f : CatalogOutfit -> result float) l :
  (forall o, In o l -> exists s, f o = Ok s) ->
  exists r, for_each (fun o => s <- f o ;; Ok (s, o)) l = Ok r /\
            map snd r = l.
Proof.
  induction l as [|o l IH]; intros H; cbn.
  - exists []. auto.
  - destruct (H o (or_introl eq_refl)) as [s Hs]. rewrite Hs. cbn [bind].
    destruct IH as (r & Hr & Hm); [intros; apply H; cbn; auto|].
    rewrite Hr. exists ((s, o) :: r). cbn. now rewrite Hm.
Qed.

Lemma catalogue_ids_NoDup : NoDup (map c_outfit_id load_products).
Proof.
  vm_compute.
  repeat (constructor;
          [intros H; repeat (destruct H as [H|H]; [discriminate|]);
           contradiction|]).
  constructor.
Qed.

End CatalogueFacts.




(* ================================================================== *)
(** * The dependency-free generator                                    *)
(* ================================================================== *)

Module GeneratorFacts.
Import Process.

Lemma dependency_free py env profile k :
  heavy_deps_missing (_ensure_dirs env) = true ->
  get_recommendations py env profile k =
  (_ensure_dirs env, pseudo_recs py profile k).
Proof. intros H. unfold get_recommendations. now rewrite H. Qed.

Lemma ensure_dirs_idempotent env :
  _ensure_dirs (_ensure_dirs env) = _ensure_dirs env.
Proof. reflexivity. Qed.

Lemma heavy_deps_missing_ensure_dirs env :
  heavy_deps_missing (_ensure_dirs env) = heavy_deps_missing env.
Proof. reflexivity. Qed.

Lemma entries_length py profile seed step k recs :
  entries py profile seed step k = Ok recs ->
  List.length recs = Z.to_nat k.
Proof.
  unfold entries. intros H. apply PyFacts.for_each_length in H.
  now rewrite PyFacts.range_length in H.
Qed.

Lemma entries_score py profile seed step k recs i e :
  entries py profile seed step k = Ok recs ->
  nth_error recs i = Some e ->
  e_score e = round (seed - Z2F (Z.of_nat i) * step)%float 4.
Proof.
  unfold entries. intros H Hi.
  assert (Hlt : (i < Z.to_nat k)%nat).
  { rewrite <- PyFacts.range_length.
    rewrite <- (PyFacts.for_each_length _ _ _ H).
    apply nth_error_Some. congruence. }
  destruct (PyFacts.for_each_nth_error _ _ _ _ _ H
              (PyFacts.range_nth_error k i Hlt)) as (e' & He' & Hf).
  rewrite Hi in He'. injection He' as <-.
  destruct (variety py _ _ _ _ (Z.of_nat i)) as [sc|]; [|discriminate].
  cbn [bind] in Hf. injection Hf as <-. reflexivity.
Qed.

Lemma for_each_total {A B} (f : A -> result B) l :
  (forall a, In a l -> exists b, f a = Ok b) ->
  exists r, for_each f l = Ok r.
Proof.
  induction l as [|x l IH]; cbn; intros H; [eauto|].
  destruct (H x (or_introl eq_refl)) as [y ->].
  destruct IH as [ys ->]; [intros; apply H; auto|]. eauto.
Qed.

Lemma getitem_ok {A} (l : list A) j :
  0 <= j < len l ->
  exists a, getitem l j = Ok a /\ nth_error l (Z.to_nat j) = Some a.
Proof.
  intros Hj. unfold len in Hj.
  destruct (nth_error l (Z.to_nat j)) as [a|] eqn:E.
  - exists a. split; [|reflexivity].
    apply CollaborativeFacts.getitem_nth_error; [lia|assumption].
  - apply nth_error_None in E. lia.
Qed.

Lemma pools_nonempty user_age user_budget :
  exists s, In s (age_styles user_age ++ budget_styles user_budget).
Proof.
  unfold age_styles.
  destruct (user_age <? 25); [|destruct (user_age <? 35)];
    eexists; cbn; left; reflexivity.
Qed.

(** The style and colour picked at position [i >= 0]. *)
Lemma variety_ok py user_style user_color user_age user_budget i :
  set_law py -> In user_color colors -> In user_style styles -> 0 <= i ->
  exists sc,
    variety py user_style user_color user_age user_budget i = Ok sc /\
    varied user_style user_color user_age user_budget i sc.
Proof.
  intros Hlaw Hc Hs Hi. unfold variety, varied.
  destruct (i =? 0) eqn:E0.
  { apply Z.eqb_eq in E0. eexists. split; [reflexivity|].
    repeat split; intros; try lia; reflexivity. }
  destruct (i =? 1) eqn:E1.
  { apply Z.eqb_eq in E1. clear Hs.
    repeat (destruct Hc as [<-|Hc];
            [eexists; split; [cbn; reflexivity|];
             repeat split; intros; try lia; cbn;
             [discriminate | tauto]|]).
    destruct Hc. }
  destruct (i =? 2) eqn:E2.
  { apply Z.eqb_eq in E2. clear Hc.
    repeat (destruct Hs as [<-|Hs];
            [eexists; split; [cbn; reflexivity|];
             repeat split; intros; try lia; cbn;
             [discriminate | tauto]|]).
    destruct Hs. }
  apply Z.eqb_neq in E0, E1, E2.
  set (preferred := list_of_set py
                      (age_styles user_age ++ budget_styles user_budget)).
  assert (Hlen : 0 < len preferred).
  { destruct (pools_nonempty user_age user_budget) as [s Hin].
    apply (proj2 (proj2 (Hlaw _) _)) in Hin. fold preferred in Hin.
    unfold len. destruct preferred; [destruct Hin|cbn; lia]. }
  unfold imod.
  destruct (len preferred =? 0) eqn:El; [apply Z.eqb_eq in El; lia|].
  cbn [bind].
  destruct (getitem_ok preferred (i mod len preferred)) as (s & -> & Hs');
    [apply Z.mod_pos_bound; lia|].
  cbn [bind].
  change (len colors) with 10. change (10 =? 0) with false. cbn [bind].
  destruct (getitem_ok colors ((i * 2) mod 10)) as (c & -> & Hc');
    [change (len colors) with 10; apply Z.mod_pos_bound; lia|].
  cbn [bind]. eexists. split; [reflexivity|].
  repeat split; intros; try lia; cbn [fst snd].
  - apply nth_error_In in Hs'. now apply (proj1 (proj2 (Hlaw _) _)) in Hs'.
  - exact Hc'.
Qed.

(** Every entry of a returned list carries the style and colour that
    [variety] picks at its position. *)
Lemma entries_variety py profile seed step k recs i e :
  entries py profile seed step k = Ok recs ->
  nth_error recs i = Some e ->
  variety py (get (u_style_pref profile) "casual")
    (get (u_color_pref profile) "black") (get (u_age profile) 25)
    (get (u_budget profile) 1000%float) (Z.of_nat i)
  = Ok (e_style e, e_color e).
Proof.
  unfold entries. intros H Hi.
  assert (Hlt : (i < Z.to_nat k)%nat).
  { rewrite <- PyFacts.range_length.
    rewrite <- (PyFacts.for_each_length _ _ _ H).
    apply nth_error_Some. congruence. }
  destruct (PyFacts.for_each_nth_error _ _ _ _ _ H
              (PyFacts.range_nth_error k i Hlt)) as (e' & He' & Hf).
  rewrite Hi in He'. injection He' as <-.
  destruct (variety py _ _ _ _ (Z.of_nat i)) as [[s c]|]; [|discriminate].
  cbn [bind] in Hf. injection Hf as <-. reflexivity.
Qed.

End GeneratorFacts.







Lemma process_set_law : Process.set_law Process.py.
Proof.
  intros l. split; [apply NoDup_nodup|]. intros x. apply nodup_In.
Qed.

(** X2.  What the generator does deliver: for a preferred colour and style
    taken from its own lists (and an age that converts to a float) it
    returns [k] entries, the first with the user's style and colour, the
    second with the same style and another colour, the third with
    another style and the same colour, the others with a style from the
    age and budget pools and the colour at position [2 i mod 10]. *)
Theorem pseudo_recs_known_preferences :
  forall (py : Interpreter) (user_profile : UserProfile) (k : Z),
    Process.set_law py ->
    is_ok (float_of_int (get (u_age user_profile) 28)) = true ->
    In (get (u_color_pref user_profile) "black") colors ->
    In (get (u_style_pref user_profile) "casual") styles ->
    exists recs,
      pseudo_recs py user_profile k = Ok recs /\
      List.length recs = Z.to_nat k /\
      forall i e, nth_error recs i = Some e ->
        Process.varied (get (u_style_pref user_profile) "casual")
          (get (u_color_pref user_profile) "black")
          (get (u_age user_profile) 25)
          (get (u_budget user_profile) 1000%float)
          (Z.of_nat i) (e_style e, e_color e).
Proof.
  intros py profile k Hlaw Hage Hcolor Hstyle.
  assert (Hbase : exists b, base py profile = Ok b).
  { unfold base, features.
    destruct (float_of_int (get (u_age profile) 28)); [|discriminate].
    cbn [bind]. eauto. }
  destruct Hbase as [b Hb].
  unfold pseudo_recs. rewrite Hb. cbn [bind].
  assert (Hrun : exists recs, entries py profile b 0.02%float k = Ok recs).
  { unfold entries. apply GeneratorFacts.for_each_total.
    intros i Hi. unfold range in Hi. apply in_map_iff in Hi.
    destruct Hi as (j & <- & _).
    destruct (GeneratorFacts.variety_ok py _ _
                (get (u_age profile) 25) (get (u_budget profile) 1000%float)
                (Z.of_nat j) Hlaw Hcolor Hstyle) as (sc & -> & _); [lia|].
    cbn [bind]. eauto. }
  destruct Hrun as [recs Hrecs]. exists recs.
  split; [exact Hrecs|]. split.
  - eapply GeneratorFacts.entries_length; eauto.
  - intros i e Hi.
    pose proof (GeneratorFacts.entries_variety _ _ _ _ _ _ _ _ Hrecs Hi) as Hv.
    destruct (GeneratorFacts.variety_ok py _ _
                (get (u_age profile) 25) (get (u_budget profile) 1000%float)
                (Z.of_nat i) Hlaw Hcolor Hstyle) as (sc & Hsc & Hvar); [lia|].
    rewrite Hv in Hsc. injection Hsc as <-. exact Hvar.
Qed.

Lemma pseudo_recs_known_preferences_witness :
  Process.set_law Process.py /\
  is_ok (float_of_int (get (u_age Process.elegant) 28)) = true /\
  In (get (u_color_pref Process.elegant) "black") colors /\
  In (get (u_style_pref Process.elegant) "casual") styles /\
  exists recs,
    pseudo_recs Process.py Process.elegant 6 = Ok recs /\
    List.length recs = Z.to_nat 6 /\
    forall i e, nth_error recs i = Some e ->
      Process.varied (get (u_style_pref Process.elegant) "casual")
        (get (u_color_pref Process.elegant) "black")
        (get (u_age Process.elegant) 25)
        (get (u_budget Process.elegant) 1000%float)
        (Z.of_nat i) (e_style e, e_color e).
Proof.
  assert (Hc : In (get (u_color_pref Process.elegant) "black") colors)
    by (cbn; auto).
  assert (Hs : In (get (u_style_pref Process.elegant) "casual") styles)
    by (cbn; auto 10).
  split; [exact process_set_law|]. split; [reflexivity|].
  split; [exact Hc|]. split; [exact Hs|].
  exact (pseudo_recs_known_preferences Process.py Process.elegant 6
           process_set_law eq_refl Hc Hs).
Defined.

(** C7, the failing input.  A profile whose preferred colour is not one
    of the ten colours of the generator makes the second entry raise
    [ValueError], under every string hash and set order. *)
Theorem pseudo_recs_unknown_colour_raises :
  forall py : Interpreter,
    snd (get_recommendations py Process.bare Process.orange 2)
      = Raise ValueError.
Proof.
  intros py. rewrite GeneratorFacts.dependency_free by reflexivity.
  cbn [snd]. unfold pseudo_recs, base, features.
  change (float_of_int (get (u_age Process.orange) 28))
    with (float_of_int 28).
  replace (float_of_int 28) with (Ok 28%float) by (vm_compute; reflexivity).
  cbn [bind]. reflexivity.
Qed.

(* ================================================================== *)
(** * The engine beyond its entry point                                *)
(* ================================================================== *)

Module HybridFacts.

Lemma slice_to_nil {A} k : slice_to (@nil A) k = [].
Proof. unfold slice_to. destruct (0 <=? k); apply firstn_nil. Qed.

Lemma remove_duplicates_length l : forall seen,
  (List.length (remove_duplicates seen l) <= List.length l)%nat.
Proof.
  induction l as [|h l IH]; intros seen; cbn; [lia|].
  destruct (mem_Z (sc_product_id h) seen); cbn.
  - specialize (IH seen). lia.
  - specialize (IH (sc_product_id h :: seen)). lia.
Qed.

Lemma get_popular_items_length self n :
  0 <= n -> Z.of_nat (List.length (get_popular_items self n)) <= n.
Proof.
  intros Hn. unfold get_popular_items, read_sql.
  destruct (conn self) as [db|]; [|cbn; lia].
  rewrite length_map, CollaborativeFacts.limit_firstn, length_firstn by lia.
  lia.
Qed.

(** Whatever branch answers, the collaborative filter returns at most
    the number of pairs asked for. *)
Lemma collaborative_length rt self user_id n recs :
  0 <= n ->
  get_collaborative_recommendations rt self user_id n = Ok recs ->
  Z.of_nat (List.length recs) <= n.
Proof.
  intros Hn. unfold get_collaborative_recommendations.
  destruct (svd_model self) as [svd|]; [|discriminate].
  destruct (user_item_matrix self) as [m|]; [|discriminate].
  destruct (get_loc (m_index m) user_id) as [user_idx|].
  - destruct (getitem (m_values m) user_idx) as [row|]; [|discriminate].
    cbn [bind].
    destruct (for_each _ _) as [l|]; [|discriminate].
    cbn [bind]. intros H. injection H as <-.
    rewrite PyFacts.slice_to_length by assumption. lia.
  - intros H. injection H as <-. now apply get_popular_items_length.
Qed.

Lemma collaborative_part_length rt self user_id n :
  0 <= n ->
  Z.of_nat (List.length (collaborative_part rt self user_id n)) <= n / 2.
Proof.
  intros Hn. unfold collaborative_part.
  assert (H2 : 0 <= n / 2) by (apply Z.div_pos; lia).
  destruct (get_collaborative_recommendations rt self user_id (n / 2))
    as [recs|] eqn:E; [|cbn; lia].
  rewrite length_map. eapply collaborative_length; eauto.
Qed.

(** The product a detail lookup returns is a row of the connected
    database, in stock, with the id asked for. *)
Lemma get_product_details_Some self product_id p :
  get_product_details self product_id = Some p ->
  exists db, conn self = Some db /\ In p (db_products db) /\
             p_id p = product_id /\ p_in_stock p = true.
Proof.
  unfold get_product_details, read_sql.
  destruct (conn self) as [db|]; [|discriminate].
  destruct (filter _ (db_products db)) as [|q l] eqn:E; [discriminate|].
  intros H. injection H as <-. exists db.
  assert (Hq : In q (q :: l)) by (cbn; auto).
  rewrite <- E in Hq. apply filter_In in Hq. destruct Hq as [Hin Hq].
  apply andb_prop in Hq. destruct Hq as [Hid Hs].
  apply Z.eqb_eq in Hid. auto.
Qed.

Lemma with_details_product self l r :
  In r (with_details self l) ->
  exists s, In s l /\
            get_product_details self (sc_product_id s) = Some (rec_details r).
Proof.
  induction l as [|h l IH]; cbn; [intros []|].
  destruct (get_product_details self (sc_product_id h)) as [p|] eqn:E.
  - intros [<-|H].
    + exists h. cbn. auto.
    + destruct (IH H) as (s & ? & ?). eauto.
  - intros H. destruct (IH H) as (s & ? & ?). eauto.
Qed.

(** The hybrid list is the detail lookup of the collaborative entries. *)
Lemma hybrid_is_collaborative rt self user_id prefs n :
  get_hybrid_recommendations rt self user_id prefs n =
  with_details self
    (slice_to (sort_desc sc_score
                 (remove_duplicates [] (collaborative_part rt self user_id n)))
       n).
Proof.
  unfold get_hybrid_recommendations.
  now rewrite PreferenceFacts.content_part_nil, app_nil_r.
Qed.

Lemma untrained_hybrid rt self user_id prefs n :
  svd_model self = None ->
  get_hybrid_recommendations rt self user_id prefs n = [].
Proof.
  intros H. rewrite hybrid_is_collaborative. unfold collaborative_part.
  rewrite CollaborativeFacts.untrained_raises by assumption.
  cbn. now rewrite slice_to_nil.
Qed.

Lemma untrained_outfits rt self user_id prefs :
  svd_model self = None ->
  get_recommendations_for_user rt self user_id prefs = [].
Proof.
  intros H. unfold get_recommendations_for_user.
  rewrite untrained_hybrid by assumption. reflexivity.
Qed.

Lemma NoDup_map_inj {A B} (f : A -> B) l a b :
  NoDup (map f l) -> In a l -> In b l -> f a = f b -> a = b.
Proof.
  induction l as [|x l IH]; cbn; [intros _ []|].
  intros Hn Ha Hb E. inversion Hn as [|? ? Hx Hl]; subst.
  destruct Ha as [->|Ha], Hb as [->|Hb]; auto.
  - exfalso. apply Hx. rewrite E. now apply in_map.
  - exfalso. apply Hx. rewrite <- E. now apply in_map.
Qed.

End HybridFacts.

(** X3.  The preference-driven source never contributes: whatever the
    engine state, the preferences and the count,
    [find_products_by_preferences] returns the empty list.  With a
    preference key present the query text holds a second [WHERE] and is
    rejected; without one, the matcher raises [KeyError] on every row
    the query selects, because the query leaves out the
    [popularity_score] column the matcher reads.  Both errors are
    swallowed. *)
Theorem find_products_by_preferences_nil :
  forall (self : EngineState) (preferences : Preferences) (n : Z),
    find_products_by_preferences self preferences n = [] /\
    (forall db, preference_conditions preferences <> [] ->
       preference_query preferences n db = Raise DatabaseError) /\
    (forall product,
       calculate_preference_score (preference_query_row product) preferences
         = Raise KeyError).
Proof.
  intros self prefs n. split; [apply PreferenceFacts.nothing_found|]. split.
  - intros db. apply PreferenceFacts.conditions_rejected.
  - intros p. apply PreferenceFacts.query_row_unscored.
Qed.

(** X4.  Asked for [n >= 0] recommendations the hybrid blender returns
    at most [n // 2] of them, all tagged [collaborative]: the half of
    the list reserved for the preference-driven source stays empty. *)
Theorem get_hybrid_recommendations_collaborative_half :
  forall (rt : Runtime) (self : EngineState) (user_id : Z)
         (user_preferences : Preferences) (n : Z),
    0 <= n ->
    let out := get_hybrid_recommendations rt self user_id user_preferences n in
    Z.of_nat (List.length out) <= n / 2 /\
    forall r, In r out -> recommendation_source r = collaborative.
Proof.
  intros rt self user_id prefs n Hn out. unfold out.
  rewrite HybridFacts.hybrid_is_collaborative. split.
  - pose proof (BlenderFacts.with_details_length self
      (slice_to (sort_desc sc_score
                   (remove_duplicates [] (collaborative_part rt self user_id n)))
         n)) as H1.
    pose proof (PyFacts.slice_to_length
      (sort_desc sc_score
         (remove_duplicates [] (collaborative_part rt self user_id n))) n Hn)
      as H2.
    unfold len in H2. rewrite PyFacts.sort_desc_length in H2.
    pose proof (HybridFacts.remove_duplicates_length
                  (collaborative_part rt self user_id n) []) as H3.
    pose proof (HybridFacts.collaborative_part_length rt self user_id n Hn).
    lia.
  - intros r Hr. apply BlenderFacts.with_details_In in Hr.
    destruct Hr as (s & Hs & _ & _ & ->).
    apply PyFacts.slice_to_In, PyFacts.sort_desc_In in Hs.
    apply BlenderFacts.remove_duplicates_first in Hs. destruct Hs as [Hs _].
    apply find_some in Hs. destruct Hs as [Hs _].
    eapply BlenderFacts.collaborative_part_source; eauto.
Qed.

Lemma get_hybrid_recommendations_collaborative_half_witness :
  0 <= 4 /\
  let out :=
    get_hybrid_recommendations Demo.rt Demo.trained 1 Demo.profile 4 in
  out <> [] /\
  Z.of_nat (List.length out) <= 4 / 2 /\
  forall r, In r out -> recommendation_source r = collaborative.
Proof.
  split; [lia|]. split; [vm_compute; discriminate|].
  apply (get_hybrid_recommendations_collaborative_half
           Demo.rt Demo.trained 1 Demo.profile 4).
  lia.
Defined.



(** X6.  When connecting and training complete without a fitted model
    (the interaction table is empty, so the factorisation is skipped),
    the entry point returns the empty list: no exception reaches its
    handler, and the static fallback is not used. *)
Theorem get_fashion_recommendations_without_model :
  forall (rt : Runtime) (self self' : EngineState)
         (user_profile : Preferences) (k : Z),
    train_models rt (connect_database rt self) = (self', Ok tt) ->
    svd_model self' = None ->
    get_fashion_recommendations rt self user_profile k = (self', Ok []).
Proof.
  intros rt self self' profile k Ht Hs.
  unfold get_fashion_recommendations, personalised. rewrite Ht.
  rewrite HybridFacts.untrained_outfits by assumption.
  now rewrite HybridFacts.slice_to_nil.
Qed.

Lemma get_fashion_recommendations_without_model_witness :
  train_models Opening.rt (connect_database Opening.rt new_engine)
    = (Opening.opened, Ok tt) /\
  svd_model Opening.opened = None /\
  get_fashion_recommendations Opening.rt new_engine Demo.profile 8
    = (Opening.opened, Ok []).
Proof.
  split; [reflexivity|]. split; [reflexivity|].
  apply (get_fashion_recommendations_without_model
           Opening.rt new_engine Opening.opened Demo.profile 8);
    reflexivity.
Defined.

(** X7.  Every item of every outfit recommended to a user is made from
    a product of the connected database that is in stock: a sold-out
    product never reaches an outfit. *)
Theorem get_recommendations_for_user_in_stock :
  forall (rt : Runtime) (self : EngineState) (user_id : Z)
         (user_preferences : Preferences) (outfit : Outfit)
         (it : OutfitItem),
    In outfit (get_recommendations_for_user rt self user_id user_preferences) ->
    In it (o_items outfit) ->
    exists db product,
      conn self = Some db /\ In product (db_products db) /\
      p_in_stock product = true /\ it = OutfitSpec.item_of product.
Proof.
  intros rt self user_id prefs o it Ho Hit.
  unfold get_recommendations_for_user in Ho.
  apply AssemblerFacts.create_complete_outfits_In in Ho.
  destruct Ho as (c & Ho).
  apply AssemblerFacts.create_outfit_from_products_spec in Ho.
  destruct Ho as (_ & Hf). destruct (Hf it Hit) as (p & Hp & ->).
  unfold OutfitSpec.first_in_slot in Hp. apply find_some in Hp.
  destruct Hp as [Hp _]. unfold OutfitSpec.group_of in Hp.
  apply in_map_iff in Hp. destruct Hp as (r & <- & Hr).
  apply filter_In in Hr. destruct Hr as [Hr _].
  apply HybridFacts.with_details_product in Hr. destruct Hr as (s & _ & Hd).
  apply HybridFacts.get_product_details_Some in Hd.
  destruct Hd as (db & Hc & Hin & _ & Hs).
  exists db, (rec_details r). auto.
Qed.

Lemma get_recommendations_for_user_in_stock_witness :
  exists outfit it,
    In outfit (get_recommendations_for_user Showroom.rt Showroom.trained 1
                 Demo.profile) /\
    In it (o_items outfit) /\
    exists db product,
      conn Showroom.trained = Some db /\ In product (db_products db) /\
      p_in_stock product = true /\ it = OutfitSpec.item_of product.
Proof.
  eexists. eexists. split; [vm_compute; left; reflexivity|].
  split; [cbn; left; reflexivity|].
  eapply (get_recommendations_for_user_in_stock
            Showroom.rt Showroom.trained 1 Demo.profile).
  - vm_compute. left. reflexivity.
  - cbn. left. reflexivity.
Defined.

(** X8.  With product ids that are unique in the table, the detail
    lookup returns a product exactly when that product is a row of the
    table, carries the id asked for and is in stock: looking up the id
    of an in-stock product gives back that product, and the id of a
    sold-out or unknown product gives [None]. *)
Theorem get_product_details_lookup :
  forall (self : EngineState) (db : Database) (product_id : Z)
         (product : Product),
    conn self = Some db ->
    NoDup (map p_id (db_products db)) ->
    (get_product_details self product_id = Some product <->
     In product (db_products db) /\ p_id product = product_id /\
     p_in_stock product = true).
Proof.
  intros self db i p Hc Hn. split.
  - intros H. apply HybridFacts.get_product_details_Some in H.
    destruct H as (db' & Hc' & H). rewrite Hc in Hc'. injection Hc' as <-.
    exact H.
  - intros (Hin & Hid & Hs). unfold get_product_details, read_sql.
    rewrite Hc.
    destruct (filter (fun q => (p_id q =? i) && p_in_stock q) (db_products db))
      as [|q l] eqn:E.
    + assert (Hp : In p []).
      { rewrite <- E. apply filter_In. split; [assumption|].
        rewrite Hs, Hid, Z.eqb_refl. reflexivity. }
      destruct Hp.
    + f_equal. assert (Hq : In q (q :: l)) by (cbn; auto).
      rewrite <- E in Hq. apply filter_In in Hq. destruct Hq as [Hq Hb].
      apply andb_prop in Hb. destruct Hb as [Hb _]. apply Z.eqb_eq in Hb.
      apply (HybridFacts.NoDup_map_inj p_id (db_products db)); auto.
      congruence.
Qed.

Lemma get_product_details_lookup_witness :
  conn Demo.untrained = Some Demo.small_db /\
  NoDup (map p_id (db_products Demo.small_db)) /\
  (get_product_details Demo.untrained 21 = Some (Demo.garment 21) <->
   In (Demo.garment 21) (db_products Demo.small_db) /\
   p_id (Demo.garment 21) = 21 /\ p_in_stock (Demo.garment 21) = true).
Proof.
  assert (Hn : NoDup (map p_id (db_products Demo.small_db))).
  { cbn. repeat constructor; cbn; intuition discriminate. }
  split; [reflexivity|]. split; [exact Hn|].
  apply (get_product_details_lookup Demo.untrained Demo.small_db 21
           (Demo.garment 21)); [reflexivity | exact Hn].
Defined.

(** X9.  The entry point answers every request, whatever [k] is, with
    a list of at most five outfits, and of at most [k] outfits when
    [k >= 0]: the personalisation path is cut twice, to five outfits
    and to [k], and the fallback holds a single outfit. *)
Theorem get_fashion_recommendations_size :
  forall (rt : Runtime) (self : EngineState) (user_profile : Preferences)
         (k : Z),
    exists l,
      snd (get_fashion_recommendations rt self user_profile k) = Ok l /\
      (List.length l <= 5)%nat /\
      (0 <= k -> Z.of_nat (List.length l) <= k).
Proof.
  intros rt self profile k. unfold get_fashion_recommendations.
  destruct (personalised rt self profile k) as [self' [r|e]] eqn:E; cbn [snd].
  - exists r. split; [reflexivity|].
    assert (H : snd (personalised rt self profile k) = Ok r) by now rewrite E.
    apply EntryFacts.personalised_ok in H. destruct H as (s & u & ->).
    pose proof (AssemblerFacts.create_complete_outfits_length
                  (get_hybrid_recommendations rt s u profile 20) profile) as H5.
    fold (get_recommendations_for_user rt s u profile) in H5.
    destruct (PyFacts.slice_to_is_firstn
                (get_recommendations_for_user rt s u profile) k) as [j Hj].
    split.
    + rewrite Hj, length_firstn. lia.
    + intros Hk. rewrite PyFacts.slice_to_length by assumption.
      unfold len. lia.
  - exists (get_fallback_recommendations profile k).
    split; [reflexivity|]. unfold get_fallback_recommendations.
    rewrite PyFacts.list_mul_length.
    change (len fallback_outfits) with 1.
    change (List.length fallback_outfits) with 1%nat. split; lia.
Qed.

Module SelectionFacts.
Import OutfitSpec.

Lemma create_outfit_goods products p1 p2 :
  option_map goods (create_outfit_from_products products p1)
  = option_map goods (create_outfit_from_products products p2).
Proof.
  unfold create_outfit_from_products.
  destruct (2 <=? _); reflexivity.
Qed.

Lemma outfits_of_groups_goods groups p1 p2 :
  map goods (outfits_of_groups groups p1)
  = map goods (outfits_of_groups groups p2).
Proof.
  induction groups as [|[c l] groups IH]; cbn; [reflexivity|].
  pose proof (create_outfit_goods (map rec_details l) p1 p2) as H.
  destruct (create_outfit_from_products (map rec_details l) p1),
           (create_outfit_from_products (map rec_details l) p2);
    cbn [option_map] in H; try discriminate; [|exact IH].
  cbn [map]. f_equal; [congruence | exact IH].
Qed.

Lemma create_complete_outfits_goods recs p1 p2 :
  map goods (create_complete_outfits recs p1)
  = map goods (create_complete_outfits recs p2).
Proof.
  unfold create_complete_outfits.
  rewrite <- !PyFacts.slice_to_map. f_equal.
  apply outfits_of_groups_goods.
Qed.

End SelectionFacts.

(** X10.  The preferences do not select the products.  Two requests
    that differ in age, gender, colour, style or budget but name the
    same user get outfits made of the same items, with the same ids
    and total prices, in the same order: the profile reaches the answer
    only through the user id and through the labels copied into each
    outfit. *)
Theorem preferences_do_not_select_items :
  forall (rt : Runtime) (self : EngineState) (p1 p2 : Preferences) (k : Z),
    pref_user_id p1 = pref_user_id p2 ->
    exists l1 l2,
      snd (get_fashion_recommendations rt self p1 k) = Ok l1 /\
      snd (get_fashion_recommendations rt self p2 k) = Ok l2 /\
      map OutfitSpec.goods l1 = map OutfitSpec.goods l2.
Proof.
  intros rt self p1 p2 k Hu.
  unfold get_fashion_recommendations, personalised.
  destruct (train_models rt (connect_database rt self)) as [self' [u|e]];
    cbn [snd].
  - eexists. eexists. split; [reflexivity|]. split; [reflexivity|].
    rewrite <- !PyFacts.slice_to_map. f_equal.
    unfold get_recommendations_for_user.
    rewrite !HybridFacts.hybrid_is_collaborative, Hu.
    apply SelectionFacts.create_complete_outfits_goods.
  - eexists. eexists. split; [reflexivity|]. split; reflexivity.
Qed.

Lemma preferences_do_not_select_items_witness :
  let other :=
    {| pref_user_id := Some 1; pref_age := Some 61;
       pref_gender := Some "female"; pref_color := Some "red";
       pref_style := Some "formal"; pref_budget := Some 10%float |} in
  pref_user_id Demo.profile = pref_user_id other /\
  exists l1 l2,
    snd (get_fashion_recommendations Showroom.rt new_engine Demo.profile 8)
      = Ok l1 /\
    snd (get_fashion_recommendations Showroom.rt new_engine other 8)
      = Ok l2 /\
    l1 <> [] /\
    map OutfitSpec.goods l1 = map OutfitSpec.goods l2.
Proof.
  intros other. split; [reflexivity|].
  destruct (preferences_do_not_select_items Showroom.rt new_engine
              Demo.profile other 8 eq_refl) as (l1 & l2 & H1 & H2 & H).
  exists l1, l2. split; [exact H1|]. split; [exact H2|]. split; [|exact H].
  intros ->. vm_compute in H1. discriminate H1.
Defined.

(* ================================================================== *)
(** * The rating matrix and the training step                          *)
(* ================================================================== *)

Module MatrixFacts.

Lemma insert_unique_intro x l y :
  y = x \/ In y l -> In y (insert_unique x l).
Proof.
  induction l as [|a l IH]; cbn; [intuition auto|].
  destruct (x <? a) eqn:E1; [cbn; intuition auto|].
  destruct (x =? a) eqn:E2.
  - apply Z.eqb_eq in E2. subst. cbn. intuition auto.
  - cbn. intuition auto.
Qed.

Lemma axis_labels_In l y : In y (axis_labels l) <-> In y l.
Proof.
  induction l as [|x l IH]; cbn; [tauto|]. split.
  - intros H. apply CollaborativeFacts.insert_unique_In in H.
    destruct H as [->|H]; [auto | right; now apply IH].
  - intros [->|H]; apply insert_unique_intro; [auto | right; now apply IH].
Qed.

(** A column is rated only if its entry in the row is positive. *)
Lemma rated_columns_map (f : Z -> float) columns p :
  In p (rated_columns columns (map f columns)) -> (0 <? f p)%float = true.
Proof.
  unfold rated_columns. induction columns as [|c columns IH]; cbn; [intros []|].
  destruct (0 <? f c)%float eqn:E; cbn.
  - intros [<-|H]; auto.
  - exact IH.
Qed.

Lemma cell_unrated interactions u p :
  (forall i, In i interactions -> i_user_id i = u -> i_product_id i <> p) ->
  cell interactions u p = 0%float.
Proof.
  intros H. unfold cell. rewrite AssemblerFacts.filter_none; [reflexivity|].
  intros i Hi. destruct (i_user_id i =? u) eqn:Eu; [|reflexivity].
  destruct (i_product_id i =? p) eqn:Ep; [|reflexivity].
  apply Z.eqb_eq in Eu, Ep. exfalso. eapply H; eauto.
Qed.

Lemma getitem_map {A B} (f : A -> B) l i a :
  getitem l i = Ok a -> getitem (map f l) i = Ok (f a).
Proof.
  unfold getitem, len. rewrite length_map.
  destruct ((if i <? 0 then i + Z.of_nat (List.length l) else i) <? 0);
    [discriminate|].
  rewrite nth_error_map.
  destruct (nth_error l _); [|discriminate].
  intros H. injection H as <-. reflexivity.
Qed.

Lemma get_loc_getitem labels label i :
  get_loc labels label = Some i -> getitem labels i = Ok label.
Proof.
  intros H. apply CollaborativeFacts.get_loc_Some in H. destruct H as [Hi H].
  now apply CollaborativeFacts.getitem_nth_error.
Qed.

End MatrixFacts.

(** X11.  The matrix built by [build_user_item_matrix] has one row per
    user and one column per product of the interaction data, both in
    strictly increasing order of id (so without repetition), and every
    row has one entry per column. *)
Theorem pivot_table_shape :
  forall (self : EngineState) (interactions_df : list Interaction),
    exists m,
      user_item_matrix (build_user_item_matrix self interactions_df)
        = Some m /\
      StronglySorted Z.lt (m_index m) /\
      StronglySorted Z.lt (m_columns m) /\
      (forall u, In u (m_index m) <->
                 exists i, In i interactions_df /\ i_user_id i = u) /\
      (forall p, In p (m_columns m) <->
                 exists i, In i interactions_df /\ i_product_id i = p) /\
      List.length (m_values m) = List.length (m_index m) /\
      Forall (fun row => List.length row = List.length (m_columns m))
             (m_values m).
Proof.
  intros self interactions. exists (pivot_table interactions).
  split; [reflexivity|]. unfold pivot_table. cbn.
  split; [apply CollaborativeFacts.axis_labels_sorted|].
  split; [apply CollaborativeFacts.axis_labels_sorted|].
  split; [|split; [|split]].
  - intros u. rewrite MatrixFacts.axis_labels_In, in_map_iff.
    split; intros (i & H1 & H2); eauto.
  - intros p. rewrite MatrixFacts.axis_labels_In, in_map_iff.
    split; intros (i & H1 & H2); eauto.
  - apply length_map.
  - apply Forall_forall. intros row Hr. apply in_map_iff in Hr.
    destruct Hr as (u & <- & _). apply length_map.
Qed.

(** X12.  For a user of the matrix and a product that user has no
    rating for, the user's row holds 0 in the product's column and the
    product is not among the columns counted as rated, so that it stays
    a candidate of the collaborative filter. *)
Theorem pivot_table_unrated_pair :
  forall (self : EngineState) (interactions_df : list Interaction)
         (m : UserItemMatrix) (u p iu : Z),
    user_item_matrix (build_user_item_matrix self interactions_df) = Some m ->
    get_loc (m_index m) u = Some iu ->
    (forall i, In i interactions_df ->
               i_user_id i = u -> i_product_id i <> p) ->
    exists row,
      getitem (m_values m) iu = Ok row /\
      ~ In p (rated_columns (m_columns m) row) /\
      forall ip, get_loc (m_columns m) p = Some ip ->
                 getitem row ip = Ok 0%float.
Proof.
  intros self interactions m u p iu Hm Hu Hno.
  cbn in Hm. injection Hm as <-. unfold pivot_table in *.
  cbn [m_index m_columns m_values] in *.
  set (items := axis_labels (map i_product_id interactions)) in *.
  exists (map (cell interactions u) items). split; [|split].
  - apply MatrixFacts.get_loc_getitem in Hu.
    now apply (MatrixFacts.getitem_map
                 (fun u => map (cell interactions u) items)) in Hu.
  - intros Hin. apply MatrixFacts.rated_columns_map in Hin.
    rewrite MatrixFacts.cell_unrated in Hin by assumption. discriminate.
  - intros ip Hp. apply MatrixFacts.get_loc_getitem in Hp.
    apply (MatrixFacts.getitem_map (cell interactions u)) in Hp.
    now rewrite MatrixFacts.cell_unrated in Hp by assumption.
Qed.

Lemma pivot_table_unrated_pair_witness :
  exists m,
    user_item_matrix
      (build_user_item_matrix new_engine (db_interactions Demo.small_db))
      = Some m /\
    get_loc (m_index m) 1 = Some 0 /\
    (forall i, In i (db_interactions Demo.small_db) ->
               i_user_id i = 1 -> i_product_id i <> 41) /\
    exists row,
      getitem (m_values m) 0 = Ok row /\
      ~ In 41 (rated_columns (m_columns m) row) /\
      forall ip, get_loc (m_columns m) 41 = Some ip ->
                 getitem row ip = Ok 0%float.
Proof.
  assert (Hno : forall i, In i (db_interactions Demo.small_db) ->
                          i_user_id i = 1 -> i_product_id i <> 41).
  { intros i [<-|[<-|[<-|[]]]]; cbn; intros; discriminate. }
  eexists. split; [reflexivity|]. split; [reflexivity|].
  split; [exact Hno|].
  apply (pivot_table_unrated_pair new_engine
           (db_interactions Demo.small_db) _ 1 41 0);
    [reflexivity | reflexivity | exact Hno].
Defined.





(** X15.  Serving the same request again while the database and the
    libraries answer as before changes nothing: the second call of
    [get_fashion_recommendations], started from the engine the first
    call left behind, returns the same list and leaves the same
    engine. *)
Theorem get_fashion_recommendations_idempotent :
  forall (rt : Runtime) (self : EngineState) (user_profile : Preferences)
         (k : Z),
    let first := get_fashion_recommendations rt self user_profile k in
    get_fashion_recommendations rt (fst first) user_profile k = first.
Proof.
  intros rt [c m f s] profile k.
  unfold get_fashion_recommendations, personalised, connect_database,
    train_models, load_user_interaction_data, load_product_features,
    read_sql, build_item_features_matrix, build_user_item_matrix,
    train_collaborative_filtering.
  cbn [conn user_item_matrix item_features_matrix svd_model].
  destruct (sqlite_connect rt) as [db|]; [|destruct c as [db|]];
    cbn [conn user_item_matrix item_features_matrix svd_model fst];
    try reflexivity;
    (destruct (fit_item_features rt (in_stock_products db)) eqn:Ef;
     cbn [conn user_item_matrix item_features_matrix svd_model fst];
     rewrite ?Ef; [|reflexivity]);
    (destruct (db_interactions db) as [|i l] eqn:Ei;
     cbn [conn user_item_matrix item_features_matrix svd_model fst];
     rewrite ?Ef, ?Ei; [reflexivity|]);
    destruct (svd_fit rt (pivot_table (i :: l))) eqn:Es;
    cbn [conn user_item_matrix item_features_matrix svd_model fst];
    rewrite ?Ef, ?Ei;
    cbn [conn user_item_matrix item_features_matrix svd_model fst];
    rewrite ?Es; reflexivity.
Qed.

(* ================================================================== *)
(** * The outfit assembler, item by item                               *)
(* ================================================================== *)

Module OutfitFacts.
Import OutfitSpec.

(** The running total is the sum of the prices of the items taken. *)
Lemma add_product_priced a p :
  total_price a = fsum (map it_price (outfit_items a)) ->
  total_price (add_product a p)
    = fsum (map it_price (outfit_items (add_product a p))).
Proof.
  intros H. unfold add_product.
  destruct (item_types a (item_type_of p)); [assumption|].
  cbn [total_price outfit_items it_price]. unfold fsum in *.
  rewrite map_app, fold_left_app. cbn. now rewrite H.
Qed.

Lemma fold_priced products : forall a,
  total_price a = fsum (map it_price (outfit_items a)) ->
  total_price (fold_left add_product products a)
    = fsum (map it_price (outfit_items (fold_left add_product products a))).
Proof.
  induction products as [|p products IH]; intros a H; cbn; [assumption|].
  apply IH. now apply add_product_priced.
Qed.

Lemma find_some_of {A} (f : A -> bool) l x :
  In x l -> f x = true -> exists y, find f l = Some y.
Proof.
  induction l as [|a l IH]; cbn; [intros []|].
  intros [->|H] Hx.
  - rewrite Hx. eauto.
  - destruct (f a); eauto.
Qed.

Lemma two_distinct {A} (l : list A) a b :
  In a l -> In b l -> a <> b -> (2 <= List.length l)%nat.
Proof.
  destruct l as [|x [|y l]]; cbn; intros Ha Hb H; try lia; try tauto.
  destruct Ha as [->|[]], Hb as [->|[]]. congruence.
Qed.

(** The slots of the items are the slots of the products. *)
Lemma assembled_slot products a p :
  assembled products a -> In p products ->
  In (item_type_of p) (map it_type (outfit_items a)).
Proof.
  intros [Hs _ _ Hf] Hp.
  destruct (find_some_of (fun q => slot_eqb (item_type_of q) (item_type_of p))
              products p Hp (AssemblerFacts.slot_eqb_refl _)) as [q Hq].
  apply (Hf _ q). rewrite Hs. exact Hq.
Qed.

Lemma add_to_group_concat style rec groups :
  Permutation (concat (map snd (add_to_group style rec groups)))
              (rec :: concat (map snd groups)).
Proof.
  induction groups as [|[s l] groups IH]; cbn; [reflexivity|].
  destruct (String.eqb s style); cbn.
  - rewrite <- app_assoc. cbn. symmetry. apply Permutation_middle.
  - rewrite IH. symmetry. apply Permutation_middle.
Qed.

Lemma add_to_group_nonempty style rec groups :
  Forall (fun g => snd g <> []) groups ->
  Forall (fun g : string * list Recommendation => snd g <> [])
         (add_to_group style rec groups).
Proof.
  induction 1 as [|[s l] groups Hg Hgs IH]; cbn.
  - repeat constructor. discriminate.
  - destruct (String.eqb s style); constructor; auto.
    cbn. destruct l; discriminate.
Qed.

Lemma style_groups_concat recs : forall groups,
  Permutation
    (concat (map snd
       (fold_left (fun groups rec =>
                     add_to_group (p_category (rec_details rec)) rec groups)
                  recs groups)))
    (concat (map snd groups) ++ recs).
Proof.
  induction recs as [|r recs IH]; intros groups; cbn.
  - now rewrite app_nil_r.
  - rewrite IH, add_to_group_concat. cbn. apply Permutation_middle.
Qed.

Lemma style_groups_nonempty recs : forall groups,
  Forall (fun g => snd g <> []) groups ->
  Forall (fun g : string * list Recommendation => snd g <> [])
    (fold_left (fun groups rec =>
                  add_to_group (p_category (rec_details rec)) rec groups)
               recs groups).
Proof.
  induction recs as [|r recs IH]; intros groups H; cbn; [assumption|].
  apply IH. now apply add_to_group_nonempty.
Qed.

End OutfitFacts.

(** X16.  The total price of an assembled outfit is the sum of the
    prices of its items, added from left to right in binary64 starting
    from zero; the products of an occupied slot that were passed over
    do not count. *)
Theorem create_outfit_from_products_total :
  forall (products : list Product) (user_preferences : Preferences)
         (outfit : Outfit),
    create_outfit_from_products products user_preferences = Some outfit ->
    o_total_price outfit = fsum (map it_price (o_items outfit)).
Proof.
  intros products prefs o. unfold create_outfit_from_products.
  destruct (2 <=? _); [|discriminate].
  intros H. injection H as <-. cbn [o_total_price o_items].
  apply OutfitFacts.fold_priced. reflexivity.
Qed.

Lemma create_outfit_from_products_total_witness :
  exists outfit,
    create_outfit_from_products
      [Demo.garment 1; Demo.garment 2; Demo.garment 21; Demo.garment 41]
      Demo.profile = Some outfit /\
    List.length (o_items outfit) = 3%nat /\
    o_total_price outfit = fsum (map it_price (o_items outfit)).
Proof.
  eexists. split; [vm_compute; reflexivity|]. split; [reflexivity|].
  apply (create_outfit_from_products_total
           [Demo.garment 1; Demo.garment 2; Demo.garment 21; Demo.garment 41]
           Demo.profile).
  vm_compute. reflexivity.
Defined.

(** X17.  [create_outfit_from_products] returns an outfit exactly when
    two of the products fall into different slots; in particular the
    empty list, a single product and any number of products of one slot
    give [None]. *)
Theorem create_outfit_from_products_two_slots :
  forall (products : list Product) (user_preferences : Preferences),
    (exists outfit,
       create_outfit_from_products products user_preferences = Some outfit)
    <->
    (exists p q, In p products /\ In q products /\
                 item_type_of p <> item_type_of q).
Proof.
  intros products prefs.
  pose proof (AssemblerFacts.assembled_fold products [] _
                AssemblerFacts.assembled_empty) as Ha.
  cbn [app] in Ha. split.
  - intros (o & Ho).
    apply AssemblerFacts.create_outfit_from_products_spec in Ho.
    destruct Ho as ((Hn & Hl) & Hf).
    destruct (o_items o) as [|i1 [|i2 l]] eqn:E; cbn in Hl; try lia.
    destruct (AssemblerFacts.first_wins_In _ _ (Hf i1 (or_introl eq_refl)))
      as (p & Hp & Ep).
    destruct (AssemblerFacts.first_wins_In _ _
                (Hf i2 (or_intror (or_introl eq_refl)))) as (q & Hq & Eq).
    exists p, q. repeat split; auto.
    rewrite <- Ep, <- Eq. cbn in Hn. inversion Hn as [|? ? Hx _]; subst.
    intros Heq. apply Hx. rewrite Heq. cbn. auto.
  - intros (p & q & Hp & Hq & Hne).
    unfold create_outfit_from_products.
    pose proof (OutfitFacts.assembled_slot _ _ _ Ha Hp) as H1.
    pose proof (OutfitFacts.assembled_slot _ _ _ Ha Hq) as H2.
    pose proof (OutfitFacts.two_distinct _ _ _ H1 H2 Hne) as H.
    rewrite length_map in H.
    destruct (2 <=? len (outfit_items
                (fold_left add_product products empty_assembly))) eqn:E;
      [eauto|].
    apply Z.leb_gt in E. unfold len in E. lia.
Qed.

(** X18.  The style groups partition the recommendations by category:
    the categories of the groups are pairwise distinct, no group is
    empty, each group lists the recommendations of its category in
    their original order, and together the groups hold every
    recommendation exactly once. *)
Theorem style_groups_partition :
  forall recommendations : list Recommendation,
    let groups := style_groups recommendations in
    NoDup (map fst groups) /\
    Permutation (concat (map snd groups)) recommendations /\
    forall c l, In (c, l) groups ->
      l <> [] /\
      l = filter (fun r => String.eqb (p_category (rec_details r)) c)
                 recommendations.
Proof.
  intros recs groups.
  destruct (AssemblerFacts.style_groups_grouped recs) as (Hn & _ & Hg).
  split; [exact Hn|]. split.
  - apply (OutfitFacts.style_groups_concat recs []).
  - intros c l Hin. split; [|now apply Hg].
    pose proof (OutfitFacts.style_groups_nonempty recs [] (Forall_nil _)) as H.
    rewrite Forall_forall in H. apply (H (c, l) Hin).
Qed.

(* ================================================================== *)
(** * The catalogue scorer                                             *)
(* ================================================================== *)

Module ScorerFacts.
Import CatalogueRules.

(** The accumulated score is the exact integer total of the rules. *)
Lemma score_outfit_total user_age user_gender user_color user_style
      user_budget o min_age max_age outfit_price :
  contains "-" (c_target_age o) = true ->
  age_bounds (c_target_age o) = Ok (min_age, max_age) ->
  float_of_int (c_total_price o) = Ok outfit_price ->
  score_outfit user_age user_gender user_color user_style user_budget o
  = Ok (Z2F (outfit_total user_age user_gender user_color user_style
               user_budget o min_age max_age outfit_price)).
Proof.
  intros Hc Ha Hp. unfold score_outfit.
  assert (He : String.eqb (c_target_age o) "" = false).
  { destruct (c_target_age o); [discriminate Hc | reflexivity]. }
  rewrite He, Hc, Ha, Hp. cbn [negb andb bind].
  unfold outfit_total, gender_rule, style_rule, color_rule, age_rule,
    budget_rule, stock_rule.
  repeat match goal with
         | |- context [if ?x then _ else _] =>
             destruct x eqn:?; cbn [bind andb orb] in *; try discriminate
         end;
    f_equal; vm_compute; reflexivity.
Qed.

Lemma outfit_total_range user_age user_gender user_color user_style
      user_budget o min_age max_age outfit_price :
  -80 <= outfit_total user_age user_gender user_color user_style
           user_budget o min_age max_age outfit_price <= 165.
Proof.
  unfold outfit_total, gender_rule, style_rule, color_rule, age_rule,
    budget_rule, stock_rule.
  repeat match goal with
         | |- context [if ?x then _ else _] => destruct x
         end; lia.
Qed.

(** Rounding to two decimals leaves a whole score as it is. *)
Lemma whole_scores z :
  -80 <= z <= 165 ->
  round (Z2F z) 2 = Z2F z /\ is_nan (Z2F z) = false.
Proof.
  intros Hz.
  assert (H : forallb whole (map (fun n => Z.of_nat n - 80) (seq 0 246))
              = true) by (vm_compute; reflexivity).
  rewrite forallb_forall in H. specialize (H z).
  unfold whole in H. rewrite andb_true_iff, negb_true_iff in H.
  rewrite FloatAxioms.Leibniz.eqb_spec in H. apply H.
  apply in_map_iff. exists (Z.to_nat (z + 80)). split; [lia|].
  apply in_seq. lia.
Qed.

Lemma catalogue_ranges :
  forallb (fun o => contains "-" (c_target_age o)) load_products = true.
Proof. vm_compute. reflexivity. Qed.

(** Every catalogue outfit gets a whole score within the range of the
    rule table. *)
Lemma score_of_catalogue user_profile o :
  In o load_products ->
  exists min_age max_age outfit_price,
    age_bounds (c_target_age o) = Ok (min_age, max_age) /\
    float_of_int (c_total_price o) = Ok outfit_price /\
    score_of user_profile o
    = Ok (Z2F (total_of user_profile o min_age max_age outfit_price)).
Proof.
  intros Hin.
  pose proof CatalogueFacts.catalogue_parses as H.
  rewrite forallb_forall in H. specialize (H o Hin).
  apply andb_prop in H. destruct H as [Ha Hp].
  pose proof catalogue_ranges as Hc.
  rewrite forallb_forall in Hc. specialize (Hc o Hin).
  destruct (age_bounds (c_target_age o)) as [[lo hi]|] eqn:Ea;
    [|discriminate].
  destruct (float_of_int (c_total_price o)) as [price|] eqn:Ep;
    [|discriminate].
  exists lo, hi, price. repeat split.
  unfold score_of, total_of. now apply score_outfit_total.
Qed.

Lemma for_each_In {A B} (f : A -> result B) l r y :
  for_each f l = Ok r -> In y r -> exists x, In x l /\ f x = Ok y.
Proof.
  revert r. induction l as [|a l IH]; cbn; intros r H Hy.
  - injection H as <-. destruct Hy.
  - destruct (f a) as [b|] eqn:Ea; [|discriminate].
    destruct (for_each f l) as [bs|]; [|discriminate].
    injection H as <-. destruct Hy as [<-|Hy]; [eauto|].
    destruct (IH bs eq_refl Hy) as (x & ? & ?). eauto.
Qed.

(** The list behind the answer of [recommend_products]: every catalogue
    outfit paired with its score. *)
Lemma recommend_products_eq user_profile :
  exists r,
    map snd r = load_products /\
    (forall s o, In (s, o) r -> score_of user_profile o = Ok s) /\
    forall k, recommend_products user_profile k
              = Ok (map recommendation (slice_to (sort_desc fst r) k)).
Proof.
  destruct (CatalogueFacts.for_each_scored (score_of user_profile)
              load_products) as (r & Hr & Hm).
  { intros o Ho. destruct (score_of_catalogue user_profile o Ho)
      as (lo & hi & price & _ & _ & ->). eauto. }
  exists r. split; [exact Hm|]. split.
  - intros s o Hin. destruct (for_each_In _ _ _ _ Hr Hin) as (x & _ & Hx).
    destruct (score_of user_profile x) as [sx|] eqn:Ex; [|discriminate].
    cbn [bind] in Hx. injection Hx as <- <-. exact Ex.
  - intros k. unfold recommend_products. unfold score_of in Hr.
    destruct load_products as [|o0 os] eqn:El; [discriminate|].
    rewrite Hr. reflexivity.
Qed.

Lemma scored_whole user_profile r :
  map snd r = load_products ->
  (forall s o, In (s, o) r -> score_of user_profile o = Ok s) ->
  forall x, In x r ->
    round (fst x) 2 = fst x /\ is_nan (fst x) = false.
Proof.
  intros Hm Hs [s o] Hin. cbn [fst].
  assert (Ho : In o load_products).
  { rewrite <- Hm. apply in_map_iff. exists (s, o). auto. }
  destruct (score_of_catalogue user_profile o Ho)
    as (lo & hi & price & _ & _ & E).
  rewrite (Hs s o Hin) in E. injection E as ->.
  apply whole_scores, outfit_total_range.
Qed.

Lemma StronglySorted_app {A} (R : A -> A -> Prop) l1 l2 a b :
  StronglySorted R (l1 ++ l2) -> In a l1 -> In b l2 -> R a b.
Proof.
  induction l1 as [|x l1 IH]; cbn; [intros _ []|].
  intros H Ha Hb. inversion H as [|? ? Hs Hx]; subst.
  destruct Ha as [->|Ha]; [|auto].
  rewrite Forall_forall in Hx. apply Hx, in_or_app. auto.
Qed.

Lemma StronglySorted_map {A B} (R : B -> B -> Prop) (f : A -> B) l :
  StronglySorted (fun a b => R (f a) (f b)) l -> StronglySorted R (map f l).
Proof.
  induction 1 as [|a l Hs IH Ha]; cbn; constructor; auto.
  rewrite Forall_forall in *. intros y Hy. apply in_map_iff in Hy.
  destruct Hy as (x & <- & Hx). auto.
Qed.

Lemma StronglySorted_weaken {A} (R R' : A -> A -> Prop) l :
  (forall a b, In a l -> In b l -> R a b -> R' a b) ->
  StronglySorted R l -> StronglySorted R' l.
Proof.
  intros H Hs. induction Hs as [|a l Hs IH Ha]; constructor.
  - apply IH. intros; apply H; cbn; auto.
  - rewrite Forall_forall in *. intros y Hy. apply H; cbn; auto.
Qed.

Lemma slice_to_length_neg {A} (l : list A) k :
  k < 0 ->
  Z.of_nat (List.length (slice_to l k)) = Z.max 0 (len l + k).
Proof.
  intros H. unfold slice_to, len.
  destruct (0 <=? k) eqn:E; [apply Z.leb_le in E; lia|].
  rewrite length_firstn. lia.
Qed.

End ScorerFacts.

(** X19.  [recommend_products] answers with the best-scoring outfits of
    the catalogue, best first.  The score of every returned entry is
    the exact integer total of the rules for its outfit (gender +50/-30,
    style +40/+20, colour +30/+15, age +20/+10, budget +15/+10/-20,
    stock +10/-30), a whole number between -80 and 165 that the rounding
    to two decimals leaves unchanged; the entries are in descending
    order of score; and no catalogue outfit that was left out scores
    higher than a returned one. *)
Theorem recommend_products_ranked :
  forall (user_profile : UserProfile) (k : Z) (l : list ScoredOutfit),
    recommend_products user_profile k = Ok l ->
    StronglySorted (desc so_score) l /\
    (forall e, In e l ->
       exists o min_age max_age outfit_price,
         In o load_products /\ so_outfit_id e = c_outfit_id o /\
         age_bounds (c_target_age o) = Ok (min_age, max_age) /\
         float_of_int (c_total_price o) = Ok outfit_price /\
         so_score e
         = Z2F (CatalogueRules.total_of user_profile o min_age max_age
                  outfit_price) /\
         -80 <= CatalogueRules.total_of user_profile o min_age max_age
                  outfit_price <= 165) /\
    (forall o s, In o load_products ->
       ~ In (c_outfit_id o) (map so_outfit_id l) ->
       CatalogueRules.score_of user_profile o = Ok s ->
       forall e, In e l -> (s <=? so_score e)%float = true).
Proof.
  intros u k l Hl.
  destruct (ScorerFacts.recommend_products_eq u) as (r & Hm & Hs & Hk).
  rewrite Hk in Hl. injection Hl as <-.
  pose proof (ScorerFacts.scored_whole u r Hm Hs) as Hw.
  assert (Hsorted : StronglySorted (desc fst) (sort_desc fst r)).
  { apply PyFacts.sort_desc_sorted. apply Forall_forall.
    intros x Hx. apply (Hw x Hx). }
  destruct (PyFacts.slice_to_is_firstn (sort_desc fst r) k) as [j Hj].
  rewrite Hj.
  assert (Hin : forall x, In x (firstn j (sort_desc fst r)) -> In x r).
  { intros x Hx. apply PyFacts.In_firstn in Hx.
    now apply PyFacts.sort_desc_In in Hx. }
  assert (Hscore : forall x, In x (firstn j (sort_desc fst r)) ->
                             so_score (recommendation x) = fst x).
  { intros [s o] Hx. cbn. apply (Hw (s, o)). auto. }
  split; [|split].
  - apply ScorerFacts.StronglySorted_map.
    apply (ScorerFacts.StronglySorted_weaken (desc fst)).
    + intros a b Ha Hb. unfold desc. now rewrite !Hscore.
    + now apply PyFacts.firstn_StronglySorted.
  - intros e He. apply in_map_iff in He. destruct He as ([s o] & <- & Hx).
    assert (Ho : In o load_products).
    { rewrite <- Hm. apply in_map_iff. exists (s, o). auto. }
    destruct (ScorerFacts.score_of_catalogue u o Ho)
      as (lo & hi & price & Ea & Ep & E).
    exists o, lo, hi, price. repeat split; auto.
    + rewrite (Hscore _ Hx). cbn [fst].
      rewrite (Hs s o (Hin _ Hx)) in E. now injection E.
    + apply ScorerFacts.outfit_total_range.
    + apply ScorerFacts.outfit_total_range.
  - intros o s Ho Hout Es e He.
    apply in_map_iff in He. destruct He as (x & <- & Hx).
    rewrite (Hscore _ Hx).
    assert (Hr : In (s, o) r).
    { rewrite <- Hm in Ho. apply in_map_iff in Ho.
      destruct Ho as ([s' o'] & Eo & Hin'). cbn in Eo. subst o'.
      rewrite (Hs s' o Hin') in Es. injection Es as <-. exact Hin'. }
    apply (PyFacts.sort_desc_In fst) in Hr.
    rewrite <- (firstn_skipn j (sort_desc fst r)) in Hr, Hsorted.
    apply in_app_or in Hr. destruct Hr as [Hr|Hr].
    + exfalso. apply Hout. apply in_map_iff.
      exists (recommendation (s, o)). split; [reflexivity|].
      now apply in_map.
    + apply (ScorerFacts.StronglySorted_app _ _ _ x (s, o) Hsorted Hx Hr).
Qed.

Lemma recommend_products_ranked_witness :
  exists l,
    recommend_products Process.elegant 3 = Ok l /\
    map so_outfit_id l = ["outfit_004"; "outfit_008"; "outfit_005"] /\
    StronglySorted (desc so_score) l /\
    (forall e, In e l ->
       exists o min_age max_age outfit_price,
         In o load_products /\ so_outfit_id e = c_outfit_id o /\
         age_bounds (c_target_age o) = Ok (min_age, max_age) /\
         float_of_int (c_total_price o) = Ok outfit_price /\
         so_score e
         = Z2F (CatalogueRules.total_of Process.elegant o min_age max_age
                  outfit_price) /\
         -80 <= CatalogueRules.total_of Process.elegant o min_age max_age
                  outfit_price <= 165) /\
    (forall o s, In o load_products ->
       ~ In (c_outfit_id o) (map so_outfit_id l) ->
       CatalogueRules.score_of Process.elegant o = Ok s ->
       forall e, In e l -> (s <=? so_score e)%float = true).
Proof.
  eexists. split; [vm_compute; reflexivity|].
  split; [reflexivity|].
  apply (recommend_products_ranked Process.elegant 3).
  vm_compute. reflexivity.
Defined.


(* ================================================================== *)
(** * The generator of [get_recommendations], entry by entry           *)
(* ================================================================== *)

Module VarietyFacts.
Import Process.

Lemma mem_In x l : mem x l = true <-> In x l.
Proof.
  unfold mem. rewrite existsb_exists. split.
  - intros (y & Hy & E). apply String.eqb_eq in E. now subst.
  - intros H. exists x. split; [assumption | apply String.eqb_refl].
Qed.

Lemma index_In x l :
  In x l -> exists j, index x l = Ok j /\ 0 <= j < len l.
Proof.
  unfold len. induction l as [|a l IH]; cbn [index In]; [intros []|].
  destruct (String.eqb a x) eqn:E.
  - intros _. exists 0. cbn [List.length]. split; [reflexivity | lia].
  - intros [H|H]; [subst; rewrite String.eqb_refl in E; discriminate|].
    destruct (IH H) as (j & -> & Hj). exists (j + 1).
    cbn [List.length]. split; [reflexivity | lia].
Qed.

Lemma index_not_In x l : ~ In x l -> index x l = Raise ValueError.
Proof.
  induction l as [|a l IH]; cbn [index In]; [reflexivity|].
  intros H. destruct (String.eqb a x) eqn:E.
  - apply String.eqb_eq in E. tauto.
  - rewrite IH by tauto. reflexivity.
Qed.

Section Picks.
Variables (py : Interpreter) (user_style user_color : string)
          (user_age : Z) (user_budget : float).

Let pick := variety py user_style user_color user_age user_budget.

Lemma variety_first : pick 0 = Ok (user_style, user_color).
Proof. reflexivity. Qed.

Lemma variety_second :
  In user_color colors -> exists sc, pick 1 = Ok sc.
Proof.
  intros H. unfold pick, variety. cbn [Z.eqb Pos.eqb].
  destruct (index_In _ _ H) as (j & -> & Hj). cbn [bind].
  change (len colors) with 10 in *. unfold imod. cbn [Z.eqb bind].
  destruct (GeneratorFacts.getitem_ok colors ((j + 1) mod 10))
    as (c & -> & _);
    [change (len colors) with 10; apply Z.mod_pos_bound; lia|].
  cbn [bind]. eauto.
Qed.

Lemma variety_second_unknown :
  ~ In user_color colors -> pick 1 = Raise ValueError.
Proof.
  intros H. unfold pick, variety. cbn [Z.eqb Pos.eqb].
  now rewrite index_not_In.
Qed.

Lemma variety_third :
  In user_style styles -> exists sc, pick 2 = Ok sc.
Proof.
  intros H. unfold pick, variety. cbn [Z.eqb Pos.eqb].
  destruct (index_In _ _ H) as (j & -> & Hj). cbn [bind].
  change (len styles) with 8 in *. unfold imod. cbn [Z.eqb bind].
  destruct (GeneratorFacts.getitem_ok styles ((j + 1) mod 8))
    as (c & -> & _);
    [change (len styles) with 8; apply Z.mod_pos_bound; lia|].
  cbn [bind]. eauto.
Qed.

Lemma variety_third_unknown :
  ~ In user_style styles -> pick 2 = Raise ValueError.
Proof.
  intros H. unfold pick, variety. cbn [Z.eqb Pos.eqb].
  now rewrite index_not_In.
Qed.

Lemma variety_rest i :
  set_law py -> 3 <= i -> exists sc, pick i = Ok sc.
Proof.
  intros Hlaw Hi. unfold pick, variety.
  destruct (i =? 0) eqn:E0; [apply Z.eqb_eq in E0; lia|].
  destruct (i =? 1) eqn:E1; [apply Z.eqb_eq in E1; lia|].
  destruct (i =? 2) eqn:E2; [apply Z.eqb_eq in E2; lia|].
  set (preferred := list_of_set py
                      (age_styles user_age ++ budget_styles user_budget)).
  assert (Hlen : 0 < len preferred).
  { destruct (GeneratorFacts.pools_nonempty user_age user_budget) as [s Hin].
    apply (proj2 (proj2 (Hlaw _) _)) in Hin. fold preferred in Hin.
    unfold len. destruct preferred; [destruct Hin|cbn; lia]. }
  unfold imod.
  destruct (len preferred =? 0) eqn:El; [apply Z.eqb_eq in El; lia|].
  cbn [bind].
  destruct (GeneratorFacts.getitem_ok preferred (i mod len preferred))
    as (s & -> & _); [apply Z.mod_pos_bound; lia|].
  cbn [bind].
  change (len colors) with 10. change (10 =? 0) with false. cbn [bind].
  destruct (GeneratorFacts.getitem_ok colors ((i * 2) mod 10))
    as (c & -> & _);
    [change (len colors) with 10; apply Z.mod_pos_bound; lia|].
  cbn [bind]. eauto.
Qed.

End Picks.

Lemma range_two k :
  2 <= k -> range k = 0 :: 1 :: map Z.of_nat (seq 2 (Z.to_nat k - 2)).
Proof.
  intros H. unfold range.
  replace (Z.to_nat k) with (S (S (Z.to_nat k - 2))) at 1 by lia.
  reflexivity.
Qed.

Lemma range_three k :
  3 <= k -> range k = 0 :: 1 :: 2 :: map Z.of_nat (seq 3 (Z.to_nat k - 3)).
Proof.
  intros H. unfold range.
  replace (Z.to_nat k) with (S (S (S (Z.to_nat k - 3)))) at 1 by lia.
  reflexivity.
Qed.

Lemma range_In k i : In i (range k) -> 0 <= i < k.
Proof.
  unfold range. intros H. apply in_map_iff in H.
  destruct H as (j & <- & Hj). apply in_seq in Hj. lia.
Qed.

Lemma base_ok py profile :
  is_ok (float_of_int (get (u_age profile) 28)) = true ->
  exists b, base py profile = Ok b.
Proof.
  intros H. unfold base, features.
  destruct (float_of_int (get (u_age profile) 28)); [|discriminate].
  cbn [bind]. eauto.
Qed.

(** Either branch of [get_recommendations] builds its answer with the
    shared loop. *)
Lemma get_recommendations_entries py env profile k recs :
  snd (get_recommendations py env profile k) = Ok recs ->
  exists seed step, entries py profile seed step k = Ok recs.
Proof.
  unfold get_recommendations.
  destruct (heavy_deps_missing (_ensure_dirs env)).
  - cbn [snd]. unfold pseudo_recs.
    destruct (base py profile) as [b|]; [|discriminate]. cbn [bind]. eauto.
  - destruct (negb (meta_path_exists _)); [discriminate|]. cbn [snd].
    destruct (features py profile true) as [f|]; [|discriminate].
    cbn [bind].
    destruct (trained_score py (uvec f)) as [s|]; [|discriminate].
    cbn [bind]. eauto.
Qed.

Lemma entries_labels py profile seed step k recs i e :
  entries py profile seed step k = Ok recs ->
  nth_error recs i = Some e ->
  e_item_id e = String.append "itm_" (pad3 (Z.of_nat i)) /\
  e_name e
  = String.append "Recommended Outfit " (str_of_int (Z.of_nat i + 1)).
Proof.
  unfold entries. intros H Hi.
  assert (Hlt : (i < Z.to_nat k)%nat).
  { rewrite <- PyFacts.range_length.
    rewrite <- (PyFacts.for_each_length _ _ _ H).
    apply nth_error_Some. congruence. }
  destruct (PyFacts.for_each_nth_error _ _ _ _ _ H
              (PyFacts.range_nth_error k i Hlt)) as (e' & He' & Hf).
  rewrite Hi in He'. injection He' as <-.
  destruct (variety py _ _ _ _ (Z.of_nat i)) as [sc|]; [|discriminate].
  cbn [bind] in Hf. injection Hf as <-. split; reflexivity.
Qed.

(** *** Reading a padded number back *)

Lemma digit_not_minus a s d :
  NilEmpty.uint_of_string (String a s) = Some d -> Ascii.eqb a "-" = false.
Proof.
  destruct (Ascii.eqb_spec a "-"%char) as [->|]; [|reflexivity].
  cbn. destruct (NilEmpty.uint_of_string s); discriminate.
Qed.

Lemma int_of_str_digits s d :
  NilEmpty.uint_of_string s = Some d -> s <> EmptyString ->
  int_of_str s = Ok (Z.of_uint d).
Proof.
  intros H Hs. destruct s as [|a s]; [congruence|].
  unfold int_of_str, NilZero.int_of_string.
  rewrite (digit_not_minus _ _ _ H). unfold NilZero.uint_of_string.
  rewrite H. reflexivity.
Qed.

Lemma zero_padded s d :
  NilEmpty.uint_of_string s = Some d ->
  NilEmpty.uint_of_string (String "0" s) = Some (Decimal.D0 d).
Proof. intros H. cbn. now rewrite H. Qed.

(** The digits of a non-negative integer. *)
Lemma str_of_int_digits n :
  0 <= n ->
  str_of_int n <> EmptyString /\
  exists d, NilEmpty.uint_of_string (str_of_int n) = Some d /\
            Z.of_uint d = n.
Proof.
  intros Hn. unfold str_of_int.
  pose proof (DecimalZ.of_to n) as Hz.
  destruct (Z.to_int n) as [d|d] eqn:E.
  - cbn [NilZero.string_of_int]. cbn [Z.of_int] in Hz.
    assert (Hu : exists d',
               NilZero.uint_of_string (NilZero.string_of_uint d) = Some d' /\
               Z.of_uint d' = n).
    { destruct (NilZero.usu_gen d) as [Hu|Hu]; [eauto|].
      exists Decimal.zero. split; [exact Hu|].
      destruct d;
        [ exact Hz
        | rewrite NilZero.usu in Hu by discriminate;
          injection Hu as ->; exact Hz
        | rewrite NilZero.usu in Hu by discriminate; discriminate Hu .. ]. }
    destruct Hu as (d' & Hu & Hd). unfold NilZero.uint_of_string in Hu.
    destruct (NilZero.string_of_uint d); [discriminate|].
    split; [discriminate | eauto].
  - destruct n; cbn in E; try discriminate. lia.
Qed.

Lemma int_of_str_pad3 n : 0 <= n -> int_of_str (pad3 n) = Ok n.
Proof.
  intros Hn. destruct (str_of_int_digits n Hn) as (Hne & d & Hd & Hz).
  unfold pad3.
  destruct (String.length (str_of_int n)) as [|[|[|m]]];
    cbn [String.append].
  - rewrite (int_of_str_digits _ (Decimal.D0 (Decimal.D0 (Decimal.D0 d))));
      [f_equal; exact Hz | repeat apply zero_padded; exact Hd | discriminate].
  - rewrite (int_of_str_digits _ (Decimal.D0 (Decimal.D0 d)));
      [f_equal; exact Hz | repeat apply zero_padded; exact Hd | discriminate].
  - rewrite (int_of_str_digits _ (Decimal.D0 d));
      [f_equal; exact Hz | repeat apply zero_padded; exact Hd | discriminate].
  - rewrite (int_of_str_digits _ d Hd Hne). f_equal. exact Hz.
Qed.

End VarietyFacts.

(** X21.  When the dependency-free generator raises, and when it does
    not.  For a profile whose age converts to a float, in a process
    whose sets behave as sets: the call returns [k] entries exactly when
    the preferred colour is one of the ten colours of the generator or
    [k <= 1], and the preferred style is one of its eight styles or
    [k <= 2]; otherwise the second or the third entry raises
    [ValueError] and no list is returned. *)
Theorem pseudo_recs_raises_exactly :
  forall (py : Interpreter) (user_profile : UserProfile) (k : Z),
    Process.set_law py ->
    is_ok (float_of_int (get (u_age user_profile) 28)) = true ->
    let color_ok :=
      ((k <=? 1) || mem (get (u_color_pref user_profile) "black") colors)%bool in
    let style_ok :=
      ((k <=? 2) || mem (get (u_style_pref user_profile) "casual") styles)%bool in
    if (color_ok && style_ok)%bool
    then exists recs,
           pseudo_recs py user_profile k = Ok recs /\
           List.length recs = Z.to_nat k
    else pseudo_recs py user_profile k = Raise ValueError.
Proof.
  intros py profile k Hlaw Hage color_ok style_ok.
  destruct (VarietyFacts.base_ok py profile Hage) as [b Hb].
  unfold pseudo_recs. rewrite Hb. cbn [bind].
  set (user_color := get (u_color_pref profile) "black") in *.
  set (user_style := get (u_style_pref profile) "casual") in *.
  destruct (color_ok && style_ok)%bool eqn:E.
  - apply andb_prop in E. destruct E as [Ec Es].
    unfold color_ok in Ec. unfold style_ok in Es.
    rewrite orb_true_iff, Z.leb_le, VarietyFacts.mem_In in Ec, Es.
    assert (Hrun : exists recs, entries py profile b 0.02%float k = Ok recs).
    { unfold entries. apply GeneratorFacts.for_each_total.
      intros i Hi. apply VarietyFacts.range_In in Hi.
      fold user_color user_style.
      assert (Hsc : exists sc,
                variety py user_style user_color
                  (get (u_age profile) 25)
                  (get (u_budget profile) 1000%float) i = Ok sc).
      { destruct (Z.eq_dec i 0) as [->|H0];
          [rewrite VarietyFacts.variety_first; eauto|].
        destruct (Z.eq_dec i 1) as [->|H1];
          [apply VarietyFacts.variety_second; destruct Ec; [lia|assumption]|].
        destruct (Z.eq_dec i 2) as [->|H2];
          [apply VarietyFacts.variety_third; destruct Es; [lia|assumption]|].
        apply VarietyFacts.variety_rest; [assumption | lia]. }
      destruct Hsc as [sc ->]. cbn [bind]. eauto. }
    destruct Hrun as [recs Hrecs]. exists recs. split; [exact Hrecs|].
    eapply GeneratorFacts.entries_length; eauto.
  - unfold entries. fold user_color user_style.
    destruct color_ok eqn:Ec.
    + cbn [andb] in E. unfold color_ok in Ec. unfold style_ok in E.
      apply orb_false_elim in E. destruct E as [Ek Es].
      apply Z.leb_gt in Ek.
      assert (Hs : ~ In user_style styles)
        by (rewrite <- VarietyFacts.mem_In; congruence).
      assert (Hc : In user_color colors).
      { apply orb_prop in Ec. destruct Ec as [Ec|Ec];
          [apply Z.leb_le in Ec; lia | now apply VarietyFacts.mem_In]. }
      rewrite VarietyFacts.range_three by lia. cbn [for_each].
      rewrite VarietyFacts.variety_first. cbn [bind].
      destruct (VarietyFacts.variety_second py user_style user_color
                  (get (u_age profile) 25)
                  (get (u_budget profile) 1000%float) Hc) as [sc ->].
      cbn [bind].
      rewrite VarietyFacts.variety_third_unknown by assumption.
      reflexivity.
    + unfold color_ok in Ec. apply orb_false_elim in Ec.
      destruct Ec as [Ek Ec]. apply Z.leb_gt in Ek.
      assert (Hc : ~ In user_color colors)
        by (rewrite <- VarietyFacts.mem_In; congruence).
      rewrite VarietyFacts.range_two by lia. cbn [for_each].
      rewrite VarietyFacts.variety_first. cbn [bind].
      rewrite VarietyFacts.variety_second_unknown by assumption.
      reflexivity.
Qed.

Lemma pseudo_recs_raises_exactly_witness :
  Process.set_law Process.py /\
  is_ok (float_of_int (get (u_age Process.elegant) 28)) = true /\
  exists recs,
    pseudo_recs Process.py Process.elegant 6 = Ok recs /\
    List.length recs = Z.to_nat 6.
Proof.
  split; [exact process_set_law|]. split; [reflexivity|].
  exact (pseudo_recs_raises_exactly Process.py Process.elegant 6
           process_set_law eq_refl).
Defined.

(** X22.  The item ids of an answer of [get_recommendations], in either
    mode, tell the positions: the entry at 0-based position [i] has the
    id [itm_] followed by [i] padded with zeros to three digits, which
    read back as a number is [i], and the name [Recommended Outfit]
    followed by [i + 1]; so no two entries of an answer share an id. *)
Theorem get_recommendations_item_ids :
  forall (py : Interpreter) (env : Env) (user_profile : UserProfile)
         (k : Z) (recs : list Entry),
    snd (get_recommendations py env user_profile k) = Ok recs ->
    NoDup (map e_item_id recs) /\
    forall i e, nth_error recs i = Some e ->
      e_item_id e = String.append "itm_" (pad3 (Z.of_nat i)) /\
      int_of_str (pad3 (Z.of_nat i)) = Ok (Z.of_nat i) /\
      e_name e
      = String.append "Recommended Outfit " (str_of_int (Z.of_nat i + 1)).
Proof.
  intros py env profile k recs H.
  apply VarietyFacts.get_recommendations_entries in H.
  destruct H as (seed & step & H).
  assert (Hlab : forall i e, nth_error recs i = Some e ->
            e_item_id e = String.append "itm_" (pad3 (Z.of_nat i)) /\
            int_of_str (pad3 (Z.of_nat i)) = Ok (Z.of_nat i) /\
            e_name e
            = String.append "Recommended Outfit "
                (str_of_int (Z.of_nat i + 1))).
  { intros i e Hi.
    destruct (VarietyFacts.entries_labels _ _ _ _ _ _ _ _ H Hi) as [H1 H2].
    repeat split; auto. apply VarietyFacts.int_of_str_pad3. lia. }
  split; [|exact Hlab].
  apply NoDup_nth_error. intros i j Hi Hij.
  rewrite length_map in Hi. rewrite !nth_error_map in Hij.
  destruct (nth_error recs i) as [ei|] eqn:Ei;
    [|apply nth_error_None in Ei; lia].
  destruct (nth_error recs j) as [ej|] eqn:Ej; [|discriminate].
  cbn in Hij. injection Hij as Hij.
  destruct (Hlab i ei Ei) as (Hi1 & Hi2 & _).
  destruct (Hlab j ej Ej) as (Hj1 & Hj2 & _).
  rewrite Hi1, Hj1 in Hij. cbn [String.append] in Hij.
  injection Hij as Hij. rewrite Hij, Hj2 in Hi2.
  injection Hi2 as Hi2. lia.
Qed.

Lemma get_recommendations_item_ids_witness :
  snd (get_recommendations Process.py Process.bare Process.elegant 2)
    = Ok Process.elegant_two /\
  NoDup (map e_item_id Process.elegant_two) /\
  forall i e, nth_error Process.elegant_two i = Some e ->
    e_item_id e = String.append "itm_" (pad3 (Z.of_nat i)) /\
    int_of_str (pad3 (Z.of_nat i)) = Ok (Z.of_nat i) /\
    e_name e
    = String.append "Recommended Outfit " (str_of_int (Z.of_nat i + 1)).
Proof.
  split; [vm_compute; reflexivity|].
  apply (get_recommendations_item_ids Process.py Process.bare
           Process.elegant 2).
  vm_compute. reflexivity.
Defined.

(** X23.  [get_recommendations] never brings the model file into
    being: after the call the model directory exists and the model file
    exists exactly if it did before.  Without the model file the call
    takes the dependency-free branch, whatever is installed, and
    writes nothing. *)
Theorem get_recommendations_keeps_model_file :
  forall (py : Interpreter) (env : Env) (user_profile : UserProfile) (k : Z),
    let out := get_recommendations py env user_profile k in
    model_dir_exists (fst out) = true /\
    model_path_exists (fst out) = model_path_exists env /\
    (model_path_exists env = false ->
     out = (_ensure_dirs env, pseudo_recs py user_profile k)).
Proof.
  intros py [t s n d m sc me] profile k.
  unfold get_recommendations, heavy_deps_missing, train_recommender,
    _ensure_dirs.
  cbn [torch sklearn numpy model_dir_exists model_path_exists
       scaler_path_exists meta_path_exists].
  destruct t, s, n, m, sc, me; cbn; repeat split; auto; discriminate.
Qed.

(** X24.  The trained mode.  With the heavy dependencies installed and
    the model file present, a returned list has [k] entries, and the
    entry at 0-based position [i] carries the score
    [round(score - i * 0.05, 4)], where [score] is what the network
    makes of the sixteen features: age / 100, the gender flag, the two
    hash features (the hash taken without [abs]), budget / 1000 and
    eleven zeros. *)
Theorem trained_recs_scores :
  forall (py : Interpreter) (env : Env) (user_profile : UserProfile)
         (k : Z) (recs : list Entry),
    heavy_deps_missing (_ensure_dirs env) = false ->
    snd (get_recommendations py env user_profile k) = Ok recs ->
    exists f score,
      features py user_profile true = Ok f /\
      List.length (uvec f) = 16%nat /\
      trained_score py (uvec f) = Ok score /\
      List.length recs = Z.to_nat k /\
      forall i e, nth_error recs i = Some e ->
        e_score e = round (score - Z2F (Z.of_nat i) * 0.05)%float 4.
Proof.
  intros py env profile k recs Hd. unfold get_recommendations. rewrite Hd.
  destruct (negb (meta_path_exists _)); [discriminate|]. cbn [snd].
  destruct (features py profile true) as [f|] eqn:Ef; [|discriminate].
  cbn [bind].
  destruct (trained_score py (uvec f)) as [s|] eqn:Es; [|discriminate].
  cbn [bind]. intros H. exists f, s.
  split; [reflexivity|]. split.
  { destruct f as [[[[a g] c] st] bu]. reflexivity. }
  split; [exact Es|]. split.
  - eapply GeneratorFacts.entries_length; eauto.
  - intros i e Hi. eapply GeneratorFacts.entries_score; eauto.
Qed.

Lemma trained_recs_scores_witness :
  heavy_deps_missing (_ensure_dirs Installed.env) = false /\
  exists recs,
    snd (get_recommendations Installed.py Installed.env Process.elegant 3)
      = Ok recs /\
    exists f score,
      features Installed.py Process.elegant true = Ok f /\
      List.length (uvec f) = 16%nat /\
      trained_score Installed.py (uvec f) = Ok score /\
      List.length recs = Z.to_nat 3 /\
      forall i e, nth_error recs i = Some e ->
        e_score e = round (score - Z2F (Z.of_nat i) * 0.05)%float 4.
Proof.
  split; [reflexivity|]. eexists. split; [vm_compute; reflexivity|].
  apply (trained_recs_scores Installed.py Installed.env Process.elegant 3);
    [reflexivity | vm_compute; reflexivity].
Defined.
